(** * Deep Research Agent (src/worker.js): a shallow embedding and its properties

    The worker is a JavaScript module.  Its values are dynamically typed, so
    the embedding starts with a small model of the JavaScript values that the
    worker receives from [JSON.parse] (request options, model outputs,
    provider responses), of the conversions the code applies to them
    ([Number], [String], truthiness) and of the string methods it calls.
    Effects (outbound [fetch], timers, the clock) are threaded through an
    explicit world state; exceptions are a constructor of the result type. *)

From Stdlib Require Import ZArith QArith Qround Qminmax Lia Ascii Sorted.
From stdpp Require Import base strings list gmap pretty.

Local Open Scope string_scope.
Local Open Scope list_scope.
Local Open Scope Z_scope.

Set Warnings "-register-all".

(** ** Strings

    A JavaScript string is modelled as a Rocq [string]; each character is one
    code unit in the range U+0000..U+00FF. *)

Module Str.

Definition code (c : ascii) : Z := Z.of_N (Ascii.N_of_ascii c).

Definition of_code (n : Z) : ascii := Ascii.ascii_of_N (Z.to_N n).

(** [String.prototype.toLowerCase] on U+0000..U+00FF: A-Z and the Latin-1
    capitals U+00C0..U+00DE (except the multiplication sign U+00D7) move
    32 code points up. *)
Definition lower_char (c : ascii) : ascii :=
  let n := code c in
  if ((65 <=? n) && (n <=? 90)) || ((192 <=? n) && (n <=? 222) && negb (n =? 215))
  then of_code (n + 32) else c.

Fixpoint toLowerCase (s : string) : string :=
  match s with
  | EmptyString => EmptyString
  | String c r => String (lower_char c) (toLowerCase r)
  end.

(** White space and line terminators stripped by [trim] and skipped by the
    numeric conversions: TAB, LF, VT, FF, CR, SP, NBSP. *)
Definition is_space (c : ascii) : bool :=
  let n := code c in
  ((9 <=? n) && (n <=? 13)) || (n =? 32) || (n =? 160).

Fixpoint trimStart (s : string) : string :=
  match s with
  | String c r => if is_space c then trimStart r else s
  | EmptyString => EmptyString
  end.

Fixpoint trimEnd (s : string) : string :=
  match s with
  | EmptyString => EmptyString
  | String c r =>
      match trimEnd r with
      | EmptyString => if is_space c then EmptyString else String c EmptyString
      | r' => String c r'
      end
  end.

Definition trim (s : string) : string := trimEnd (trimStart s).

Fixpoint startsWith (s p : string) : bool :=
  match p, s with
  | EmptyString, _ => true
  | String a p', String b s' => if Ascii.eqb a b then startsWith s' p' else false
  | String _ _, EmptyString => false
  end.

Fixpoint includes (s p : string) : bool :=
  startsWith s p ||
  match s with
  | EmptyString => false
  | String _ r => includes r p
  end.

Fixpoint endsWith (s p : string) : bool :=
  (String.eqb s p) ||
  match s with
  | EmptyString => false
  | String _ r => endsWith r p
  end.

Definition is_empty (s : string) : bool :=
  match s with EmptyString => true | _ => false end.

(** [arr.join(sep)] on strings. *)
Fixpoint join (sep : string) (l : list string) : string :=
  match l with
  | [] => ""
  | [x] => x
  | x :: r => x +:+ sep +:+ join sep r
  end.

End Str.

(** ** Results of computations that may throw *)

Inductive res (A : Type) : Type :=
  | Ok (a : A)
  | Throw (msg : string).
Arguments Ok {A} a.
Arguments Throw {A} msg.

Definition res_bind {A B} (m : res A) (k : A -> res B) : res B :=
  match m with
  | Ok a => k a
  | Throw msg => Throw msg
  end.

Notation "'let*' x ':=' m 'in' k" := (res_bind m (fun x => k))
  (at level 10, x name, m at level 100, k at level 200, only parsing).

(** [mapM] for [res]: the first exception aborts the traversal, as an
    exception thrown by the callback of [Array.prototype.map] does. *)
Fixpoint res_map {A B} (f : A -> res B) (l : list A) : res (list B) :=
  match l with
  | [] => Ok []
  | x :: r =>
      match f x with
      | Ok y => match res_map f r with
                | Ok ys => Ok (y :: ys)
                | Throw m => Throw m
                end
      | Throw m => Throw m
      end
  end.

(** The outcome of code with a loop: the loops are given fuel, and
    [OutOfFuel] is the outcome of a loop that was cut short. *)
Inductive run (A : Type) : Type :=
  | Returns (a : A)
  | Throws (msg : string)
  | OutOfFuel.
Arguments Returns {A} a.
Arguments Throws {A} msg.
Arguments OutOfFuel {A}.

Definition run_of {A} (r : res A) : run A :=
  match r with
  | Ok a => Returns a
  | Throw msg => Throws msg
  end.

Definition run_bind {A B} (m : run A) (k : A -> run B) : run B :=
  match m with
  | Returns a => k a
  | Throws msg => Throws msg
  | OutOfFuel => OutOfFuel
  end.

Notation "'let+' x ':=' m 'in' k" := (run_bind m (fun x => k))
  (at level 10, x name, m at level 100, k at level 200, only parsing).

(** ** JavaScript numbers

    A Number is NaN, an infinity or a finite double.  A finite double is
    carried by its exact rational value; the code only compares, truncates
    and subtracts small integers, all of which are exact on that value.
    Signed zeros are not distinguished (no operation used here tells them
    apart). *)

Inductive jsnum : Type :=
  | NaN
  | PInf
  | NInf
  | Fin (q : Q).

Module Num.

Definition of_Z (z : Z) : jsnum := Fin (inject_Z z).

Definition isFinite (x : jsnum) : bool :=
  match x with Fin _ => true | _ => false end.

(** [a < b]; false as soon as one side is NaN. *)
Definition lt (a b : jsnum) : bool :=
  match a, b with
  | NaN, _ | _, NaN => false
  | PInf, _ => false
  | _, NInf => false
  | NInf, _ => true
  | _, PInf => true
  | Fin p, Fin q => match Qcompare p q with Lt => true | _ => false end
  end.

Definition eq (a b : jsnum) : bool :=
  match a, b with
  | PInf, PInf | NInf, NInf => true
  | Fin p, Fin q => Qeq_bool p q
  | _, _ => false
  end.

Definition gt (a b : jsnum) : bool := lt b a.
Definition le (a b : jsnum) : bool := lt a b || eq a b.
Definition ge (a b : jsnum) : bool := le b a.

(** [Math.trunc] of a finite value. *)
Definition trunc (q : Q) : Z := Z.quot (Qnum q) (Zpos (Qden q)).

(** Rounding of an exact rational to the nearest double, ties to even
    (binary64: 53 bits of precision, exponents -1022..1023, overflow to an
    infinity from 2^1024 - 2^970 on). *)
Definition ilog2 (q : Q) : Z :=
  let e := Z.log2 (Qnum q) - Z.log2 (Zpos (Qden q)) in
  if Qle_bool (Qpower 2 e) q then e else e - 1.

Definition round_half_even (q : Q) : Z :=
  let f := Qfloor q in
  match Qcompare (q - inject_Z f) (1 # 2) with
  | Lt => f
  | Gt => f + 1
  | Eq => if Z.even f then f else f + 1
  end.

Definition round_pos (q : Q) : option Q :=
  let p := Z.max (ilog2 q) (-1022) - 52 in
  let m := round_half_even (q / Qpower 2 p) in
  let v := (inject_Z m * Qpower 2 p)%Q in
  if Qle_bool (Qpower 2 1024) v then None else Some (Qred v).

Definition of_Q (q : Q) : jsnum :=
  match Qcompare q 0 with
  | Eq => Fin 0
  | Gt => match round_pos q with Some v => Fin v | None => PInf end
  | Lt => match round_pos (- q) with Some v => Fin (- v) | None => NInf end
  end.

End Num.

(** ** String to Number conversions *)

Module Parse.

Definition digit_of (c : ascii) : option Z :=
  let n := Str.code c in
  if (48 <=? n) && (n <=? 57) then Some (n - 48) else None.

Definition hex_digit_of (c : ascii) : option Z :=
  let n := Str.code c in
  if (48 <=? n) && (n <=? 57) then Some (n - 48)
  else if (65 <=? n) && (n <=? 70) then Some (n - 55)
  else if (97 <=? n) && (n <=? 102) then Some (n - 87)
  else None.

(** The longest prefix of digits (for the digit reader [rd]) and the rest. *)
Fixpoint span_digits (rd : ascii -> option Z) (s : string) : list Z * string :=
  match s with
  | EmptyString => ([], EmptyString)
  | String c r =>
      match rd c with
      | Some d => let '(ds, rest) := span_digits rd r in (d :: ds, rest)
      | None => ([], s)
      end
  end.

Definition digits_value (radix : Z) (ds : list Z) : Z :=
  fold_left (fun acc d => radix * acc + d) ds 0.

Definition nonempty {A} (l : list A) : bool :=
  match l with [] => false | _ => true end.

(** A whole string of digits in the given radix (after a 0x, 0o or 0b
    prefix). *)
Definition radix_literal (radix : Z) (rd : ascii -> option Z) (s : string) : jsnum :=
  match span_digits rd s with
  | (ds, EmptyString) =>
      if nonempty ds then Num.of_Q (inject_Z (digits_value radix ds)) else NaN
  | _ => NaN
  end.

Definition bin_digit_of (c : ascii) : option Z :=
  match digit_of c with Some d => if d <? 2 then Some d else None | None => None end.

Definition oct_digit_of (c : ascii) : option Z :=
  match digit_of c with Some d => if d <? 8 then Some d else None | None => None end.

(** ExponentPart: [e] or [E], an optional sign, at least one digit, then the
    end of the string.  An empty rest is exponent 0. *)
Definition exponent_part (s : string) : option Z :=
  match s with
  | EmptyString => Some 0
  | String c r =>
      if (Ascii.eqb c "e" || Ascii.eqb c "E")%char then
        let '(neg, r') :=
          match r with
          | String "-"%char t => (true, t)
          | String "+"%char t => (false, t)
          | _ => (false, r)
          end in
        match span_digits digit_of r' with
        | (ds, EmptyString) =>
            if nonempty ds
            then Some (if neg then - digits_value 10 ds else digits_value 10 ds)
            else None
        | _ => None
        end
      else None
  end.

(** StrUnsignedDecimalLiteral, as an exact rational (or an infinity). *)
Definition unsigned_decimal (s : string) : option (option Q) :=
  if String.eqb s "Infinity" then Some None else
  let '(ip, r1) := span_digits digit_of s in
  let '(fp, r2) :=
    match r1 with
    | String "."%char t => span_digits digit_of t
    | _ => ([], r1)
    end in
  if nonempty ip || nonempty fp then
    match exponent_part r2 with
    | Some e =>
        Some (Some (inject_Z (digits_value 10 (ip ++ fp))
                    * Qpower 10 (e - Z.of_nat (length fp)))%Q)
    | None => None
    end
  else None.

(** [Number(s)] for a string [s] (StringToNumber): white space is trimmed,
    the empty string is 0, the whole rest must be one numeric literal. *)
Definition StringToNumber (s : string) : jsnum :=
  match Str.trim s with
  | EmptyString => Fin 0
  | String "0"%char (String "x"%char r) | String "0"%char (String "X"%char r) =>
      radix_literal 16 hex_digit_of r
  | String "0"%char (String "o"%char r) | String "0"%char (String "O"%char r) =>
      radix_literal 8 oct_digit_of r
  | String "0"%char (String "b"%char r) | String "0"%char (String "B"%char r) =>
      radix_literal 2 bin_digit_of r
  | String "-"%char r =>
      match unsigned_decimal r with
      | Some (Some q) => Num.of_Q (- q)
      | Some None => NInf
      | None => NaN
      end
  | String "+"%char r =>
      match unsigned_decimal r with
      | Some (Some q) => Num.of_Q q
      | Some None => PInf
      | None => NaN
      end
  | t =>
      match unsigned_decimal t with
      | Some (Some q) => Num.of_Q q
      | Some None => PInf
      | None => NaN
      end
  end.

(** [parseInt(s, 10)]: leading white space and a sign are skipped, the
    longest run of decimal digits is read and the rest is ignored. *)
Definition parseInt10 (s : string) : jsnum :=
  let t := Str.trimStart s in
  let '(neg, r) :=
    match t with
    | String "-"%char u => (true, u)
    | String "+"%char u => (false, u)
    | _ => (false, t)
    end in
  match span_digits digit_of r with
  | (ds, _) =>
      if nonempty ds
      then Num.of_Q (inject_Z (if neg then - digits_value 10 ds else digits_value 10 ds))
      else NaN
  end.

End Parse.

(** ** JavaScript values

    The values [JSON.parse] produces, plus [undefined] for an absent
    property.  An object is its list of own properties; a key is looked up
    from the front. *)

Inductive jsval : Type :=
  | JUndef
  | JNull
  | JBool (b : bool)
  | JNum (x : jsnum)
  | JStr (s : string)
  | JArr (l : list jsval)
  | JObj (fields : list (string * jsval)).

(** What the runtime provides and the worker does not define: the shortest
    round-trip printing of a Number, the WHATWG URL parser ([new URL(u)]
    throws on [None], otherwise [hostname] is the content) and
    [JSON.stringify]. *)
Class Platform : Type := {
  Number_toString : jsnum -> string;
  URL_hostname : string -> option string;
  JSON_stringify : jsval -> string;
}.

Module JS.

Definition truthy (v : jsval) : bool :=
  match v with
  | JUndef | JNull => false
  | JBool b => b
  | JNum NaN => false
  | JNum (Fin q) => negb (Qeq_bool q 0)
  | JNum _ => true
  | JStr s => negb (Str.is_empty s)
  | JArr _ | JObj _ => true
  end.

(** [a || b] *)
Definition or (a b : jsval) : jsval := if truthy a then a else b.

(** [a ?? b] *)
Definition nullish (a b : jsval) : jsval :=
  match a with JUndef | JNull => b | _ => a end.

Fixpoint lookup (k : string) (fields : list (string * jsval)) : option jsval :=
  match fields with
  | [] => None
  | (k', v) :: r => if String.eqb k k' then Some v else lookup k r
  end.

Definition type_name (v : jsval) : string :=
  match v with JUndef => "undefined" | _ => "null" end.

(** The message of the TypeError raised by a property read on [undefined]
    or [null] (V8 wording). *)
Definition read_error (v : jsval) (k : string) : string :=
  "Cannot read properties of " +:+ type_name v +:+ " (reading '" +:+ k +:+ "')".

(** [v.k] for the property names the worker reads; none of them is an
    inherited property of a string, number, boolean or array. *)
Definition get (v : jsval) (k : string) : res jsval :=
  match v with
  | JUndef | JNull => Throw (read_error v k)
  | JObj fs => Ok (default JUndef (lookup k fs))
  | _ => Ok JUndef
  end.

(** [v?.k] *)
Definition get_opt (v : jsval) (k : string) : jsval :=
  match v with
  | JObj fs => default JUndef (lookup k fs)
  | _ => JUndef
  end.

(** [v.length] *)
Definition get_length (v : jsval) : res jsval :=
  match v with
  | JArr l => Ok (JNum (Num.of_Z (Z.of_nat (length l))))
  | JStr s => Ok (JNum (Num.of_Z (Z.of_nat (String.length s))))
  | _ => get v "length"
  end.

Definition to_primitive_error : string := "Cannot convert object to primitive value".

Section Conversions.
Context `{Platform}.

(** [String(v)].  A plain object prints as [[object Object]]; when it has an
    own [toString] property (never callable in parsed JSON) the conversion
    throws. *)
Fixpoint ToString (v : jsval) : res string :=
  match v with
  | JUndef => Ok "undefined"
  | JNull => Ok "null"
  | JBool true => Ok "true"
  | JBool false => Ok "false"
  | JNum x => Ok (Number_toString x)
  | JStr s => Ok s
  | JArr l =>
      let* parts :=
        (fix elems (l : list jsval) : res (list string) :=
           match l with
           | [] => Ok []
           | x :: r =>
               let* a := match x with
                         | JUndef | JNull => Ok ""
                         | _ => ToString x
                         end in
               let* b := elems r in
               Ok (a :: b)
           end) l in
      Ok (Str.join "," parts)
  | JObj fs =>
      match lookup "toString" fs with
      | Some _ => Throw to_primitive_error
      | None => Ok "[object Object]"
      end
  end.

(** [Number(v)] *)
Definition ToNumber (v : jsval) : res jsnum :=
  match v with
  | JUndef => Ok NaN
  | JNull => Ok (Fin 0)
  | JBool true => Ok (Fin 1)
  | JBool false => Ok (Fin 0)
  | JNum x => Ok x
  | JStr s => Ok (Parse.StringToNumber s)
  | JArr _ | JObj _ =>
      let* s := ToString v in
      Ok (Parse.StringToNumber s)
  end.

End Conversions.

(** [typeof v === "string"] *)
Definition is_string (v : jsval) : bool :=
  match v with JStr _ => true | _ => false end.

Definition not_a_function (what : string) : string := what +:+ " is not a function".

(** [v.trim()]: only strings have the method. *)
Definition trim (v : jsval) : res string :=
  match v with
  | JStr s => Ok (Str.trim s)
  | JUndef | JNull => Throw (read_error v "trim")
  | _ => Throw (not_a_function "trim")
  end.

End JS.

(** ** Request options and the run configuration *)

Section Config.
Context `{Platform}.

(** [clampInt(v, min, max)] *)
Definition clampInt (v : jsval) (min max : Z) : res Z :=
  let* n := JS.ToNumber v in
  match n with
  | Fin q => Ok (Z.max min (Z.min max (Num.trunc q)))
  | _ => Ok min
  end.

(** [clampFloat(v, min, max, null)]; [None] is the [null] default. *)
Definition clampFloat (v : jsval) (min max : Q) : res (option Q) :=
  match v with
  | JUndef | JNull => Ok None
  | _ =>
      let* n := JS.ToNumber v in
      match n with
      | Fin q => Ok (Some (Qmax min (Qmin max q)))
      | PInf | NInf | NaN => Ok None
      end
  end.

Definition one_of (choices : list string) (s : string) : bool :=
  existsb (String.eqb s) choices.

(** [normalizeWebContextSize(v)] *)
Definition normalizeWebContextSize (v : jsval) : res string :=
  let* t := JS.ToString (JS.or v (JStr "")) in
  let s := Str.toLowerCase t in
  if one_of ["low"; "medium"; "high"] s then Ok s else Ok "medium".

(** [normalizeReasoningEffort(v)] *)
Definition normalizeReasoningEffort (v : jsval) : res (option string) :=
  if negb (JS.truthy v) then Ok None else
  let* t := JS.ToString v in
  let s := Str.toLowerCase t in
  if one_of ["low"; "medium"; "high"] s then Ok (Some s) else Ok None.

(** [normalizeReasoningSummary(v)] *)
Definition normalizeReasoningSummary (v : jsval) : res (option string) :=
  if negb (JS.truthy v) then Ok None else
  let* t := JS.ToString v in
  let s := Str.toLowerCase t in
  if one_of ["auto"; "concise"; "detailed"] s then Ok (Some s) else Ok None.

(** The [cfg] object of the [/research] route.  [userLocation] only feeds
    the request payload and its normalisation cannot throw; it is left
    out. *)
Record config : Type := {
  model : jsval;
  temperature : option Q;
  top_p : option Q;
  max_output_tokens : option Z;
  reasoning_effort : option string;
  instructions : option string;
  maxSearchRounds : Z;
  maxFacts : Z;
  minNewFactsPerRound : Z;
  webContextSize : string;
  forceDomains : option (list jsval);
  store : bool;
  background : bool;
  codeInterpreter : bool;
  maxToolCalls : option Z;
  reasoningSummary : option string;
  maxRetries : Z;
}.

Definition opt (options : jsval) (k : string) : jsval := JS.get_opt options k.

Definition is_true (v : jsval) : bool :=
  match v with JBool true => true | _ => false end.

Definition is_false (v : jsval) : bool :=
  match v with JBool false => true | _ => false end.

(** The initialiser of [cfg] in [fetch]: [options] is [body.options || {}]
    (a truthy value) and [env_model] is [env.OPENAI_MODEL]. *)
Definition build_cfg (options env_model : jsval) : res config :=
  let model := JS.or (JS.or (opt options "model") env_model) (JStr "gpt-4o-mini") in
  let* temperature := clampFloat (opt options "temperature") 0 2 in
  let* top_p := clampFloat (opt options "top_p") 0 1 in
  let* max_output_tokens :=
    if JS.truthy (opt options "max_output_tokens")
    then (let* n := clampInt (opt options "max_output_tokens") 1 128000 in Ok (Some n))
    else Ok None in
  let* reasoning_effort := normalizeReasoningEffort (opt options "reasoning_effort") in
  let instructions :=
    match opt options "instructions" with JStr s => Some s | _ => None end in
  let* maxSearchRounds := clampInt (JS.nullish (opt options "maxSearchRounds") (JNum (Fin 4))) 1 10 in
  let* maxFacts := clampInt (JS.nullish (opt options "maxFacts") (JNum (Fin 18))) 5 50 in
  let* minNewFactsPerRound :=
    clampInt (JS.nullish (opt options "minNewFactsPerRound") (JNum (Fin 2))) 0 10 in
  let* webContextSize :=
    normalizeWebContextSize (JS.nullish (opt options "webContextSize") (JStr "medium")) in
  let forceDomains :=
    match opt options "forceDomains" with JArr l => Some l | _ => None end in
  let store := negb (is_false (opt options "store")) in
  let background := is_true (opt options "background") in
  let codeInterpreter := is_true (opt options "codeInterpreter") in
  let* maxToolCalls :=
    if JS.truthy (opt options "maxToolCalls")
    then (let* n := clampInt (opt options "maxToolCalls") 1 1000 in Ok (Some n))
    else Ok None in
  let* reasoningSummary := normalizeReasoningSummary (opt options "reasoningSummary") in
  let* maxRetries := clampInt (JS.nullish (opt options "maxRetries") (JNum (Fin 3))) 0 5 in
  Ok {| model := model; temperature := temperature; top_p := top_p;
        max_output_tokens := max_output_tokens; reasoning_effort := reasoning_effort;
        instructions := instructions; maxSearchRounds := maxSearchRounds;
        maxFacts := maxFacts; minNewFactsPerRound := minNewFactsPerRound;
        webContextSize := webContextSize; forceDomains := forceDomains;
        store := store; background := background; codeInterpreter := codeInterpreter;
        maxToolCalls := maxToolCalls; reasoningSummary := reasoningSummary;
        maxRetries := maxRetries |}.

(** [isDeepResearchModel(model)], read as a condition.  [includes] is the
    substring test on a string and the membership test on an array. *)
Definition isDeepResearchModel (m : jsval) : res bool :=
  if negb (JS.truthy m) then Ok false else
  match m with
  | JStr s => Ok (Str.includes s "deep-research")
  | JArr l =>
      Ok (existsb (fun x => match x with
                            | JStr s => String.eqb s "deep-research"
                            | _ => false
                            end) l)
  | _ => Throw (JS.not_a_function "model.includes")
  end.

End Config.

(** ** Evidence model *)

(** Lookup tables of [domainQualityScore]. *)
Definition docSignals : list string :=
  ["standards"; "ietf.org"; "iso.org"; "w3.org"; "docs."; "developer."; "api-reference"].
Definition researchSignals : list string :=
  ["acm.org"; "ieee.org"; "nature.com"; "science.org"; "arxiv.org"].
Definition okSignals : list string := ["wikipedia.org"; "britannica.com"].
Definition lowSignals : list string := ["medium.com"; "substack.com"; "blogspot"; "wordpress"].
Definition veryLow : list string := ["x.com"; "twitter.com"; "reddit.com"; "tiktok.com"].

(** [signals.some((x) => u.includes(x))] *)
Definition some_included (signals : list string) (u : string) : bool :=
  existsb (fun x => Str.includes u x) signals.

(** [domainQualityScore(url)] on a string ([url || ""] is then [url]). *)
Definition domainQualityScore (url : string) : Z :=
  let u := Str.toLowerCase url in
  if Str.endsWith u ".gov" || Str.includes u ".gov/" then 5
  else if Str.endsWith u ".edu" || Str.includes u ".edu/" then 5
  else if some_included docSignals u then 4
  else if some_included researchSignals u then 4
  else if some_included okSignals u then 3
  else if some_included lowSignals u then 2
  else if some_included veryLow u then 1
  else 2.

(** [normalizeUrl(url)]: [(url || "").trim()]. *)
Definition normalizeUrl (url : jsval) : res string :=
  JS.trim (JS.or url (JStr "")).

(** A fact after normalisation (the object built in the [map] callback of
    [deepResearchAgent]). *)
Record Fact : Type := {
  fact : jsval;
  url : string;
  title : jsval;
  date : jsval;
  confidence : jsnum;
  source_quality : Z;
}.

(** [dedupeFacts(facts)], with [seen] the set of keys met so far. *)
Fixpoint dedupe_from (seen : gset string) (facts : list Fact) : res (list Fact) :=
  match facts with
  | [] => Ok []
  | f :: r =>
      let* t := JS.trim (JS.or (fact f) (JStr "")) in
      let key := Str.toLowerCase t in
      if Str.is_empty key then dedupe_from seen r
      else if decide (key ∈ seen) then dedupe_from seen r
      else
        let* out := dedupe_from ({[key]} ∪ seen) r in
        Ok (f :: out)
  end.

Definition dedupeFacts (facts : list Fact) : res (list Fact) := dedupe_from ∅ facts.

Section Evidence.
Context `{Platform}.

(** The callback of [forceDomains.some] for one entry [d] and the lowercased
    host. *)
Definition domain_matches (host : string) (d : jsval) : res bool :=
  let* s := JS.ToString d in
  let dd := Str.trim (Str.toLowerCase s) in
  if Str.is_empty dd then Ok false
  else if Str.startsWith dd "." then Ok (Str.endsWith host dd)
  else Ok (String.eqb host dd || Str.endsWith host ("." +:+ dd)).

Fixpoint domains_some (host : string) (ds : list jsval) : res bool :=
  match ds with
  | [] => Ok false
  | d :: r =>
      let* b := domain_matches host d in
      if b then Ok true else domains_some host r
  end.

(** [urlAllowedByForceDomains(url, forceDomains)]: any exception inside the
    [try] (the URL constructor, [String(d)]) is caught and gives [false]. *)
Definition urlAllowedByForceDomains (url : string) (fd : option (list jsval)) : bool :=
  match fd with
  | None | Some [] => true
  | Some ds =>
      match URL_hostname url with
      | None => false
      | Some h =>
          match domains_some (Str.toLowerCase h) ds with
          | Ok b => b
          | _ => false
          end
      end
  end.

(** The [map] callback of the round: trim the URL, score the source, read
    and cap the confidence. *)
Definition normalize_fact (f : jsval) : res Fact :=
  let* u := JS.get f "url" in
  let* url := normalizeUrl u in
  let source_quality := domainQualityScore url in
  let* c := JS.get f "confidence" in
  let* confidence := JS.ToNumber (JS.or c (JNum (Fin 1))) in
  let confidence :=
    if (source_quality <=? 2) && Num.gt confidence (Fin 3) then Fin 3 else confidence in
  let* ft := JS.get f "fact" in
  let* t := JS.get f "title" in
  let* d := JS.get f "date" in
  Ok {| fact := ft; url := url; title := JS.or t JNull; date := JS.or d JNull;
        confidence := confidence; source_quality := source_quality |}.

(** The first [filter]: [f.fact && f.url && Number(f.confidence) >= 2]. *)
Definition acceptable (f : Fact) : bool :=
  JS.truthy (fact f) && negb (Str.is_empty (url f)) && Num.ge (confidence f) (Fin 2).

(** Normalize + score + optional domain filter, for the facts of one round
    ([extracted.facts || []]). *)
Definition round_facts (cfg : config) (facts : jsval) : res (list Fact) :=
  let* raw :=
    match JS.or facts (JArr []) with
    | JArr l => Ok l
    | _ => Throw (JS.not_a_function "roundFacts.map")
    end in
  let* mapped := res_map normalize_fact raw in
  Ok (List.filter (fun f => urlAllowedByForceDomains (url f) (forceDomains cfg))
        (List.filter acceptable mapped)).

End Evidence.

(** ** The research loop *)

(** The model-backed stages, as seen by the agent: each is one remote call
    that either fails ([Throw], which aborts the request) or returns text;
    for the stages whose text is parsed, [None] stands for text that is not
    JSON.  Results may differ from round to round. *)
Record stages : Type := {
  planner_reply : res (option jsval);
  webSearch : Z -> jsval -> res string;
  extractFacts_reply : Z -> string -> res (option jsval);
  synthesize : list Fact -> list jsval -> res string;
  validate_reply : list Fact -> string -> res (option jsval);
}.

(** [safeJsonParse(text) || dflt] *)
Definition parsed_or (parsed : option jsval) (dflt : jsval) : jsval :=
  match parsed with
  | Some v => JS.or v dflt
  | None => dflt
  end.

Definition jstrs_list (l : list string) : list jsval := map JStr l.

Definition jstrs (l : list string) : jsval := JArr (jstrs_list l).

Definition jint (z : Z) : jsval := JNum (Num.of_Z z).

Definition default_plan (question : string) : jsval :=
  JObj [("queries", JArr [JStr question]);
        ("preferred_source_types",
          jstrs ["official docs"; "gov/edu"; "standards/specs"; "peer-reviewed"; "reputable news"]);
        ("must_answer", jstrs ["Answer the question with citations"]);
        ("avoid", jstrs ["low-quality blogs"; "social posts unless corroborated"]);
        ("stop_when", JObj [("min_distinct_sources", jint 3);
                            ("min_facts", jint 8);
                            ("no_new_facts_rounds", jint 2)])].

Definition planner (st : stages) (question : string) : res jsval :=
  let* p := planner_reply st in
  Ok (parsed_or p (default_plan question)).

Definition extractFacts (st : stages) (round : Z) (snippets : string) : res jsval :=
  let* p := extractFacts_reply st round snippets in
  Ok (parsed_or p (JObj [("facts", JArr []); ("conflicts", JArr [])])).

Definition validate (st : stages) (facts : list Fact) (draft : string) : res jsval :=
  let* p := validate_reply st facts draft in
  Ok (parsed_or p (JObj [("ok", JBool false);
                         ("issues", jstrs ["Validator JSON parse failed"]);
                         ("revised_answer", JStr draft)])).

Inductive stop_reason : Type :=
  | max_facts_reached
  | coverage_reached
  | stagnation.

Inductive trace_event : Type :=
  | TrPlan (plan : jsval)
  | TrSearch (round : Z) (query : jsval)
  | TrExtract (round rawFactCount filteredFactCount newFacts totalFacts distinctSources : Z)
  | TrStop (reason : stop_reason)
  | TrDraft (draftLen : Z)
  | TrValidate (validation : jsval).

(** The evidence gathered so far: [allFacts], [allConflicts], [seenUrls]. *)
Record evidence : Type := {
  allFacts : list Fact;
  allConflicts : list jsval;
  seenUrls : gset string;
}.

(** The variables the loop updates. *)
Record loop_state : Type := {
  gathered : evidence;
  noNewRounds : Z;
  trace : list trace_event;
}.

(** [Array.isArray(plan.queries) ? plan.queries.slice(0, 10) : [question]] *)
Definition plan_queries (plan : jsval) (question : string) : list jsval :=
  match JS.get_opt plan "queries" with
  | JArr l => take 10 l
  | _ => [JStr question]
  end.

(** [queries[(round - 1) % Math.max(1, queries.length)]] *)
Definition query_index (queries : list jsval) (round : Z) : Z :=
  Z.rem (round - 1) (Z.max 1 (Z.of_nat (length queries))).

Definition select_query (queries : list jsval) (round : Z) : jsval :=
  let i := query_index queries round in
  if i <? 0 then JUndef else default JUndef (queries !! Z.to_nat i).

(** [for (const f of allFacts) if (f.url) seenUrls.add(f.url)] *)
Definition add_urls (seen : gset string) (facts : list Fact) : gset string :=
  fold_left (fun acc f => if Str.is_empty (url f) then acc else {[url f]} ∪ acc) facts seen.

(** [if (roundConflicts.length) allConflicts = allConflicts.concat(roundConflicts)];
    [concat] spreads an array and appends any other value as one element. *)
Definition concat_conflicts (all : list jsval) (roundConflicts : jsval) : list jsval :=
  match roundConflicts with
  | JArr l => all ++ l
  | JStr _ => all ++ [roundConflicts]
  | JObj fs =>
      if JS.truthy (default JUndef (JS.lookup "length" fs)) then all ++ [roundConflicts] else all
  | _ => all
  end.

Definition len {A} (l : list A) : Z := Z.of_nat (length l).

(** The thresholds read from [plan.stop_when]. *)
Record thresholds : Type := {
  minSources : jsnum;
  minFacts : jsnum;
  noNewRoundsLimit : jsnum;
}.

(** What one round finds: the query it used, the counts it traces and the
    evidence after the merge. *)
Record round_report : Type := {
  query : jsval;
  rawFactCount : Z;
  filteredFactCount : Z;
  newFacts : Z;
  after : evidence;
}.

Definition distinctSources (e : evidence) : Z := Z.of_nat (size (seenUrls e)).

Section Loop.
Context `{Platform}.
Variable st : stages.
Variable cfg : config.
Variable queries : list jsval.
Variable th : thresholds.

(** The first part of an iteration: search, extract, normalise, filter and
    merge into the evidence. *)
Definition round_evidence (round : Z) (e : evidence) : res round_report :=
  let q := select_query queries round in
  let* snippets := webSearch st round q in
  let* extracted := extractFacts st round snippets in
  let* fs := JS.get extracted "facts" in
  let* cs := JS.get extracted "conflicts" in
  let roundConflicts := JS.or cs (JArr []) in
  let raw := match JS.or fs (JArr []) with JArr l => len l | _ => 0 end in
  let* roundFacts := round_facts cfg fs in
  let before := len (allFacts e) in
  let* all := dedupeFacts (allFacts e ++ roundFacts) in
  Ok {| query := q; rawFactCount := raw; filteredFactCount := len roundFacts;
        newFacts := len all - before;
        after := {| allFacts := all;
                    allConflicts := concat_conflicts (allConflicts e) roundConflicts;
                    seenUrls := add_urls (seenUrls e) all |} |}.

(** [noNewRounds] after [if (newFacts < cfg.minNewFactsPerRound) noNewRounds++;
    else noNewRounds = 0;] *)
Definition count_stagnation (noNew new : Z) : Z :=
  if new <? minNewFactsPerRound cfg then noNew + 1 else 0.

Definition budget_reached (e : evidence) : bool := len (allFacts e) >=? maxFacts cfg.

Definition coverage (e : evidence) : bool :=
  Num.ge (Num.of_Z (distinctSources e)) (minSources th)
  && Num.ge (Num.of_Z (len (allFacts e))) (minFacts th).

(** The three [break] tests at the end of an iteration, in their order. *)
Definition stop_decision (noNew : Z) (e : evidence) : option stop_reason :=
  if budget_reached e then Some max_facts_reached
  else if coverage e then Some coverage_reached
  else if Num.ge (Num.of_Z noNew) (noNewRoundsLimit th) then Some stagnation
  else None.

Definition round_events (round : Z) (r : round_report) : list trace_event :=
  [TrSearch round (query r);
   TrExtract round (rawFactCount r) (filteredFactCount r) (newFacts r)
     (len (allFacts (after r))) (distinctSources (after r))].

(** One iteration of the [for] loop; the boolean tells whether it ended in
    [break]. *)
Definition round_body (round : Z) (s : loop_state) : res (loop_state * bool) :=
  let* r := round_evidence round (gathered s) in
  let tr := trace s ++ round_events round r in
  let noNew := count_stagnation (noNewRounds s) (newFacts r) in
  match stop_decision noNew (after r) with
  | Some reason =>
      Ok ({| gathered := after r; noNewRounds := noNew; trace := tr ++ [TrStop reason] |},
          true)
  | None => Ok ({| gathered := after r; noNewRounds := noNew; trace := tr |}, false)
  end.

(** [for (let round = 1; round <= cfg.maxSearchRounds; round++) { ... }],
    entered at [round]. *)
Fixpoint research_loop (fuel : nat) (round : Z) (s : loop_state) : run loop_state :=
  if round <=? maxSearchRounds cfg then
    match fuel with
    | O => OutOfFuel
    | S fuel' =>
        let+ r := run_of (round_body round s) in
        if snd r then Returns (fst r) else research_loop fuel' (round + 1) (fst r)
    end
  else Returns s.

End Loop.

(** ** Ranking, synthesis, validation and the final answer *)

(** The comparator of the final [sort]: a positive value puts [a] after [b].
    It orders by descending source quality, then descending confidence
    (a NaN difference counts as 0). *)
Definition ranks_before (a b : Fact) : bool :=
  (source_quality b <? source_quality a)
  || ((source_quality b =? source_quality a) && Num.lt (confidence b) (confidence a)).

(** [Array.prototype.sort] is stable.  [rank_insert f sorted] puts [f],
    which came before every element of [sorted] in the array, in front of
    the first element that does not strictly precede it. *)
Fixpoint rank_insert (f : Fact) (sorted : list Fact) : list Fact :=
  match sorted with
  | [] => [f]
  | g :: r => if ranks_before g f then g :: rank_insert f r else f :: sorted
  end.

Definition rank (facts : list Fact) : list Fact :=
  fold_right rank_insert [] facts.

(** [validation.ok ? draft : (validation.revised_answer || draft)] *)
Definition select_answer (validation : jsval) (draft : string) : jsval :=
  if JS.truthy (JS.get_opt validation "ok") then JStr draft
  else JS.or (JS.get_opt validation "revised_answer") (JStr draft).

(** The object returned by the standard pipeline; entry [n] (from 0) of
    [fact_table] carries the id [F(n+1)]. *)
Record research_result : Type := {
  r_plan : jsval;
  fact_table : list Fact;
  conflicts : list jsval;
  answer : jsval;
  validation : jsval;
  r_trace : list trace_event;
}.

(** Outcome of [deepResearchAgent]: a deep-research model is handed over to
    [runDeepResearchModel]; any other model runs the pipeline. *)
Inductive agent_outcome : Type :=
  | HandedToDeepResearch
  | Researched (r : research_result).

Section Agent.
Context `{Platform}.
Variable st : stages.

(** [Number(stop.k || dflt)] for [stop = plan.stop_when || {}]. *)
Definition stop_number (plan : jsval) (k : string) (dflt : Z) : res jsnum :=
  let stop := JS.or (JS.get_opt plan "stop_when") (JObj []) in
  JS.ToNumber (JS.or (JS.get_opt stop k) (jint dflt)).

Definition plan_thresholds (plan : jsval) : res thresholds :=
  let* a := stop_number plan "min_distinct_sources" 3 in
  let* b := stop_number plan "min_facts" 8 in
  let* c := stop_number plan "no_new_facts_rounds" 2 in
  Ok {| minSources := a; minFacts := b; noNewRoundsLimit := c |}.

Definition initial_state (plan : jsval) : loop_state :=
  {| gathered := {| allFacts := []; allConflicts := []; seenUrls := ∅ |};
     noNewRounds := 0; trace := [TrPlan plan] |}.

(** The rounds of a request, from the plan on. *)
Definition run_rounds (question : string) (cfg : config) (plan : jsval) : run loop_state :=
  let queries := plan_queries plan question in
  let+ th := run_of (plan_thresholds plan) in
  research_loop st cfg queries th (Z.to_nat (maxSearchRounds cfg)) 1 (initial_state plan).

(** [deepResearchAgent({ question, cfg, env })] *)
Definition deepResearchAgent (question : string) (cfg : config) : run agent_outcome :=
  let+ deep := run_of (isDeepResearchModel (model cfg)) in
  if deep then Returns HandedToDeepResearch else
  let+ plan := run_of (planner st question) in
  let+ s := run_rounds question cfg plan in
  let ranked := rank (allFacts (gathered s)) in
  let+ draft := run_of (synthesize st ranked (allConflicts (gathered s))) in
  let tr1 := trace s ++ [TrDraft (Z.of_nat (String.length draft))] in
  let+ v := run_of (validate st ranked draft) in
  let tr2 := tr1 ++ [TrValidate v] in
  Returns (Researched {| r_plan := plan; fact_table := ranked;
                         conflicts := allConflicts (gathered s);
                         answer := select_answer v draft; validation := v;
                         r_trace := tr2 |}).

End Agent.

(** ** The outside world: clock, timers and [fetch] *)

Inductive request : Type :=
  | POST_responses (input : string)
  | GET_response (id : string).

(** A response body: its text and what [JSON.parse] makes of it (the parsed
    value, or the message of the SyntaxError). *)
Inductive http_body : Type :=
  | BodyJson (text : string) (v : jsval)
  | BodyText (text : string) (syntax_error : string).

Record http_response : Type := {
  http_status : Z;
  retry_after : option string;
  http_body_of : http_body;
}.

(** [res.ok] *)
Definition http_ok (r : http_response) : bool :=
  (200 <=? http_status r) && (http_status r <=? 299).

Inductive fetch_outcome : Type :=
  | NetworkError (message : string)
  | Response (r : http_response).

(** What the network answers to the n-th request of the run (counted from
    0), and how long that takes in milliseconds. *)
Record reply : Type := { latency : N; outcome : fetch_outcome }.

Definition network : Type := nat -> request -> reply.

Inductive io_event : Type :=
  | IoFetch (r : request)
  | IoSleep (ms : jsnum).

Record world : Type := {
  now : Z;
  fetches : nat;
  io_log : list io_event;
}.

(** An effect that cannot loop, and code that can. *)
Definition eff (A : Type) : Type := world -> res A * world.
Definition io (A : Type) : Type := world -> run A * world.

Definition io_ret {A} (a : A) : io A := fun w => (Returns a, w).

Definition io_throw {A} (msg : string) : io A := fun w => (Throws msg, w).

Definition io_bind {A B} (m : io A) (k : A -> io B) : io B :=
  fun w =>
    match m w with
    | (Returns a, w') => k a w'
    | (Throws msg, w') => (Throws msg, w')
    | (OutOfFuel, w') => (OutOfFuel, w')
    end.

Notation "'let!' x ':=' m 'in' k" := (io_bind m (fun x => k))
  (at level 10, x name, m at level 100, k at level 200, only parsing).

(** A pure computation that may throw, run inside [io]. *)
Definition io_lift {A} (r : res A) : io A := fun w => (run_of r, w).

Definition io_eff {A} (e : eff A) : io A :=
  fun w => let '(r, w') := e w in (run_of r, w').

Definition Date_now : io Z := fun w => (Returns (now w), w).

(** The delay a timer really waits for (Workers runtime): NaN and negative
    delays are 0, the rest is truncated and capped at 100 years. *)
Definition timer_delay (ms : jsnum) : Z :=
  match ms with
  | NaN | NInf => 0
  | PInf => 3153600000000
  | Fin q => Z.max 0 (Z.min 3153600000000 (Num.trunc q))
  end.

(** [await new Promise(r => setTimeout(r, ms))]: the world after the wait. *)
Definition sleep (ms : jsnum) (w : world) : world :=
  {| now := now w + timer_delay ms; fetches := fetches w;
     io_log := io_log w ++ [IoSleep ms] |}.

Section Net.
Variable net : network.

(** [await fetch(...)]: a network failure rejects, which throws. *)
Definition fetch (r : request) : eff http_response :=
  fun w =>
    let a := net (fetches w) r in
    let w' := {| now := now w + Z.of_N (latency a); fetches := S (fetches w);
                 io_log := io_log w ++ [IoFetch r] |} in
    match outcome a with
    | NetworkError msg => (Throw msg, w')
    | Response resp => (Ok resp, w')
    end.

End Net.

(** [await resp.json()] *)
Definition body_json (r : http_response) : res jsval :=
  match http_body_of r with
  | BodyJson _ v => Ok v
  | BodyText _ e => Throw e
  end.

(** [await resp.json().catch(() => ({}))] *)
Definition body_json_or_empty (r : http_response) : jsval :=
  match http_body_of r with
  | BodyJson _ v => v
  | BodyText _ _ => JObj []
  end.

Definition body_text (r : http_response) : string :=
  match http_body_of r with
  | BodyJson t _ | BodyText t _ => t
  end.

(** ** The remote-completion client *)

(** What [openaiResponsesCreate] resolves to: [{ ok: true, status, data }] or
    [{ ok: false, status, error }]. *)
Inductive api_result : Type :=
  | ApiOk (status : Z) (data : jsval)
  | ApiError (status : Z) (error : jsval).

Definition api_ok (r : api_result) : bool :=
  match r with ApiOk _ _ => true | ApiError _ _ => false end.

Definition api_status (r : api_result) : Z :=
  match r with ApiOk s _ | ApiError s _ => s end.

(** The argument of [shouldRetry]: a result object, or [{ error: err }] for
    a caught exception. *)
Inductive retry_subject : Type :=
  | OfResult (r : api_result)
  | OfError (message : string).

(** [defaultShouldRetry(result)].  The [error] of a result object is parsed
    JSON, never an [Error] instance; a caught exception has no [status]. *)
Definition defaultShouldRetry (x : retry_subject) : bool :=
  match x with
  | OfResult r =>
      (api_status r =? 429) || ((500 <=? api_status r) && (api_status r <? 600))
  | OfError message =>
      let msg := Str.toLowerCase message in
      Str.includes msg "network" || Str.includes msg "timeout"
      || Str.includes msg "econnreset"
  end.

(** The value of [lastError], which [retryWithBackoff] returns when its loop
    runs out. *)
Inductive retry_value : Type :=
  | RUndefined
  | RResult (r : api_result)
  | RError (message : string).

Definition backoff_delay (baseDelayMs attempt : Z) : Z := baseDelayMs * 2 ^ attempt.

(** The loop of [retryWithBackoff], entered at [attempt]. *)
Fixpoint retry_loop (fuel : nat) (fn : eff api_result) (maxRetries baseDelayMs : Z)
    (attempt : Z) (lastError : retry_value) (w : world) : run retry_value * world :=
  if attempt <=? maxRetries then
    match fuel with
    | O => (OutOfFuel, w)
    | S fuel' =>
        match fn w with
        | (Ok result, w1) =>
            if negb (api_ok result) && defaultShouldRetry (OfResult result) then
              if attempt <? maxRetries then
                retry_loop fuel' fn maxRetries baseDelayMs (attempt + 1) (RResult result)
                  (sleep (Num.of_Z (backoff_delay baseDelayMs attempt)) w1)
              else (Returns (RResult result), w1)
            else (Returns (RResult result), w1)
        | (Throw msg, w1) =>
            if (attempt <? maxRetries) && defaultShouldRetry (OfError msg) then
              retry_loop fuel' fn maxRetries baseDelayMs (attempt + 1) (RError msg)
                (sleep (Num.of_Z (backoff_delay baseDelayMs attempt)) w1)
            else (Throws msg, w1)
        end
    end
  else (Returns lastError, w).

(** [retryWithBackoff(fn, options)] with the default [shouldRetry]; [None]
    is an absent option. *)
Definition retryWithBackoff (fn : eff api_result) (maxRetries baseDelayMs : option Z)
    : io retry_value :=
  let maxRetries := default 3 maxRetries in
  let baseDelayMs := default 1000 baseDelayMs in
  retry_loop (S (Z.to_nat maxRetries)) fn maxRetries baseDelayMs 0 RUndefined.

Section Client.
Context `{Platform}.
Variable net : network.

(** What the callback of [openaiResponsesCreate] makes of a response: the
    body is parsed ([data] stays [null] when it is not JSON), and a non-2xx
    status gives an error object. *)
Definition api_result_of (r : http_response) : api_result :=
  let data := match http_body_of r with BodyJson _ v => v | BodyText _ _ => JNull end in
  if negb (http_ok r)
  then ApiError (http_status r) (JS.or data (JObj [("raw", JStr (body_text r))]))
  else ApiOk (http_status r) data.

(** The callback of [openaiResponsesCreate]: one POST. *)
Definition responses_call (input : string) : eff api_result :=
  fun w =>
    match fetch net (POST_responses input) w with
    | (Ok r, w1) => (Ok (api_result_of r), w1)
    | (Throw msg, w1) => (Throw msg, w1)
    end.

(** [openaiResponsesCreate({ env, payload, maxRetries = 3 })] *)
Definition openaiResponsesCreate (input : string) (maxRetries : option Z) : io retry_value :=
  retryWithBackoff (responses_call input) (Some (default 3 maxRetries)) None.

(** [extractText(respData)] *)
Definition text_chunks_of_item (item : jsval) : res (list jsval) :=
  match JS.get_opt item "content" with
  | JArr content =>
      let* per := res_map (fun c =>
                    let* ty := JS.get c "type" in
                    let is_text := match ty with
                                   | JStr t => String.eqb t "output_text" || String.eqb t "text"
                                   | _ => false
                                   end in
                    if is_text then
                      (let* t := JS.get c "text" in
                       Ok (if JS.truthy t then [t] else []))
                    else Ok []) content in
      Ok (concat per)
  | JStr s => Ok [JStr s]
  | _ => Ok []
  end.

Definition newline : string := String (Ascii.ascii_of_nat 10) EmptyString.

(** [chunks.join("\n")]: a [null] or [undefined] element prints as the empty
    string. *)
Definition join_values (sep : string) (l : list jsval) : res string :=
  let* parts := res_map (fun x => match x with
                                  | JUndef | JNull => Ok ""
                                  | _ => JS.ToString x
                                  end) l in
  Ok (Str.join sep parts).

Definition extractText (respData : jsval) : res string :=
  if negb (JS.truthy respData) then Ok "" else
  match JS.get_opt respData "output_text" with
  | JStr (String c r) => Ok (String c r)
  | _ =>
      let out := match JS.get_opt respData "output" with JArr l => l | _ => [] end in
      let* per := res_map text_chunks_of_item out in
      let* joined := join_values newline (concat per) in
      Ok (Str.trim joined)
  end.

End Client.

(** ** Background jobs: submit-and-poll and resume *)

Inductive job_event : Type :=
  | JRequest (model : jsval) (background : bool)
  | JInitialResponse (status id : jsval)
  | JBackground (response_id : jsval)
  | JResume (status : jsval) (response_id : string)
  | JPolling (status : jsval)
  | JRateLimit (retryAfter : jsnum) (attempt : Z)
  | JPoll (status : jsval) (elapsed : Z)
  | JPollError (error : string) (attempt : Z)
  | JFailed (error : jsval)
  | JComplete (answerLen : Z).

(** The objects the two job functions return; an absent property is [None].
    [stamps] holds [startedAt] and [finishedAt] as clock readings. *)
Record job_result : Type := {
  ok : bool;
  stamps : option (Z * Z);
  job_answer : option string;
  job_error : option jsval;
  job_error_code : option jsval;
  response_id : jsval;
  job_status : option jsval;
  status_code : option Z;
  raw_response : option jsval;
  job_trace : list job_event;
}.

Definition status_is (v : jsval) (s : string) : bool :=
  match v with JStr t => String.eqb t s | _ => false end.

(** [result.status === "in_progress" || result.status === "queued"] *)
Definition non_terminal (result : jsval) : res bool :=
  let* s := JS.get result "status" in
  Ok (status_is s "in_progress" || status_is s "queued").

Definition maxWait : Z := 30 * 60 * 1000.
Definition pollInterval : Z := 5000.
Definition maxConsecutiveErrors : Z := 3.

(** [Math.round((Date.now() - startPoll) / 1000)] *)
Definition elapsed_seconds (t startPoll : Z) : Z := (t - startPoll + 500) / 1000.

(** [parseInt(pollResp.headers.get("retry-after") || dflt, 10)] *)
Definition parse_retry_after (r : http_response) (dflt : string) : jsnum :=
  match retry_after r with
  | Some (String c s) => Parse.parseInt10 (String c s)
  | _ => Parse.parseInt10 dflt
  end.

(** [retryAfter * 1000] *)
Definition times_1000 (x : jsnum) : jsnum :=
  match x with
  | Fin q => Num.of_Q (q * 1000)
  | other => other
  end.

(** The variables of a poll loop. *)
Record poll_state : Type := {
  result : jsval;
  consecutiveErrors : Z;
  poll_trace : list job_event;
}.

(** How the [try] block of a poll iteration ends, with the variables as they
    are at that point: normally, by [continue], by an exception (which the
    [catch] clause then sees) or by [return]. *)
Inductive try_outcome : Type :=
  | TryDone (s : poll_state)
  | TryContinue (s : poll_state)
  | TryThrow (msg : string) (s : poll_state)
  | TryReturn (r : job_result).

(** How a poll loop is left: its condition became false, or its body
    returned from the enclosing function. *)
Inductive poll_exit : Type :=
  | LoopDone (s : poll_state)
  | Returned (r : job_result).

Definition failed_result (result : jsval) (id : jsval) (startedAt finishedAt : Z)
    (tr : list job_event) : res job_result :=
  let* e := JS.get result "error" in
  let errorInfo := JS.or e (JObj []) in
  Ok {| ok := false; stamps := Some (startedAt, finishedAt); job_answer := None;
        job_error := Some (JS.or (JS.get_opt errorInfo "message") (JStr "Deep research failed"));
        job_error_code := Some (JS.or (JS.get_opt errorInfo "code") (JStr "unknown"));
        response_id := id; job_status := None; status_code := None;
        raw_response := Some result; job_trace := tr |}.

Section Jobs.
Context `{Platform}.
Variable net : network.

(** The part of a poll iteration both paths share once the response is in:
    a non-2xx response other than 429 throws, a 2xx response resets the
    error counter and replaces [result] before its status is traced.
    [on_429] is the path's own treatment of a rate limit. *)
Definition poll_response (s : poll_state) (startPoll : Z) (pollResp : http_response)
    (on_429 : world -> try_outcome * world) (w : world) : try_outcome * world :=
  if negb (http_ok pollResp) then
    if http_status pollResp =? 429 then on_429 w
    else (TryThrow ("Polling error: " +:+ JSON_stringify (body_json_or_empty pollResp)) s, w)
  else
    let s0 := {| result := result s; consecutiveErrors := 0; poll_trace := poll_trace s |} in
    match body_json pollResp with
    | Ok r =>
        let s1 := {| result := r; consecutiveErrors := 0; poll_trace := poll_trace s |} in
        match JS.get r "status" with
        | Ok st =>
            (TryDone {| result := r; consecutiveErrors := 0;
                        poll_trace := poll_trace s
                          ++ [JPoll st (elapsed_seconds (now w) startPoll)] |}, w)
        | Throw msg => (TryThrow msg s1, w)
        end
    | Throw msg => (TryThrow msg s0, w)
    end.

(** The state after [consecutiveErrors++] and the [rate_limit] trace entry. *)
Definition rate_limited (s : poll_state) (retryAfter : jsnum) : poll_state :=
  {| result := result s; consecutiveErrors := consecutiveErrors s + 1;
     poll_trace := poll_trace s ++ [JRateLimit retryAfter (consecutiveErrors s + 1)] |}.

Definition rate_limit_message : string :=
  "Rate limit exceeded after " +:+ pretty maxConsecutiveErrors +:+ " retries".

(** *** [runDeepResearchModel] *)

(** The [try] block of the submit path. *)
Definition submit_try (s : poll_state) (startPoll : Z) (w : world) : try_outcome * world :=
  match (let* i := JS.get (result s) "id" in JS.ToString i) with
  | Ok id =>
      match fetch net (GET_response id) w with
      | (Ok pollResp, w1) =>
          poll_response s startPoll pollResp
            (fun w1 =>
               let retryAfter := parse_retry_after pollResp "5" in
               let s1 := rate_limited s retryAfter in
               if consecutiveErrors s1 >=? maxConsecutiveErrors
               then (TryThrow rate_limit_message s1, w1)
               else (TryContinue s1, sleep (times_1000 retryAfter) w1))
            w1
      | (Throw msg, w1) => (TryThrow msg s, w1)
      end
  | Throw msg => (TryThrow msg s, w)
  end.

(** The [while] loop of the submit path. *)
Fixpoint submit_poll_loop (fuel : nat) (startPoll : Z) (s : poll_state) (w : world)
    : run poll_exit * world :=
  match non_terminal (result s) with
  | Ok nt =>
      if nt && (now w - startPoll <? maxWait) then
        match fuel with
        | O => (OutOfFuel, w)
        | S fuel' =>
            let w1 := sleep (Num.of_Z pollInterval) w in
            match submit_try s startPoll w1 with
            | (TryDone s', w2) | (TryContinue s', w2) => submit_poll_loop fuel' startPoll s' w2
            | (TryThrow msg s', w2) =>
                if Str.includes msg "Rate limit" then (Throws msg, w2)
                else
                  let ce := consecutiveErrors s' + 1 in
                  if ce >=? maxConsecutiveErrors then (Throws msg, w2)
                  else submit_poll_loop fuel' startPoll
                         {| result := result s'; consecutiveErrors := ce;
                            poll_trace := poll_trace s' ++ [JPollError msg ce] |} w2
            | (TryReturn r, w2) => (Returns (Returned r), w2)
            end
        end
      else (Returns (LoopDone s), w)
  | Throw msg => (Throws msg, w)
  end.

(** Enough iterations for the 30-minute window: every iteration waits for
    the poll interval first. *)
Definition poll_fuel : nat := Z.to_nat (maxWait / pollInterval).

Definition deep_research_prompt (question : string) : string :=
  "Research and answer this question thoroughly with citations:" +:+ newline +:+ newline
  +:+ question.

Definition timeout_message : string := "Deep research timed out after 30 minutes".

(** The end of [runDeepResearchModel], from [// Handle failed status] on. *)
Definition submit_finish (startedAt : Z) (data : jsval) (tr : list job_event)
    : io job_result :=
  let! st1 := io_lift (JS.get data "status") in
  let! id1 := io_lift (JS.get data "id") in
  if status_is st1 "failed" then
    let! e := io_lift (JS.get data "error") in
    let! finishedAt := Date_now in
    io_lift (failed_result data id1 startedAt finishedAt
               (tr ++ [JFailed (JS.or e (JObj []))]))
  else
    let! answer := io_lift (extractText data) in
    let! finishedAt := Date_now in
    io_ret {| ok := true; stamps := Some (startedAt, finishedAt);
              job_answer := Some answer; job_error := None;
              job_error_code := None; response_id := id1; job_status := None;
              status_code := None; raw_response := Some data;
              job_trace := tr ++ [JComplete (Z.of_nat (String.length answer))] |}.

(** [runDeepResearchModel({ question, cfg, env })] *)
Definition runDeepResearchModel (question : string) (cfg : config) : io job_result :=
  let! startedAt := Date_now in
  let tr0 := [JRequest (model cfg) (background cfg)] in
  let! resp := openaiResponsesCreate net (deep_research_prompt question) None in
  let! data :=
    match resp with
    | RResult (ApiOk _ data) => io_ret data
    | RResult (ApiError _ error) =>
        io_throw ("OpenAI deep research error: " +:+ JSON_stringify error)
    | RError _ => io_throw ("OpenAI deep research error: undefined")
    | RUndefined => io_throw (JS.read_error JUndef "ok")
    end in
  let! st0 := io_lift (JS.get data "status") in
  let! id0 := io_lift (JS.get data "id") in
  let tr1 := tr0 ++ [JInitialResponse st0 id0] in
  if background cfg && (status_is st0 "in_progress" || status_is st0 "queued") then
    let tr2 := tr1 ++ [JBackground id0] in
    let! startPoll := Date_now in
    let! e := submit_poll_loop poll_fuel startPoll
                {| result := data; consecutiveErrors := 0; poll_trace := tr2 |} in
    match e with
    | Returned r => io_ret r
    | LoopDone s =>
        let! nt := io_lift (non_terminal (result s)) in
        if nt then io_throw timeout_message
        else submit_finish startedAt (result s) (poll_trace s)
    end
  else submit_finish startedAt data tr1.

(** *** [handleResumeResponse] *)

Definition resume_hint (responseId : string) : string :=
  "Use GET /research/" +:+ responseId +:+ " to resume later.".

(** The object returned when polling is given up: no answer, the job id and
    the last known status. *)
Definition gave_up (error : string) (responseId : string) (status : jsval)
    (tr : list job_event) : job_result :=
  {| ok := false; stamps := None; job_answer := None; job_error := Some (JStr error);
     job_error_code := None; response_id := JStr responseId; job_status := Some status;
     status_code := None; raw_response := None; job_trace := tr |}.

(** The [try] block of the resume path. *)
Definition resume_try (responseId : string) (s : poll_state) (startPoll : Z) (w : world)
    : try_outcome * world :=
  match fetch net (GET_response responseId) w with
  | (Ok pollResp, w1) =>
      poll_response s startPoll pollResp
        (fun w1 =>
           let retryAfter := parse_retry_after pollResp "10" in
           let s1 := rate_limited s retryAfter in
           if consecutiveErrors s1 >=? maxConsecutiveErrors then
             match JS.get (result s1) "status" with
             | Ok st =>
                 (TryReturn (gave_up (rate_limit_message +:+ ". " +:+ resume_hint responseId)
                               responseId st (poll_trace s1)), w1)
             | Throw msg => (TryThrow msg s1, w1)
             end
           else (TryContinue s1, sleep (times_1000 retryAfter) w1))
        w1
  | (Throw msg, w1) => (TryThrow msg s, w1)
  end.

(** The [while] loop of the resume path. *)
Fixpoint resume_poll_loop (fuel : nat) (responseId : string) (startPoll : Z)
    (s : poll_state) (w : world) : run poll_exit * world :=
  match non_terminal (result s) with
  | Ok nt =>
      if nt && (now w - startPoll <? maxWait) then
        match fuel with
        | O => (OutOfFuel, w)
        | S fuel' =>
            let w1 := sleep (Num.of_Z pollInterval) w in
            match resume_try responseId s startPoll w1 with
            | (TryDone s', w2) | (TryContinue s', w2) =>
                resume_poll_loop fuel' responseId startPoll s' w2
            | (TryThrow msg s', w2) =>
                let ce := consecutiveErrors s' + 1 in
                if ce >=? maxConsecutiveErrors then
                  match JS.get (result s') "status" with
                  | Ok st =>
                      (Returns (Returned (gave_up msg responseId st (poll_trace s'))), w2)
                  | Throw m => (Throws m, w2)
                  end
                else resume_poll_loop fuel' responseId startPoll
                       {| result := result s'; consecutiveErrors := ce;
                          poll_trace := poll_trace s' ++ [JPollError msg ce] |} w2
            | (TryReturn r, w2) => (Returns (Returned r), w2)
            end
        end
      else (Returns (LoopDone s), w)
  | Throw msg => (Throws msg, w)
  end.

Definition completed_result (startedAt finishedAt : Z) (answer : string)
    (responseId : string) (result : jsval) (tr : list job_event) : job_result :=
  {| ok := true; stamps := Some (startedAt, finishedAt); job_answer := Some answer;
     job_error := None; job_error_code := None;
     response_id := JStr responseId; job_status := None; status_code := None;
     raw_response := Some result; job_trace := tr |}.

Definition polling_timeout_message (responseId : string) : string :=
  "Polling timed out after 30 minutes. " +:+ resume_hint responseId.

(** The end of [handleResumeResponse], from [// Return based on final
    status] on. *)
Definition resume_finish (startedAt : Z) (responseId : string) (result : jsval)
    (tr : list job_event) : io job_result :=
  let! st := io_lift (JS.get result "status") in
  if status_is st "completed" then
    let! answer := io_lift (extractText result) in
    let! finishedAt := Date_now in
    io_ret (completed_result startedAt finishedAt answer responseId result
              (tr ++ [JComplete (Z.of_nat (String.length answer))]))
  else if status_is st "failed" then
    let! e := io_lift (JS.get result "error") in
    let! finishedAt := Date_now in
    io_lift (failed_result result (JStr responseId) startedAt finishedAt
               (tr ++ [JFailed (JS.or e (JObj []))]))
  else
    let! shown := io_lift (JS.ToString st) in
    io_ret {| ok := false; stamps := None; job_answer := None;
              job_error := Some (JStr ("Unknown status: " +:+ shown));
              job_error_code := None; response_id := JStr responseId;
              job_status := Some st; status_code := None; raw_response := Some result;
              job_trace := tr |}.

(** [handleResumeResponse({ responseId, env })] *)
Definition handleResumeResponse (responseId : string) : io job_result :=
  let! startedAt := Date_now in
  let! initialResp := io_eff (fetch net (GET_response responseId)) in
  if negb (http_ok initialResp) then
    let err := body_json_or_empty initialResp in
    let! e := io_lift (JS.get err "error") in
    let message :=
      match e with
      | JUndef | JNull => JUndef
      | _ => JS.get_opt e "message"
      end in
    io_ret {| ok := false; stamps := None; job_answer := None;
              job_error := Some (JS.or message
                (JStr ("Failed to fetch response: " +:+ pretty (http_status initialResp))));
              job_error_code := None; response_id := JStr responseId; job_status := None;
              status_code := Some (http_status initialResp); raw_response := None;
              job_trace := [] |}
  else
    let! initial := io_lift (body_json initialResp) in
    let! st := io_lift (JS.get initial "status") in
    let tr := [JResume st responseId] in
    if status_is st "completed" then
      let! answer := io_lift (extractText initial) in
      let! finishedAt := Date_now in
      io_ret (completed_result startedAt finishedAt answer responseId initial tr)
    else if status_is st "failed" then
      let! finishedAt := Date_now in
      io_lift (failed_result initial (JStr responseId) startedAt finishedAt tr)
    else if status_is st "cancelled" then
      let! finishedAt := Date_now in
      io_ret {| ok := false; stamps := Some (startedAt, finishedAt); job_answer := None;
                job_error := Some (JStr "Research was cancelled"); job_error_code := None;
                response_id := JStr responseId; job_status := None; status_code := None;
                raw_response := Some initial; job_trace := tr |}
    else if status_is st "in_progress" || status_is st "queued" then
      let tr1 := tr ++ [JPolling st] in
      let! startPoll := Date_now in
      let! e := resume_poll_loop poll_fuel responseId startPoll
                  {| result := initial; consecutiveErrors := 0; poll_trace := tr1 |} in
      match e with
      | Returned r => io_ret r
      | LoopDone s =>
          let! nt := io_lift (non_terminal (result s)) in
          if nt then
            let! st' := io_lift (JS.get (result s) "status") in
            io_ret (gave_up (polling_timeout_message responseId) responseId st' (poll_trace s))
          else resume_finish startedAt responseId (result s) (poll_trace s)
      end
    else resume_finish startedAt responseId initial tr.

End Jobs.

(** ** A platform for the examples

    A small stand-in for the runtime, used to run the definitions on
    concrete inputs.  It prints integers, NaN and the infinities the way
    JavaScript does (other numbers as a fraction), parses plain
    [http(s)://host[:port][/path]] URLs and reports any other string as
    unparsable, and serialises JSON without escaping. *)

Module ExamplePlatform.

Definition number_toString (x : jsnum) : string :=
  match x with
  | NaN => "NaN"
  | PInf => "Infinity"
  | NInf => "-Infinity"
  | Fin q =>
      let r := Qred q in
      if Zpos (Qden r) =? 1 then pretty (Qnum r)
      else pretty (Qnum r) +:+ "/" +:+ pretty (Zpos (Qden r))
  end.

Definition host_char (c : ascii) : bool :=
  let n := Str.code c in
  ((97 <=? n) && (n <=? 122)) || ((48 <=? n) && (n <=? 57)) || (n =? 45) || (n =? 46).

(** The host characters at the front of [s], when they are followed by the
    end of the string or by [/], [?], [#] or [:]. *)
Fixpoint host_prefix (s : string) : option string :=
  match s with
  | EmptyString => Some EmptyString
  | String c r =>
      if host_char c then
        match host_prefix r with
        | Some h => Some (String c h)
        | None => None
        end
      else if existsb (Ascii.eqb c) ["/"; "?"; "#"; ":"]%char then Some EmptyString
      else None
  end.

Fixpoint drop_chars (n : nat) (s : string) : string :=
  match n, s with
  | S n', String _ r => drop_chars n' r
  | _, _ => s
  end.

Definition hostname (u : string) : option string :=
  let l := Str.toLowerCase u in
  let rest :=
    if Str.startsWith l "https://" then Some (drop_chars 8 l)
    else if Str.startsWith l "http://" then Some (drop_chars 7 l)
    else None in
  match rest with
  | Some r =>
      match host_prefix r with
      | Some (String c h) => Some (String c h)
      | _ => None
      end
  | None => None
  end.

Fixpoint stringify (v : jsval) : string :=
  match v with
  | JUndef | JNull => "null"
  | JBool true => "true"
  | JBool false => "false"
  | JNum x => if Num.isFinite x then number_toString x else "null"
  | JStr s => String (Ascii.ascii_of_nat 34) s +:+ String (Ascii.ascii_of_nat 34) ""
  | JArr l =>
      "[" +:+ Str.join "," ((fix each (l : list jsval) : list string :=
                               match l with
                               | [] => []
                               | x :: r => stringify x :: each r
                               end) l) +:+ "]"
  | JObj fs =>
      "{" +:+ Str.join "," ((fix each (l : list (string * jsval)) : list string :=
                               match l with
                               | [] => []
                               | (k, x) :: r =>
                                   (String (Ascii.ascii_of_nat 34) k
                                    +:+ String (Ascii.ascii_of_nat 34) ":" +:+ stringify x)
                                   :: each r
                               end) fs) +:+ "}"
  end.

Definition platform : Platform :=
  {| Number_toString := number_toString;
     URL_hostname := hostname;
     JSON_stringify := stringify |}.

End ExamplePlatform.

(** The object [{ fact, url, confidence }], as an extraction reply lists it. *)
Definition jfact (text url : string) (conf : Z) : jsval :=
  JObj [("fact", JStr text); ("url", JStr url); ("confidence", jint conf)].

(** ** Source-quality tiers, as the specification words them

    The tiers in their priority order, each with its score; the first tier
    that matches the lowercased URL gives the score, and 2 is the score of a
    URL no tier matches. *)

Definition gov_edu (u : string) : bool :=
  Str.endsWith u ".gov" || Str.includes u ".gov/"
  || Str.endsWith u ".edu" || Str.includes u ".edu/".

Definition tiers : list ((string -> bool) * Z) :=
  [(gov_edu, 5);
   (some_included docSignals, 4);
   (some_included researchSignals, 4);
   (some_included okSignals, 3);
   (some_included lowSignals, 2);
   (some_included veryLow, 1)].

Fixpoint first_match (ts : list ((string -> bool) * Z)) (u : string) : Z :=
  match ts with
  | [] => 2
  | (matches, score) :: r => if matches u then score else first_match r u
  end.

Definition spec_scoreSourceQuality (url : string) : Z :=
  first_match tiers (Str.toLowerCase url).

(** No tier matches the string [u]. *)
Definition unrecognised (u : string) : bool :=
  forallb (fun t => negb (fst t (Str.toLowerCase u))) tiers.

(** ** Further functions of the worker *)

(** More string methods: [indexOf] and [lastIndexOf] of a one-character
    string ([None] is -1) and [slice(i, j)] for [0 <= i <= j]. *)
Module Text.

Fixpoint indexOf (s : string) (c : ascii) : option nat :=
  match s with
  | EmptyString => None
  | String a r => if Ascii.eqb a c then Some O else S <$> indexOf r c
  end.

Fixpoint lastIndexOf (s : string) (c : ascii) : option nat :=
  match s with
  | EmptyString => None
  | String a r =>
      match lastIndexOf r c with
      | Some k => Some (S k)
      | None => if Ascii.eqb a c then Some O else None
      end
  end.

Fixpoint drop (n : nat) (s : string) : string :=
  match n, s with
  | S n', String _ r => drop n' r
  | _, _ => s
  end.

Fixpoint take (n : nat) (s : string) : string :=
  match n, s with
  | S n', String a r => String a (take n' r)
  | _, _ => EmptyString
  end.

Definition slice (s : string) (i j : nat) : string := take (j - i) (drop i s).

Fixpoint all_chars (ok : ascii -> bool) (s : string) : bool :=
  match s with
  | EmptyString => true
  | String a r => ok a && all_chars ok r
  end.

End Text.

(** [sliceJsonBlock(text)] *)
Definition sliceJsonBlock (text : string) : string :=
  match Text.indexOf text "{", Text.lastIndexOf text "}" with
  | Some i, Some j => if (i <? j)%nat then Text.slice text i (S j) else text
  | _, _ => text
  end.

(** One entry of [extractWebSearchResults]: [{ url, title, snippet }]. *)
Record search_result : Type := {
  sr_url : jsval;
  sr_title : jsval;
  sr_snippet : jsval;
}.

(** The inner loop over [results]: an entry with a truthy [url] is kept. *)
Definition results_of (results : list jsval) : res (list search_result) :=
  let* per := res_map (fun r =>
                let* u := JS.get r "url" in
                if JS.truthy u then
                  let* t := JS.get r "title" in
                  let* s := JS.get r "snippet" in
                  let* x := (if JS.truthy s then Ok JUndef else JS.get r "text") in
                  Ok [{| sr_url := u; sr_title := JS.or t JNull;
                         sr_snippet := JS.or (JS.or s x) JNull |}]
                else Ok []) results in
  Ok (concat per).

(** [x.type === "web_search_call" && Array.isArray(x.results)], then the
    loop over [x.results]. *)
Definition search_call_results (x : jsval) : res (list search_result) :=
  let* ty := JS.get x "type" in
  if status_is ty "web_search_call" then
    match JS.get_opt x "results" with
    | JArr results => results_of results
    | _ => Ok []
    end
  else Ok [].

(** [extractWebSearchResults(respData)] *)
Definition extractWebSearchResults (respData : jsval) : res (list search_result) :=
  if negb (JS.truthy respData) then Ok [] else
  match JS.get_opt respData "output" with
  | JArr output =>
      let* per := res_map (fun item =>
                    let* direct := search_call_results item in
                    let* nested :=
                      match JS.get_opt item "content" with
                      | JArr content =>
                          let* parts := res_map search_call_results content in
                          Ok (concat parts)
                      | _ => Ok []
                      end in
                    Ok (direct ++ nested)) output in
      Ok (concat per)
  | _ => Ok []
  end.

(** The object [buildPayloadOptions] returns; an absent property is [None].
    [po_reasoning] holds [effort] and [summary]. *)
Record payload_options : Type := {
  po_temperature : option Q;
  po_top_p : option Q;
  po_max_output_tokens : option Z;
  po_instructions : option string;
  po_store : option bool;
  po_reasoning : option (option string * option string);
  po_background : option bool;
  po_max_tool_calls : option Z;
}.

(** Truthiness of a string-or-null field. *)
Definition filled (v : option string) : bool :=
  match v with Some (String _ _) => true | _ => false end.

(** [buildPayloadOptions(cfg)] *)
Definition buildPayloadOptions (cfg : config) : res payload_options :=
  let reasoning :=
    if filled (reasoning_effort cfg) || filled (reasoningSummary cfg) then
      Some (if filled (reasoning_effort cfg) then reasoning_effort cfg else None,
            if filled (reasoningSummary cfg) then reasoningSummary cfg else None)
    else None in
  let* deep := isDeepResearchModel (model cfg) in
  Ok {| po_temperature := temperature cfg;
        po_top_p := top_p cfg;
        po_max_output_tokens := max_output_tokens cfg;
        po_instructions := if filled (instructions cfg) then instructions cfg else None;
        po_store := if store cfg then None else Some false;
        po_reasoning := reasoning;
        po_background := if deep && background cfg then Some true else None;
        po_max_tool_calls :=
          if deep then
            Some (match maxToolCalls cfg with
                  | Some n => if n =? 0 then 50 else n
                  | None => 50
                  end)
          else None |}.

(** *** The [fetch] handler: routes *)

(** What the handler reads from a request: method, path of the URL, the
    [X-API-Key] and [content-type] headers ([None] when absent) and the body
    as [request.json()] reads it ([None] when that throws). *)
Record incoming : Type := {
  method : string;
  pathname : string;
  x_api_key : option string;
  content_type : option string;
  json_body : option jsval;
}.

(** The environment variables the worker reads. *)
Record environment : Type := {
  RECRUITER_API_KEY : option string;
  OPENAI_API_KEY : option string;
  OPENAI_MODEL : option string;
}.

(** [validateApiKey(request, env)] *)
Definition validateApiKey (req : incoming) (env : environment) : bool :=
  if negb (filled (RECRUITER_API_KEY env)) then true
  else match x_api_key req, RECRUITER_API_KEY env with
       | Some a, Some k => String.eqb a k
       | _, _ => false
       end.

(** [safeJson(request)] *)
Definition safeJson (req : incoming) : option jsval :=
  if Str.includes (Str.toLowerCase (default "" (content_type req))) "application/json"
  then json_body req else None.

(** The capture of [/^\/cancel\/(.+)$/] and [/^\/status\/(.+)$/] for the
    prefix [p]: a non-empty rest without line terminators. *)
Definition not_line_end (c : ascii) : bool :=
  negb ((Str.code c =? 10) || (Str.code c =? 13)).

Definition rest_after (p path : string) : option string :=
  if Str.startsWith path p then
    match Text.drop (String.length p) path with
    | EmptyString => None
    | rest => if Text.all_chars not_line_end rest then Some rest else None
    end
  else None.

Definition word_char (c : ascii) : bool :=
  let n := Str.code c in
  ((97 <=? n) && (n <=? 122)) || ((65 <=? n) && (n <=? 90))
  || ((48 <=? n) && (n <=? 57)) || (n =? 95).

(** The capture of [/^\/research\/(resp_[a-zA-Z0-9_]+)$/]. *)
Definition resume_id (path : string) : option string :=
  if Str.startsWith path "/research/resp_" then
    match Text.drop 15 path with
    | EmptyString => None
    | rest => if Text.all_chars word_char rest then Some (Text.drop 10 path) else None
    end
  else None.

Inductive reply_body : Type :=
  | NoBody
  | HealthOk
  | DocsPage
  | ErrorBody (error : string).

(** What the handler does with a request: answer at once, or go on to the
    provider for one of the four operations. *)
Inductive action : Type :=
  | Reply (status : Z) (body : reply_body)
  | CancelJob (responseId : string)
  | JobStatus (responseId : string)
  | ResumeJob (responseId : string)
  | Research (question : string) (cfg : config).

Definition unauthorized : action :=
  Reply 401 (ErrorBody "Unauthorized. Valid X-API-Key header required.").

Definition env_value (v : option string) : jsval :=
  match v with Some s => JStr s | None => JUndef end.

Section Routes.
Context `{Platform}.

(** The [/research] branch, after the API key was accepted. *)
Definition research_route (req : incoming) (env : environment) : action :=
  let missing := Reply 400 (ErrorBody "Missing required field: question (string)") in
  match safeJson req with
  | None => missing
  | Some body =>
      if negb (JS.truthy body) then missing else
      match JS.get_opt body "question" with
      | JStr q =>
          if Str.is_empty (Str.trim q) then missing else
          let options := JS.or (JS.get_opt body "options") (JObj []) in
          match build_cfg options (env_value (OPENAI_MODEL env)) with
          | Throw msg => Reply 500 (ErrorBody msg)
          | Ok cfg =>
              if negb (filled (OPENAI_API_KEY env))
              then Reply 500 (ErrorBody "OPENAI_API_KEY not configured in Worker environment")
              else Research (Str.trim q) cfg
          end
      | _ => missing
      end
  end.

(** The dispatch of [fetch(request, env, ctx)]: which operation a request
    leads to.  An exception thrown on the way is answered with status 500. *)
Definition route (req : incoming) (env : environment) : action :=
  if String.eqb (method req) "OPTIONS" then Reply 204 NoBody
  else if String.eqb (pathname req) "/health" then Reply 200 HealthOk
  else if String.eqb (pathname req) "/docs" || String.eqb (pathname req) "/"
  then Reply 200 DocsPage
  else
    match rest_after "/cancel/" (pathname req), String.eqb (method req) "POST" with
    | Some id, true => if validateApiKey req env then CancelJob id else unauthorized
    | _, _ =>
    match rest_after "/status/" (pathname req), String.eqb (method req) "GET" with
    | Some id, true => if validateApiKey req env then JobStatus id else unauthorized
    | _, _ =>
    match resume_id (pathname req), String.eqb (method req) "GET" with
    | Some id, true => if validateApiKey req env then ResumeJob id else unauthorized
    | _, _ =>
        if String.eqb (pathname req) "/research" && String.eqb (method req) "POST" then
          if validateApiKey req env then research_route req env else unauthorized
        else Reply 404 (ErrorBody "Not found")
    end end end.

End Routes.

(** ** Notions used to state the properties *)

(** An entry [d] of [forceDomains] admits the lowercased host [host]. *)
Definition entry_admits (host : string) (d : string) : Prop :=
  let dd := Str.trim (Str.toLowerCase d) in
  dd <> "" /\
  if Str.startsWith dd "." then exists p, host = p +:+ dd
  else host = dd \/ exists p, host = p +:+ "." +:+ dd.

(** A low-trust source does not carry a confidence above 3, and the source
    quality is the score of the fact's URL. *)
Definition capped (f : Fact) : Prop :=
  source_quality f = domainQualityScore (url f)
  /\ ((source_quality f <=? 2) && Num.gt (confidence f) (Fin 3) = false).

(** The searches a trace records: round and query, in order. *)
Definition searches (tr : list trace_event) : list (Z * jsval) :=
  omap (fun e => match e with TrSearch r q => Some (r, q) | _ => None end) tr.

(** [plan.queries[(r - 1) mod len(plan.queries)]]; an index outside the
    list reads [undefined], which is also what an empty list gives. *)
Definition cyclic_query (qs : list jsval) (r : Z) : jsval :=
  default JUndef (qs !! Z.to_nat ((r - 1) mod len qs)).

Definition stopped (tr : list trace_event) : Prop :=
  exists reason, last tr = Some (TrStop reason).

Section Accumulate.
Context `{Platform}.
Variable st : stages.
Variable cfg : config.
Variable queries : list jsval.

(** What [n] rounds from [round] on find, one after the other, when nothing
    stops them. *)
Fixpoint accumulate (n : nat) (round : Z) (e : evidence) : res (list round_report) :=
  match n with
  | O => Ok []
  | S n' =>
      let* r := round_evidence st cfg queries round e in
      let* rest := accumulate n' (round + 1) (after r) in
      Ok (r :: rest)
  end.

End Accumulate.

(** A transient failure of one attempt: HTTP 429, a 5xx status, or a
    transport error that names the network, a timeout or a connection
    reset. *)
Definition transient (o : fetch_outcome) : bool :=
  match o with
  | Response r =>
      (http_status r =? 429) || ((500 <=? http_status r) && (http_status r <? 600))
  | NetworkError message =>
      let msg := Str.toLowerCase message in
      Str.includes msg "network" || Str.includes msg "timeout"
      || Str.includes msg "econnreset"
  end.

Section Attempts.
Variable net : network.
Variable input : string.

(** What the caller gets when the attempt with outcome [o] is the last
    one: the response as a result object, or the exception rethrown. *)
Definition surfaced (o : fetch_outcome) : run retry_value :=
  match o with
  | Response r => Returns (RResult (api_result_of r))
  | NetworkError message => Throws message
  end.

(** The requests and waits of [k] retried attempts followed by a last one,
    the first of them being attempt number [attempt]. *)
Fixpoint retry_log (baseDelayMs attempt : Z) (k : nat) : list io_event :=
  match k with
  | O => [IoFetch (POST_responses input)]
  | S k' =>
      IoFetch (POST_responses input)
      :: IoSleep (Num.of_Z (baseDelayMs * 2 ^ attempt))
      :: retry_log baseDelayMs (attempt + 1) k'
  end.

(** The outcome of the [i]-th attempt made from the world [w] on. *)
Definition attempt_outcome (w : world) (i : nat) : fetch_outcome :=
  outcome (net (fetches w + i)%nat (POST_responses input)).

(** The world after a request was sent from [w]. *)
Definition requested (w : world) : world :=
  {| now := now w + Z.of_N (latency (net (fetches w) (POST_responses input)));
     fetches := S (fetches w);
     io_log := io_log w ++ [IoFetch (POST_responses input)] |}.

End Attempts.

Section StatusFetch.
Context `{Platform}.
Variable net : network.

(** The world after one status request for the job [id] was sent from [w]. *)
Definition status_fetched (id : string) (w : world) : world :=
  {| now := now w + Z.of_N (latency (net (fetches w) (GET_response id)));
     fetches := S (fetches w);
     io_log := io_log w ++ [IoFetch (GET_response id)] |}.

(** What [handleResumeResponse] returns for a job found completed with the
    response body [body], when it started at [startedAt] and the status
    fetch came back at [finishedAt]. *)
Definition found_completed (id : string) (body : jsval) (startedAt finishedAt : Z)
    : run job_result :=
  run_of (let* answer := extractText body in
          Ok (completed_result startedAt finishedAt answer id body
                [JResume (JStr "completed") id])).

End StatusFetch.

(** The answer of a returned job object. *)
Definition answer_of (r : run job_result) : run (option string) :=
  let+ x := r in Returns (job_answer x).

(** The key [dedupeFacts] compares facts by: the text, trimmed and
    lower-cased. *)
Definition fact_key (f : Fact) : res string :=
  let* t := JS.trim (JS.or (fact f) (JStr "")) in
  Ok (Str.toLowerCase t).

(** The keys of a list of facts, in order. *)
Definition fact_keys (facts : list Fact) : res (list string) := res_map fact_key facts.

(** What the two [filter]s of a round leave: a fact with a truthy text, a
    non-empty URL and a confidence of at least 2, whose URL the domain list
    admits. *)
Definition retained `{Platform} (cfg : config) (f : Fact) : Prop :=
  acceptable f = true
  /\ urlAllowedByForceDomains (url f) (forceDomains cfg) = true.

(** [a] may stand before [b] in the fact table: its source quality is
    higher, or equal with a confidence that is not lower. *)
Definition in_rank_order (a b : Fact) : Prop :=
  source_quality b < source_quality a
  \/ (source_quality b = source_quality a
      /\ Num.le (confidence b) (confidence a) = true).

(** Facts the comparator of the final [sort] does not tell apart. *)
Definition same_rank (a b : Fact) : bool :=
  (source_quality a =? source_quality b) && Num.eq (confidence a) (confidence b).

Definition is_number (x : jsnum) : Prop := x <> NaN.

(** The evidence is settled: its facts passed the filters of their round,
    [dedupeFacts] leaves them as they are, and the URLs seen are the
    URLs of these facts. *)
Definition settled `{Platform} (cfg : config) (e : evidence) : Prop :=
  Forall (retained cfg) (allFacts e)
  /\ dedupeFacts (allFacts e) = Ok (allFacts e)
  /\ seenUrls e = add_urls ∅ (allFacts e).

(** The counts an [extract] event reports fit together. *)
Definition counts_fit (ev : trace_event) : Prop :=
  match ev with
  | TrExtract _ raw filtered new total sources =>
      0 <= new <= filtered /\ filtered <= raw /\ new <= total /\ 0 <= sources <= total
  | _ => True
  end.

(** What the loop never undoes between two of its states: facts and
    conflicts are only appended, URLs only added, events only appended. *)
Definition grows (s s' : loop_state) : Prop :=
  allFacts (gathered s) `prefix_of` allFacts (gathered s')
  /\ allConflicts (gathered s) `prefix_of` allConflicts (gathered s')
  /\ seenUrls (gathered s) ⊆ seenUrls (gathered s')
  /\ trace s `prefix_of` trace s'.

(** A result object is well formed: a success carries an answer and no
    error, a failure an error and no answer. *)
Definition well_formed (x : job_result) : Prop :=
  if ok x then is_Some (job_answer x) /\ job_error x = None
  else job_answer x = None /\ is_Some (job_error x).

(** The time spent in the waits a log records. *)
Fixpoint waited (log : list io_event) : Z :=
  match log with
  | [] => 0
  | IoSleep ms :: r => timer_delay ms + waited r
  | IoFetch _ :: r => waited r
  end.

(** A fact as the extraction stage lists it, without a usable confidence:
    the property is absent, [null], 0, NaN, [false] or the empty string. *)
Definition unrated (f : jsval) : Prop :=
  exists c, JS.get f "confidence" = Ok c /\ JS.truthy c = false.

(** A [forceDomains] entry that is a string of white space only. *)
Definition blank_entry (d : jsval) : Prop :=
  exists s, d = JStr s /\ Str.is_empty (Str.trim (Str.toLowerCase s)) = true.

(** A stage reply the worker cannot use: text that is not JSON, or JSON
    for a falsy value ([null], [false], 0, the empty string). *)
Definition unusable (p : option jsval) : Prop :=
  match p with
  | None => True
  | Some v => JS.truthy v = false
  end.

(** The events a round adds before any stop: its search and its extract. *)
Definition round_event (ev : trace_event) : Prop :=
  match ev with
  | TrSearch _ _ | TrExtract _ _ _ _ _ _ => True
  | _ => False
  end.

(** The events of the rounds of a run: search and extract events, closed
    by at most one stop event. *)
Definition rounds_trace (events : list trace_event) : Prop :=
  Forall round_event events
  \/ exists body reason, events = body ++ [TrStop reason] /\ Forall round_event body.

(** Round [r] searched for [q]: the search stage, asked for [q] in round
    [r], answered with text, and the extraction stage of that round was
    given this text. *)
Definition searched (st : stages) (r : Z) (q : jsval) : Prop :=
  exists snippets,
    webSearch st r q = Ok snippets
    /\ exists reply, extractFacts_reply st r snippets = Ok reply.

(** [data] is the body of the last response received: the last thing
    that happened in the world [w] is a request, and the provider answered
    it with a 2xx response whose JSON body is [data]. *)
Definition last_response (net : network) (w : world) (data : jsval) : Prop :=
  exists req r text,
    last (io_log w) = Some (IoFetch req)
    /\ (0 < fetches w)%nat
    /\ outcome (net (fetches w - 1)%nat req) = Response r
    /\ http_ok r = true
    /\ http_body_of r = BodyJson text data.

(** ** Example runs *)

Module Example.

Definition cfg (rounds minNew : Z) : config :=
  {| model := JStr "gpt-4o-mini"; temperature := None; top_p := None;
     max_output_tokens := None; reasoning_effort := None; instructions := None;
     maxSearchRounds := rounds; maxFacts := 18; minNewFactsPerRound := minNew;
     webContextSize := "medium"; forceDomains := None; store := true;
     background := false; codeInterpreter := false; maxToolCalls := None;
     reasoningSummary := None; maxRetries := 3 |}.

(** What the extraction stage finds in rounds 1 to 5: one fact, the same
    fact again, three new facts, then nothing twice. *)
Definition found (round : Z) : list jsval :=
  if round =? 1 then [jfact "Alpha" "https://example.medium.com/post" 5]
  else if round =? 2 then [jfact " alpha " "https://x.com/user/status/1" 4]
  else if round =? 3 then [jfact "Beta" "https://nist.gov/x" 4;
                           jfact "Gamma" "https://example.org/about" 2;
                           jfact "Delta" "https://en.wikipedia.org/wiki/Delta" 5]
  else [].

Definition replies : stages :=
  {| planner_reply :=
       Ok (Some (JObj [("queries", jstrs ["q1"; "q2"; "q3"]);
                       ("stop_when", JObj [("no_new_facts_rounds", jint 2)])]));
     webSearch := fun _ _ => Ok "snippets";
     extractFacts_reply := fun round _ => Ok (Some (JObj [("facts", JArr (found round))]));
     synthesize := fun _ _ => Ok "Alpha holds [F1].";
     validate_reply := fun _ _ => Ok (Some (JObj [("ok", JBool true)])) |}.

Definition limits : thresholds :=
  {| minSources := Fin 3; minFacts := Fin 8; noNewRoundsLimit := Fin 2 |}.

End Example.

(** What rounds 1 to 5 of the example find. *)
Definition rounds_1_to_5 : list round_report :=
  Eval vm_compute in
    match @accumulate ExamplePlatform.platform Example.replies (Example.cfg 6 1)
            (jstrs_list ["q1"; "q2"; "q3"]) 5 1 (gathered (initial_state JNull)) with
    | Ok l => l
    | Throw _ => []
    end.


Module Jobs.

Definition start : world := {| now := 0; fetches := 0; io_log := [] |}.

Definition json_response (status : Z) (body : jsval) : http_response :=
  {| http_status := status; retry_after := None; http_body_of := BodyJson "" body |}.

Definition job (id status : string) : jsval :=
  JObj [("id", JStr id); ("status", JStr status); ("output_text", JStr "Done.")].

(** A provider on which the job [resp_1] never gets past [in_progress]. *)
Definition stuck : network :=
  fun _ req =>
    {| latency := 0;
       outcome := Response (json_response 200
                    (match req with
                     | POST_responses _ => job "resp_1" "queued"
                     | GET_response _ => job "resp_1" "in_progress"
                     end)) |}.

Definition background_cfg : config :=
  {| model := JStr "o3-deep-research"; temperature := None; top_p := None;
     max_output_tokens := None; reasoning_effort := None; instructions := None;
     maxSearchRounds := 4; maxFacts := 18; minNewFactsPerRound := 2;
     webContextSize := "medium"; forceDomains := None; store := true;
     background := true; codeInterpreter := false; maxToolCalls := None;
     reasoningSummary := None; maxRetries := 3 |}.

(** A provider on which the job [resp_1] is completed, answering after
    40 ms. *)
Definition finished : network :=
  fun _ _ =>
    {| latency := 40;
       outcome := Response (json_response 200 (job "resp_1" "completed")) |}.

(** A provider that answers 503 twice and then accepts the request. *)
Definition flaky : network :=
  fun n _ =>
    {| latency := 40;
       outcome :=
         if (n <? 2)%nat
         then Response {| http_status := 503; retry_after := None;
                          http_body_of := BodyText "busy" "Unexpected token b" |}
         else Response (json_response 200 (job "resp_1" "completed")) |}.

End Jobs.

(** A fact with the given source quality and confidence. *)
Definition ranked_sample (q c : Z) : Fact :=
  {| fact := JStr "f"; url := "u"; title := JNull; date := JNull;
     confidence := Num.of_Z c; source_quality := q |}.

(** A fact with the given text, URL, source quality and confidence. *)
Definition sample_fact (text url : string) (q c : Z) : Fact :=
  {| fact := JStr text; url := url; title := JNull; date := JNull;
     confidence := Num.of_Z c; source_quality := q |}.

(** Three facts, the second a respelling of the first. *)
Definition boiling : Fact := sample_fact " Water boils at 100 C " "https://nist.gov/a" 5 4.
Definition boiling_again : Fact := sample_fact "water boils at 100 c" "https://example.com/b" 2 3.
Definition melting : Fact := sample_fact "Ice melts at 0 C" "https://example.com/c" 2 2.

(** Options of a request with values outside every range. *)
Definition wild_options : jsval :=
  JObj [("maxSearchRounds", jint 99); ("maxFacts", JStr "many");
        ("minNewFactsPerRound", jint (-4)); ("maxRetries", jint 12);
        ("max_output_tokens", jint 500000); ("maxToolCalls", jint 5000);
        ("temperature", jint 7); ("top_p", jint (-1));
        ("webContextSize", JStr "HUGE"); ("reasoning_effort", JStr "High");
        ("reasoningSummary", JStr "verbose"); ("model", JNum (Fin 0))].

(** An action that goes on to the provider. *)
Definition reaches_provider (a : action) : bool :=
  match a with Reply _ _ => false | _ => true end.

(** Requests and environments for the examples. *)
Definition research_request (key : option string) : incoming :=
  {| method := "POST"; pathname := "/research"; x_api_key := key;
     content_type := Some "Application/JSON; charset=utf-8";
     json_body := Some (JObj [("question", JStr "  What is Rocq?  ");
                              ("options", wild_options)]) |}.

Definition resume_request (key : option string) : incoming :=
  {| method := "GET"; pathname := "/research/resp_abc_123"; x_api_key := key;
     content_type := None; json_body := None |}.

Definition keyed_env : environment :=
  {| RECRUITER_API_KEY := Some "secret"; OPENAI_API_KEY := Some "sk-test";
     OPENAI_MODEL := None |}.

(** [v] is what [x || null] can be: truthy, or [null]. *)
Definition truthy_or_null (v : jsval) : Prop := JS.truthy v = true \/ v = JNull.

(** A search result as the worker lists it: a truthy URL, and a title and a
    snippet that are truthy or [null]. *)
Definition listed (r : search_result) : Prop :=
  JS.truthy (sr_url r) = true /\ truthy_or_null (sr_title r)
  /\ truthy_or_null (sr_snippet r).

(** A response with one search call that found two pages, one of them
    without a URL, and a message that carries a nested search call. *)
Definition search_response : jsval :=
  JObj [("output",
         JArr [JObj [("type", JStr "web_search_call");
                     ("results",
                      JArr [JObj [("url", JStr "https://nist.gov/a"); ("title", JStr "A");
                                  ("text", JStr "about a")];
                            JObj [("title", JStr "no address")]])];
               JObj [("type", JStr "message");
                     ("content",
                      JArr [JObj [("type", JStr "web_search_call");
                                  ("results",
                                   JArr [JObj [("url", JStr "https://w3.org/b");
                                               ("snippet", JStr "about b")]])]])]])].

(** Stages whose extraction reply is never JSON. *)
Definition garbled : stages :=
  {| planner_reply := planner_reply Example.replies;
     webSearch := webSearch Example.replies;
     extractFacts_reply := fun _ _ => Ok None;
     synthesize := synthesize Example.replies;
     validate_reply := validate_reply Example.replies |}.

(** A provider that knows no job: every request is answered with 404. *)
Definition not_found : http_response :=
  {| http_status := 404; retry_after := None;
     http_body_of :=
       BodyJson "" (JObj [("error", JObj [("message", JStr "No such response")])]) |}.

Definition missing_job : network :=
  fun _ _ => {| latency := 10; outcome := Response not_found |}.

(** Stages whose search answers with the query it was asked for, and
    whose extraction lists one fact with the text it was given. *)
Definition echoing : stages :=
  {| planner_reply := Ok None;
     webSearch := fun _ q => match q with
                             | JStr text => Ok text
                             | _ => Throw "no query"
                             end;
     extractFacts_reply := fun _ snippets =>
       Ok (Some (JObj [("facts", JArr [jfact snippets "https://nist.gov/x" 4])]));
     synthesize := fun _ _ => Ok "draft";
     validate_reply := fun _ _ => Ok (Some (JObj [("ok", JBool true)])) |}.

(** A provider that cannot be reached: every request fails in transport
    with the message of a failed [fetch]. *)
Definition unreachable : network :=
  fun _ _ => {| latency := 0; outcome := NetworkError "fetch failed" |}.

(** Stages whose validator rejects the draft and gives a number as its
    revised answer. *)
Definition numeric_revision : stages :=
  {| planner_reply := planner_reply Example.replies;
     webSearch := webSearch Example.replies;
     extractFacts_reply := extractFacts_reply Example.replies;
     synthesize := synthesize Example.replies;
     validate_reply := fun _ _ =>
       Ok (Some (JObj [("ok", JBool false); ("revised_answer", jint 7)])) |}.

(** A provider that accepts the job [resp_1] as queued, reports it in
    progress at the first poll and completed from the second poll on. *)
Definition queued_then_done : network :=
  fun n req =>
    {| latency := 40;
       outcome :=
         Response (Jobs.json_response 200
           match req with
           | POST_responses _ => Jobs.job "resp_1" "queued"
           | GET_response _ =>
               if (n <? 2)%nat then Jobs.job "resp_1" "in_progress"
               else Jobs.job "resp_1" "completed"
           end) |}.

(** * Properties *)


(** ** The definitions on small inputs *)

Example Number_of_strings :
  map Parse.StringToNumber ["abc"; " 12.5e1 "; "0x1F"; ""; "-Infinity"; "1e400"; "5."; "."]
  = [NaN; Fin 125; Fin 31; Fin 0; NInf; PInf; Fin 5; NaN].
Proof. vm_compute. reflexivity. Qed.

(** A decimal string is rounded to the nearest double before it is
    truncated. *)
Example Number_rounds_to_double :
  Parse.StringToNumber "49.99999999999999999999" = Fin 50
  /\ Parse.StringToNumber "9007199254740993" = Fin 9007199254740992.
Proof. vm_compute. split; reflexivity. Qed.

Example parseInt_of_headers :
  map Parse.parseInt10 [" 12abc"; "abc"; "-5.7"; ""] = [Fin 12; NaN; Fin (-5); NaN].
Proof. vm_compute. reflexivity. Qed.

Example clampInt_examples :
  @clampInt ExamplePlatform.platform (JStr "7.9") 5 50 = Ok 7
  /\ @clampInt ExamplePlatform.platform (JNum (Fin 1000)) 5 50 = Ok 50
  /\ @clampInt ExamplePlatform.platform (JArr [JStr "12"]) 5 50 = Ok 12
  /\ @clampInt ExamplePlatform.platform JNull 5 50 = Ok 5.
Proof. vm_compute. repeat split; reflexivity. Qed.

Example rank_sample :
  rank [ranked_sample 5 3; ranked_sample 5 4; ranked_sample 2 5]
  = [ranked_sample 5 4; ranked_sample 5 3; ranked_sample 2 5].
Proof. vm_compute. reflexivity. Qed.

Example dedupe_sample :
  dedupeFacts [ranked_sample 5 3; ranked_sample 2 5] = Ok [ranked_sample 5 3].
Proof. vm_compute. reflexivity. Qed.

Example trim_lower :
  Str.trim "  a b  " = "a b" /\ Str.toLowerCase "HTTPS://Nist.GOV/x" = "https://nist.gov/x".
Proof. split; reflexivity. Qed.

(** ** Strings *)

Lemma endsWith_suffix s p :
  Str.endsWith s p = true <-> exists q, s = q +:+ p.
Proof.
  split.
  - induction s as [|c s IH]; cbn [Str.endsWith]; intros Hs.
    + rewrite orb_false_r in Hs. apply String.eqb_eq in Hs. subst p. by exists "".
    + apply orb_true_iff in Hs as [Hs|Hs].
      * apply String.eqb_eq in Hs. subst p. by exists "".
      * destruct (IH Hs) as [q ->]. by exists (String c q).
  - intros [q ->]. induction q as [|c q IH].
    + change ("" +:+ p) with p.
      destruct p; cbn [Str.endsWith]; by rewrite String.eqb_refl.
    + change (String c q +:+ p) with (String c (q +:+ p)).
      cbn [Str.endsWith]. rewrite IH. apply orb_true_r.
Qed.

Lemma startsWith_prefix s p :
  Str.startsWith s p = true <-> exists q, s = p +:+ q.
Proof.
  revert s. induction p as [|a p IH]; intros s.
  - split; [by exists s | by destruct s].
  - destruct s as [|b s]; cbn [Str.startsWith].
    + split; [done | by intros [q ?]].
    + destruct (Ascii.eqb_spec a b) as [->|Hne].
      * split.
        -- intros [q ->]%IH. by exists q.
        -- intros [q Hq]. apply IH. exists q. by injection Hq.
      * split; [done | intros [q Hq]; injection Hq as Hab _; congruence].
Qed.

Lemma includes_infix s p :
  Str.includes s p = true <-> exists a b, s = a +:+ p +:+ b.
Proof.
  split.
  - induction s as [|c s IH]; cbn [Str.includes]; intros Hs.
    + rewrite orb_false_r in Hs. apply startsWith_prefix in Hs as [q Hq].
      by exists "", q.
    + apply orb_true_iff in Hs as [Hs|Hs].
      * apply startsWith_prefix in Hs as [q Hq]. by exists "", q.
      * destruct (IH Hs) as (a & b & ->). by exists (String c a), b.
  - intros (a & b & ->). induction a as [|c a IH].
    + change ("" +:+ p +:+ b) with (p +:+ b).
      assert (Str.startsWith (p +:+ b) p = true) as Hp
        by (apply startsWith_prefix; by exists b).
      destruct (p +:+ b); cbn [Str.includes]; by rewrite Hp.
    + change (String c a +:+ p +:+ b) with (String c (a +:+ p +:+ b)).
      cbn [Str.includes]. rewrite IH. apply orb_true_r.
Qed.

(** ** Source-quality scoring (C4) *)

Lemma domainQualityScore_first_match url :
  domainQualityScore url = spec_scoreSourceQuality url.
Proof.
  unfold domainQualityScore, spec_scoreSourceQuality, tiers, first_match, gov_edu.
  set (u := Str.toLowerCase url).
  destruct (Str.endsWith u ".gov"), (Str.includes u ".gov/"),
    (Str.endsWith u ".edu"), (Str.includes u ".edu/"); simpl; reflexivity.
Qed.

Lemma first_match_range ts u :
  Forall (fun t => 1 <= snd t <= 5) ts -> 1 <= first_match ts u <= 5.
Proof.
  induction 1 as [|[m sc] r Hsc _ IH]; simpl; [lia|].
  destruct (m u); simpl in *; lia.
Qed.

Lemma first_match_none ts u :
  forallb (fun t => negb (fst t u)) ts = true -> first_match ts u = 2.
Proof.
  induction ts as [|[m sc] r IH]; simpl; [done|].
  intros [Hm Hr]%andb_true_iff. apply negb_true_iff in Hm. rewrite Hm. auto.
Qed.

(** C4 (as amended).  [domainQualityScore] is a function of the URL string
    with values in 1..5; it scores the three sample URLs 5, 2 and 1; it is
    the first match over the tiers gov/edu, docs/standards, research
    publishers, reference encyclopedias, blogs, social media, in that order;
    and a URL whose whole lowercased string matches no tier scores 2. *)
Theorem scoreSourceQuality_tiers :
  (forall url, 1 <= domainQualityScore url <= 5)
  /\ domainQualityScore "https://nist.gov/x" = 5
  /\ domainQualityScore "https://example.medium.com/post" = 2
  /\ domainQualityScore "https://x.com/user/status/1" = 1
  /\ (forall url, domainQualityScore url = first_match tiers (Str.toLowerCase url))
  /\ (forall url, unrecognised url = true -> domainQualityScore url = 2).
Proof.
  repeat split; try reflexivity.
  - rewrite domainQualityScore_first_match. apply first_match_range.
    unfold tiers. repeat constructor; simpl; lia.
  - rewrite domainQualityScore_first_match. apply first_match_range.
    unfold tiers. repeat constructor; simpl; lia.
  - apply domainQualityScore_first_match.
  - intros url Hu. rewrite domainQualityScore_first_match.
    by apply first_match_none.
Qed.

Lemma scoreSourceQuality_tiers_witness :
  domainQualityScore "https://example.org/about" = 2.
Proof.
  apply (proj2 (proj2 (proj2 (proj2 (proj2 scoreSourceQuality_tiers))))).
  vm_compute. reflexivity.
Defined.

(** C4, the reading by host: the host [example.com] matches no entry of the
    table, yet the URL scores 4 because its path contains a signal. *)
Lemma unrecognised_host_scores_4 :
  let url := "https://example.com/api-reference" in
  @URL_hostname ExamplePlatform.platform url = Some "example.com"
  /\ unrecognised "example.com" = true
  /\ domainQualityScore url = 4
  /\ domainQualityScore url <> 2.
Proof. vm_compute. repeat split; congruence. Qed.

(** ** Results *)

Lemma bind_Ok {A B} (m : res A) (k : A -> res B) (b : B) :
  res_bind m k = Ok b -> exists a, m = Ok a /\ k a = Ok b.
Proof. destruct m; simpl; [eauto | done]. Qed.

Lemma run_bind_Returns {A B} (m : run A) (k : A -> run B) (b : B) :
  run_bind m k = Returns b -> exists a, m = Returns a /\ k a = Returns b.
Proof. destruct m; simpl; [eauto | done | done]. Qed.

Lemma run_of_Returns {A} (r : res A) (a : A) : run_of r = Returns a -> r = Ok a.
Proof. destruct r; simpl; congruence. Qed.

(** Splits a hypothesis [let* x := m in k = Ok b] into [m = Ok x] and
    [k x = Ok b]; likewise for [let+] and [Returns]. *)
Ltac bind_inv H :=
  let x := fresh "x" in
  let E := fresh "E" in
  first [ apply bind_Ok in H as (x & E & H)
        | apply run_bind_Returns in H as (x & E & H);
          try apply run_of_Returns in E ].

(** ** Domain filtering (C5) *)

Section DomainFilter.
Context `{Platform}.

Lemma domain_matches_admits host d :
  exists b, domain_matches host (JStr d) = Ok b /\ (b = true <-> entry_admits host d).
Proof.
  unfold domain_matches, entry_admits. cbn [JS.ToString res_bind].
  set (dd := Str.trim (Str.toLowerCase d)).
  destruct dd as [|c dd'] eqn:Hdd; cbn [Str.is_empty].
  - exists false. split; [done|]. split; [done | by intros [? _]].
  - destruct (Str.startsWith (String c dd') ".") eqn:Hdot.
    + eexists. split; [done|]. rewrite endsWith_suffix.
      split; [by split | by intros [_ ?]].
    + eexists. split; [done|].
      rewrite orb_true_iff, String.eqb_eq, endsWith_suffix.
      split; [by split | by intros [_ ?]].
Qed.

Lemma domains_some_admits host ds :
  exists b, domains_some host (map JStr ds) = Ok b
            /\ (b = true <-> Exists (entry_admits host) ds).
Proof.
  induction ds as [|d ds (b & Hb & IH)]; cbn [map domains_some].
  - exists false. split; [done|]. split; [done | by intros ?%Exists_nil].
  - destruct (domain_matches_admits host d) as (b1 & -> & Hb1). cbn [res_bind].
    destruct b1.
    + exists true. split; [done|]. split; [|done]. intros _. left. by apply Hb1.
    + exists b. split; [done|]. rewrite Exists_cons, <- IH. split; [auto|].
      intros [Hd|Hd]; [|done]. apply Hb1 in Hd. done.
Qed.

Lemma forceDomains_strings url h d ds :
  URL_hostname url = Some h ->
  urlAllowedByForceDomains url (Some (map JStr (d :: ds))) = true
  <-> Exists (entry_admits (Str.toLowerCase h)) (d :: ds).
Proof.
  intros Hh. unfold urlAllowedByForceDomains. rewrite Hh.
  destruct (domains_some_admits (Str.toLowerCase h) (d :: ds)) as (b & Hb & Hiff).
  cbn [map] in *. rewrite Hb. done.
Qed.

End DomainFilter.

(** C5.  With [forceDomains = [".gov"]] the fact from
    [https://epa.gov/report] is kept and the one from
    [https://epa.com/report] is dropped (given what the URL parser makes of
    the two URLs); for a non-empty list of entries the URL passes exactly
    when some entry admits its host -- an entry starting with a dot by being
    a suffix of the host, any other entry by being the host or a suffix of it
    after a dot; and a URL that does not parse is rejected. *)
Theorem forceDomains_filter (P : Platform) :
  (URL_hostname "https://epa.gov/report" = Some "epa.gov" ->
   URL_hostname "https://epa.com/report" = Some "epa.com" ->
   urlAllowedByForceDomains "https://epa.gov/report" (Some [JStr ".gov"]) = true
   /\ urlAllowedByForceDomains "https://epa.com/report" (Some [JStr ".gov"]) = false
   /\ forall cfg, forceDomains cfg = Some [JStr ".gov"] ->
        exists f, round_facts cfg (JArr [jfact "a" "https://epa.gov/report" 3;
                                         jfact "b" "https://epa.com/report" 3]) = Ok [f]
                  /\ url f = "https://epa.gov/report")
  /\ (forall url h d ds,
        URL_hostname url = Some h ->
        urlAllowedByForceDomains url (Some (map JStr (d :: ds))) = true
        <-> Exists (entry_admits (Str.toLowerCase h)) (d :: ds))
  /\ (forall url d ds,
        URL_hostname url = None ->
        urlAllowedByForceDomains url (Some (d :: ds)) = false).
Proof.
  split; [|split].
  - intros Hgov Hcom.
    assert (urlAllowedByForceDomains "https://epa.gov/report" (Some [JStr ".gov"]) = true)
      as Ha by (unfold urlAllowedByForceDomains; rewrite Hgov; reflexivity).
    assert (urlAllowedByForceDomains "https://epa.com/report" (Some [JStr ".gov"]) = false)
      as Hb by (unfold urlAllowedByForceDomains; rewrite Hcom; reflexivity).
    split; [done|]. split; [done|]. intros cfg Hcfg.
    eexists. unfold round_facts. rewrite Hcfg.
    cbn [JS.or JS.truthy res_bind res_map].
    change (normalize_fact (jfact "a" "https://epa.gov/report" 3))
      with (Ok {| fact := JStr "a"; url := "https://epa.gov/report"; title := JNull;
                  date := JNull; confidence := Fin 3; source_quality := 5 |}).
    change (normalize_fact (jfact "b" "https://epa.com/report" 3))
      with (Ok {| fact := JStr "b"; url := "https://epa.com/report"; title := JNull;
                  date := JNull; confidence := Fin 3; source_quality := 2 |}).
    cbn [res_bind List.filter].
    change (acceptable {| fact := JStr "a"; url := "https://epa.gov/report";
                          title := JNull; date := JNull; confidence := Fin 3;
                          source_quality := 5 |}) with true.
    change (acceptable {| fact := JStr "b"; url := "https://epa.com/report";
                          title := JNull; date := JNull; confidence := Fin 3;
                          source_quality := 2 |}) with true.
    cbn [List.filter url]. rewrite Ha, Hb. done.
  - intros url h d ds. apply forceDomains_strings.
  - intros url d ds Hnone. unfold urlAllowedByForceDomains. by rewrite Hnone.
Qed.

Lemma forceDomains_filter_witness :
  @urlAllowedByForceDomains ExamplePlatform.platform "https://epa.gov/report"
    (Some [JStr ".gov"]) = true
  /\ @urlAllowedByForceDomains ExamplePlatform.platform "https://epa.com/report"
       (Some [JStr ".gov"]) = false.
Proof.
  destruct (proj1 (forceDomains_filter ExamplePlatform.platform)) as (Ha & Hb & _).
  - reflexivity.
  - reflexivity.
  - split; [exact Ha | exact Hb].
Defined.

(** ** Numeric options (C10) *)

Section Options.
Context `{Platform}.

Lemma clampInt_not_finite v min max n :
  JS.ToNumber v = Ok n -> Num.isFinite n = false -> clampInt v min max = Ok min.
Proof.
  intros Hn Hfin. unfold clampInt. rewrite Hn. cbn [res_bind].
  by destruct n.
Qed.

Lemma clampInt_range v min max z :
  min <= max -> clampInt v min max = Ok z -> min <= z <= max.
Proof.
  intros Hmm Hz. unfold clampInt in Hz. bind_inv Hz.
  destruct x; simplify_eq/=; lia.
Qed.

(** The fields of a successfully built configuration are the values of
    their initialisers. *)
Lemma build_cfg_fields options env_model cfg :
  build_cfg options env_model = Ok cfg ->
  clampInt (JS.nullish (opt options "maxSearchRounds") (JNum (Fin 4))) 1 10
    = Ok (maxSearchRounds cfg)
  /\ clampInt (JS.nullish (opt options "maxFacts") (JNum (Fin 18))) 5 50 = Ok (maxFacts cfg)
  /\ clampInt (JS.nullish (opt options "minNewFactsPerRound") (JNum (Fin 2))) 0 10
     = Ok (minNewFactsPerRound cfg)
  /\ clampInt (JS.nullish (opt options "maxRetries") (JNum (Fin 3))) 0 5
     = Ok (maxRetries cfg).
Proof.
  unfold build_cfg. intros Hb.
  repeat bind_inv Hb. injection Hb as <-. cbn. done.
Qed.

End Options.

(** C10.  [clampInt] returns [min] for every value whose [Number] is not
    finite; so an option [maxFacts = "abc"] gives 5 and
    [maxSearchRounds = "abc"] gives 1, where an absent option gives the
    defaults 18 and 4. *)
Theorem clampInt_non_numeric (P : Platform) :
  (forall v min max n,
     JS.ToNumber v = Ok n -> Num.isFinite n = false -> clampInt v min max = Ok min)
  /\ (forall min max,
        clampInt (JStr "abc") min max = Ok min
        /\ clampInt (JNum NaN) min max = Ok min
        /\ clampInt (JNum PInf) min max = Ok min
        /\ clampInt (JStr "Infinity") min max = Ok min)
  /\ (forall options env_model cfg,
        build_cfg options env_model = Ok cfg ->
        (JS.get_opt options "maxFacts" = JStr "abc" -> maxFacts cfg = 5)
        /\ (JS.get_opt options "maxSearchRounds" = JStr "abc" -> maxSearchRounds cfg = 1)
        /\ (JS.get_opt options "maxFacts" = JUndef -> maxFacts cfg = 18)
        /\ (JS.get_opt options "maxSearchRounds" = JUndef -> maxSearchRounds cfg = 4)).
Proof.
  split; [|split].
  - intros v min max n. apply clampInt_not_finite.
  - intros min max. repeat split; by apply (clampInt_not_finite _ _ _ _ eq_refl).
  - intros options env_model cfg Hb.
    destruct (build_cfg_fields _ _ _ Hb) as (Hr & Hf & _).
    unfold opt in *. revert Hr Hf.
    generalize (maxSearchRounds cfg) (maxFacts cfg). intros r f Hr Hf.
    repeat split; intros Ho; rewrite Ho in *;
      [vm_compute in Hf | vm_compute in Hr | vm_compute in Hf | vm_compute in Hr];
      congruence.
Qed.

Lemma clampInt_non_numeric_witness :
  exists cfg,
    @build_cfg ExamplePlatform.platform
      (JObj [("maxFacts", JStr "abc"); ("maxSearchRounds", JStr "abc")]) JUndef = Ok cfg
    /\ maxFacts cfg = 5 /\ maxSearchRounds cfg = 1.
Proof.
  eexists. split; [reflexivity|].
  destruct (proj2 (proj2 (clampInt_non_numeric ExamplePlatform.platform))
              (JObj [("maxFacts", JStr "abc"); ("maxSearchRounds", JStr "abc")]) JUndef
              _ eq_refl) as (Hf & Hr & _).
  split; [apply Hf | apply Hr]; reflexivity.
Defined.

(** ** Final answer (C9) *)

Lemma select_answer_not_ok v draft :
  JS.truthy (JS.get_opt v "ok") = false ->
  select_answer v draft = JS.or (JS.get_opt v "revised_answer") (JStr draft).
Proof. intros Hok. unfold select_answer. by rewrite Hok. Qed.

Section Answer.
Context `{Platform}.

Lemma agent_answer st question cfg r :
  deepResearchAgent st question cfg = Returns (Researched r) ->
  exists draft,
    synthesize st (fact_table r) (conflicts r) = Ok draft
    /\ validate st (fact_table r) draft = Ok (validation r)
    /\ answer r = select_answer (validation r) draft.
Proof.
  unfold deepResearchAgent. intros Hrun.
  bind_inv Hrun. destruct x; [discriminate|].
  do 4 bind_inv Hrun. injection Hrun as <-. cbn. eauto.
Qed.

End Answer.

(** C9 (as amended).  When the validation is not ok, the final
    answer is the revised answer exactly when that value is truthy: a
    non-empty string, or any other truthy value the validator's JSON
    holds in its place; it is the draft when the revised answer is
    missing, [null], empty or otherwise falsy.  A validator reply that
    does not parse yields a validation whose revised answer is the draft,
    so the draft is returned; and the agent's answer is selected this
    way. *)
Theorem final_answer_selection (P : Platform) :
  (forall v draft s,
     JS.truthy (JS.get_opt v "ok") = false ->
     JS.get_opt v "revised_answer" = JStr s -> s <> "" ->
     select_answer v draft = JStr s)
  /\ (forall v draft,
        JS.truthy (JS.get_opt v "ok") = false ->
        JS.get_opt v "revised_answer" = JUndef \/ JS.get_opt v "revised_answer" = JNull
        \/ JS.get_opt v "revised_answer" = JStr "" ->
        select_answer v draft = JStr draft)
  /\ (forall v draft,
        JS.truthy (JS.get_opt v "ok") = false ->
        select_answer v draft
        = (if JS.truthy (JS.get_opt v "revised_answer")
           then JS.get_opt v "revised_answer" else JStr draft)
        /\ (select_answer v draft <> JStr draft ->
            JS.truthy (JS.get_opt v "revised_answer") = true
            /\ select_answer v draft = JS.get_opt v "revised_answer"))
  /\ (forall st facts draft v,
        validate_reply st facts draft = Ok None ->
        validate st facts draft = Ok v ->
        JS.truthy (JS.get_opt v "ok") = false
        /\ JS.get_opt v "revised_answer" = JStr draft
        /\ select_answer v draft = JStr draft)
  /\ (forall st question cfg r,
        deepResearchAgent st question cfg = Returns (Researched r) ->
        exists draft,
          synthesize st (fact_table r) (conflicts r) = Ok draft
          /\ validate st (fact_table r) draft = Ok (validation r)
          /\ answer r = select_answer (validation r) draft).
Proof.
  split; [|split; [|split; [|split]]].
  - intros v draft s Hok Hrev Hs. rewrite select_answer_not_ok, Hrev by done.
    by destruct s.
  - intros v draft Hok Hrev. rewrite select_answer_not_ok by done.
    by destruct Hrev as [-> | [-> | ->]].
  - intros v draft Hok. rewrite select_answer_not_ok by done. unfold JS.or.
    destruct (JS.truthy (JS.get_opt v "revised_answer")); by split.
  - intros st facts draft v Hreply Hv. unfold validate in Hv. rewrite Hreply in Hv.
    injection Hv as <-. cbn. repeat split. unfold select_answer. cbn.
    by destruct draft.
  - intros st question cfg r. apply agent_answer.
Qed.

(** C9, as the claim words it: the validator rejects the draft and gives
    the number 7 as its revised answer; the final answer is that number,
    which is no string. *)
Lemma revised_answer_not_a_string :
  exists r,
    @deepResearchAgent ExamplePlatform.platform numeric_revision "question"
      (Example.cfg 6 1) = Returns (Researched r)
    /\ JS.truthy (JS.get_opt (validation r) "ok") = false
    /\ JS.get_opt (validation r) "revised_answer" = JNum (Fin 7)
    /\ answer r = JNum (Fin 7)
    /\ forall s, answer r <> JStr s.
Proof.
  eexists. split; [vm_compute; reflexivity|]. cbn [validation answer].
  repeat split; try reflexivity. intros s. discriminate.
Qed.

Lemma final_answer_selection_witness :
  select_answer (JObj [("ok", JBool false); ("revised_answer", JStr "")]) "draft"
  = JStr "draft".
Proof.
  apply (proj1 (proj2 (final_answer_selection ExamplePlatform.platform))).
  - reflexivity.
  - right. right. reflexivity.
Defined.

(** ** The confidence clamp (C1) *)

Lemma res_map_Forall {A B} (f : A -> res B) (Q : B -> Prop) l out :
  (forall a b, f a = Ok b -> Q b) -> res_map f l = Ok out -> Forall Q out.
Proof.
  intros Hf. revert out. induction l as [|a l IH]; intros out; cbn [res_map].
  - intros [= <-]. constructor.
  - destruct (f a) as [b|] eqn:Hb; [|done].
    destruct (res_map f l) as [bs|]; [|done].
    intros [= <-]. constructor; eauto.
Qed.

Lemma filter_Forall {A} (Q : A -> Prop) (keep : A -> bool) l :
  Forall Q l -> Forall Q (List.filter keep l).
Proof.
  induction 1 as [|a l Ha _ IH]; cbn [List.filter]; [constructor|].
  destruct (keep a); [by constructor | done].
Qed.

Lemma dedupe_from_Forall (Q : Fact -> Prop) facts : forall seen out,
  dedupe_from seen facts = Ok out -> Forall Q facts -> Forall Q out.
Proof.
  induction facts as [|f r IH]; intros seen out; cbn [dedupe_from].
  - intros [= <-] _. constructor.
  - intros Hd Hall. apply Forall_cons in Hall as [Hf Hr].
    bind_inv Hd.
    destruct (Str.is_empty (Str.toLowerCase x)); [by eapply IH|].
    destruct (decide (Str.toLowerCase x ∈ seen)); [by eapply IH|].
    bind_inv Hd. injection Hd as <-. constructor; [done | by eapply IH].
Qed.

Lemma rank_insert_Forall (Q : Fact -> Prop) f sorted :
  Q f -> Forall Q sorted -> Forall Q (rank_insert f sorted).
Proof.
  intros Hf. induction 1 as [|g r Hg Hr IH]; cbn [rank_insert].
  - by repeat constructor.
  - destruct (ranks_before g f); by repeat constructor.
Qed.

Lemma rank_Forall (Q : Fact -> Prop) facts : Forall Q facts -> Forall Q (rank facts).
Proof.
  unfold rank. induction 1; cbn [fold_right]; [constructor|].
  by apply rank_insert_Forall.
Qed.

Section Clamp.
Context `{Platform}.

Lemma normalize_fact_confidence f F :
  normalize_fact f = Ok F ->
  exists raw,
    (let* c := JS.get f "confidence" in JS.ToNumber (JS.or c (JNum (Fin 1)))) = Ok raw
    /\ source_quality F = domainQualityScore (url F)
    /\ confidence F =
       if (source_quality F <=? 2) && Num.gt raw (Fin 3) then Fin 3 else raw.
Proof.
  unfold normalize_fact. intros Hn.
  repeat bind_inv Hn. injection Hn as <-. cbn [source_quality url confidence].
  exists x2. rewrite E1. cbn [res_bind]. done.
Qed.

Lemma normalize_fact_capped f F : normalize_fact f = Ok F -> capped F.
Proof.
  intros (raw & _ & Hsq & Hc)%normalize_fact_confidence. split; [done|].
  rewrite Hc. destruct (source_quality F <=? 2); [|done].
  cbn [andb]. destruct (Num.gt raw (Fin 3)) eqn:Hgt; [reflexivity | done].
Qed.

Lemma round_facts_capped cfg fs out :
  round_facts cfg fs = Ok out -> Forall capped out.
Proof.
  unfold round_facts. intros Hr. do 2 bind_inv Hr. injection Hr as <-.
  do 2 apply filter_Forall.
  eapply res_map_Forall; [|done]. apply normalize_fact_capped.
Qed.

Variable st : stages.
Variable cfg : config.
Variable queries : list jsval.
Variable th : thresholds.

Lemma round_evidence_capped round e r :
  Forall capped (allFacts e) ->
  round_evidence st cfg queries round e = Ok r ->
  Forall capped (allFacts (after r)).
Proof.
  unfold round_evidence. intros He Hr.
  repeat bind_inv Hr. injection Hr as <-. cbn [after allFacts].
  eapply dedupe_from_Forall; [done|].
  apply Forall_app. split; [done|]. by eapply round_facts_capped.
Qed.

Lemma round_body_capped round s s' b :
  Forall capped (allFacts (gathered s)) ->
  round_body st cfg queries th round s = Ok (s', b) ->
  Forall capped (allFacts (gathered s')).
Proof.
  unfold round_body. intros Hs Hb. bind_inv Hb.
  pose proof (round_evidence_capped _ _ _ Hs E) as Hx.
  destruct stop_decision; injection Hb as <- <-; done.
Qed.

Lemma research_loop_capped fuel : forall round s s',
  Forall capped (allFacts (gathered s)) ->
  research_loop st cfg queries th fuel round s = Returns s' ->
  Forall capped (allFacts (gathered s')).
Proof.
  induction fuel as [|fuel IH]; intros round s s' Hs; cbn [research_loop];
    destruct (round <=? maxSearchRounds cfg); try done.
  - by intros [= <-].
  - intros Hl. bind_inv Hl. destruct x as [s1 b]. cbn [fst snd] in Hl.
    pose proof (round_body_capped _ _ _ _ Hs E) as Hs1.
    destruct b; [by injection Hl as <- | by eapply IH].
  - by intros [= <-].
Qed.

End Clamp.

Lemma res_map_elem {A B} (f : A -> res B) l out b :
  res_map f l = Ok out -> b ∈ out -> exists a, a ∈ l /\ f a = Ok b.
Proof.
  revert out. induction l as [|a l IH]; intros out; cbn [res_map].
  - intros [= <-] Hb. by apply elem_of_nil in Hb.
  - destruct (f a) as [b0|] eqn:Hb0; [|done].
    destruct (res_map f l) as [bs|]; [|done].
    intros [= <-] [->|Hb]%elem_of_cons.
    + exists a. split; [left | done].
    + destruct (IH _ eq_refl Hb) as (a' & Ha' & Hf). exists a'. split; [by right | done].
Qed.

Section Origin.
Context `{Platform}.

(** What [normalize_fact] makes of each field of the fact it is given. *)
Lemma normalize_fact_fields f F :
  normalize_fact f = Ok F ->
  exists u c raw,
    JS.get f "url" = Ok u /\ normalizeUrl u = Ok (url F)
    /\ JS.get f "fact" = Ok (fact F)
    /\ source_quality F = domainQualityScore (url F)
    /\ JS.get f "confidence" = Ok c
    /\ JS.ToNumber (JS.or c (JNum (Fin 1))) = Ok raw
    /\ confidence F =
       if (source_quality F <=? 2) && Num.gt raw (Fin 3) then Fin 3 else raw.
Proof.
  unfold normalize_fact. intros Hn.
  repeat bind_inv Hn. injection Hn as <-. cbn [source_quality url confidence fact].
  exists x, x1, x2. by repeat split.
Qed.

(** The facts a round retains are normalisations of facts its extraction
    listed. *)
Lemma round_facts_origin cfg fs out F :
  round_facts cfg fs = Ok out -> F ∈ out ->
  exists l f, JS.or fs (JArr []) = JArr l /\ f ∈ l /\ normalize_fact f = Ok F.
Proof.
  unfold round_facts. intros Hr HF. do 2 bind_inv Hr. injection Hr as <-.
  apply list_elem_of_In, filter_In in HF as [HF _].
  apply filter_In in HF as [HF%list_elem_of_In _].
  destruct (res_map_elem _ _ _ _ E0 HF) as (f & Hf & Hn).
  destruct (JS.or fs (JArr [])) as [| | | | |l|]; try done.
  injection E as <-. by exists l, f.
Qed.

Lemma round_body_origin st cfg queries th round s s' b F :
  round_body st cfg queries th round s = Ok (s', b) ->
  F ∈ allFacts (gathered s') ->
  F ∈ allFacts (gathered s) \/ exists f, normalize_fact f = Ok F.
Proof.
  unfold round_body. intros Hb HF. bind_inv Hb. rename x into r.
  assert (F ∈ allFacts (after r)) as HF'
    by (destruct stop_decision; injection Hb as <- <-; done).
  clear Hb HF. unfold round_evidence in E. repeat bind_inv E. injection E as <-.
  cbn [after allFacts] in HF'.
  match goal with
  | Hr : round_facts cfg _ = Ok ?roundFacts,
    Hd : dedupeFacts (_ ++ ?roundFacts) = Ok ?all |- _ =>
      assert (Forall (fun G => G ∈ allFacts (gathered s) ++ roundFacts) all) as Hall
        by (eapply dedupe_from_Forall; [exact Hd|]; by apply Forall_forall);
      apply (proj1 (Forall_forall _ _) Hall) in HF';
      apply elem_of_app in HF' as [?|HF']; [by left|]; right;
      destruct (round_facts_origin _ _ _ _ Hr HF') as (l & f & _ & _ & Hn)
  end.
  by exists f.
Qed.

End Origin.

(** C1.  Normalisation keeps the fact's text, trims its URL, stores the
    score of that URL as the source quality and replaces a confidence above
    3 by 3 when that score is at most 2.  The facts a round retains are
    normalisations of the facts its extraction listed; every round keeps the
    evidence set free of facts with source quality at most 2 and confidence
    above 3, adding only normalised facts, and so are the facts after the
    last round and the fact table of the result. *)
Theorem confidence_clamp (P : Platform) :
  (forall f F,
     normalize_fact f = Ok F ->
     exists u c raw,
       JS.get f "url" = Ok u /\ normalizeUrl u = Ok (url F)
       /\ JS.get f "fact" = Ok (fact F)
       /\ source_quality F = domainQualityScore (url F)
       /\ JS.get f "confidence" = Ok c
       /\ JS.ToNumber (JS.or c (JNum (Fin 1))) = Ok raw
       /\ confidence F =
          if (source_quality F <=? 2) && Num.gt raw (Fin 3) then Fin 3 else raw)
  /\ (forall cfg fs out F,
        round_facts cfg fs = Ok out -> F ∈ out ->
        capped F
        /\ exists l f, JS.or fs (JArr []) = JArr l /\ f ∈ l /\ normalize_fact f = Ok F)
  /\ (forall st cfg queries th round s s' b,
        Forall capped (allFacts (gathered s)) ->
        round_body st cfg queries th round s = Ok (s', b) ->
        Forall capped (allFacts (gathered s'))
        /\ forall F, F ∈ allFacts (gathered s') ->
                     F ∈ allFacts (gathered s) \/ exists f, normalize_fact f = Ok F)
  /\ (forall st question cfg plan s,
        run_rounds st question cfg plan = Returns s ->
        Forall capped (allFacts (gathered s)))
  /\ (forall st question cfg r,
        deepResearchAgent st question cfg = Returns (Researched r) ->
        Forall capped (fact_table r)).
Proof.
  assert (forall st question cfg plan s,
            run_rounds st question cfg plan = Returns s ->
            Forall capped (allFacts (gathered s))) as Hrun.
  { intros st question cfg plan s. unfold run_rounds. intros Hr. bind_inv Hr.
    eapply research_loop_capped; [|done]. constructor. }
  split; [|split; [|split; [|split]]].
  - intros f F. apply normalize_fact_fields.
  - intros cfg fs out F Hr HF. split; [|by eapply round_facts_origin].
    by apply (proj1 (Forall_forall _ _) (round_facts_capped _ _ _ Hr)).
  - intros st cfg queries th round s s' b Hs Hb. split.
    + by eapply round_body_capped.
    + intros F. by eapply round_body_origin.
  - done.
  - intros st question cfg r. unfold deepResearchAgent. intros Ha.
    bind_inv Ha. destruct x; [discriminate|].
    do 4 bind_inv Ha. injection Ha as <-. cbn [fact_table].
    apply rank_Forall. by eapply Hrun.
Qed.

(** ** Rounds and queries (C3) *)

Lemma searches_app a b : searches (a ++ b) = searches a ++ searches b.
Proof. apply omap_app. Qed.

Lemma select_query_cyclic qs r :
  1 <= r <= 10 -> select_query (take 10 qs) r = cyclic_query qs r.
Proof.
  intros Hr. unfold select_query, query_index, cyclic_query, len.
  rewrite length_take.
  destruct (decide (length qs <= 10)%nat) as [Hle|Hgt].
  - rewrite Nat.min_r by lia. rewrite take_ge by lia.
    destruct (decide (length qs = 0)%nat) as [H0|Hn0].
    + destruct qs; [|done]. cbn [length]. by rewrite !lookup_nil; destruct (_ <? _).
    + rewrite Z.max_r by lia. rewrite Z.rem_mod_nonneg by lia.
      pose proof (Z.mod_pos_bound (r - 1) (Z.of_nat (length qs))).
      destruct (_ <? 0) eqn:Hneg; [lia | done].
  - rewrite Nat.min_l by lia. rewrite Z.max_r by lia.
    rewrite Z.rem_small by lia. rewrite Z.mod_small by lia.
    destruct (_ <? 0) eqn:Hneg; [lia|].
    by rewrite lookup_take_lt by lia.
Qed.

Section Rounds.
Context `{Platform}.
Variable st : stages.
Variable cfg : config.
Variable queries : list jsval.
Variable th : thresholds.

Lemma round_evidence_query round e r :
  round_evidence st cfg queries round e = Ok r -> query r = select_query queries round.
Proof.
  unfold round_evidence. intros Hr. repeat bind_inv Hr. by injection Hr as <-.
Qed.

Lemma round_body_trace round s s' b :
  round_body st cfg queries th round s = Ok (s', b) ->
  searches (trace s') = searches (trace s) ++ [(round, select_query queries round)]
  /\ (b = true -> stopped (trace s')).
Proof.
  unfold round_body. intros Hb. bind_inv Hb.
  rewrite <- (round_evidence_query _ _ _ E).
  destruct stop_decision as [reason|]; injection Hb as <- <-; cbn [trace].
  - rewrite !searches_app. cbn. rewrite app_nil_r. split; [done|].
    intros _. exists reason. by rewrite last_snoc.
  - rewrite !searches_app. cbn. split; [done|done].
Qed.

(** The loop does not run out of fuel when it is given one unit per
    remaining round. *)
Lemma research_loop_fuel fuel : forall round s,
  (Z.to_nat (maxSearchRounds cfg - round + 1) <= fuel)%nat ->
  research_loop st cfg queries th fuel round s <> OutOfFuel.
Proof.
  induction fuel as [|fuel IH]; intros round s Hfuel; cbn [research_loop];
    destruct (Z.leb_spec round (maxSearchRounds cfg)); try done.
  - lia.
  - destruct (round_body st cfg queries th round s) as [[s1 b]|]; cbn; try done.
    destruct b; [done|]. apply IH. lia.
Qed.

(** A completed loop entered at [round] ran [k] consecutive rounds, each with
    the query selected for it; it ran the full count unless it stopped. *)
Lemma research_loop_rounds fuel : forall round s s',
  research_loop st cfg queries th fuel round s = Returns s' ->
  exists k,
    0 <= k <= Z.max 0 (maxSearchRounds cfg - round + 1)
    /\ (round <= maxSearchRounds cfg -> 1 <= k)
    /\ searches (trace s')
       = searches (trace s) ++ map (fun r => (r, select_query queries r)) (seqZ round k)
    /\ (stopped (trace s') \/ k = Z.max 0 (maxSearchRounds cfg - round + 1)).
Proof.
  induction fuel as [|fuel IH]; intros round s s'; cbn [research_loop];
    destruct (Z.leb_spec round (maxSearchRounds cfg)) as [Hle|Hgt]; try done.
  - intros [= <-]. exists 0. rewrite app_nil_r. repeat split; lia.
  - intros Hl. bind_inv Hl. destruct x as [s1 b]. cbn [fst snd] in Hl.
    destruct (round_body_trace _ _ _ _ E) as [Htr Hstop].
    destruct b.
    + injection Hl as <-. exists 1. rewrite Htr. repeat split; try lia. auto.
    + destruct (IH _ _ _ Hl) as (k & Hk & Hk1 & Hs & Hend).
      exists (1 + k). split; [lia|]. split; [lia|]. split.
      * rewrite Hs, Htr, <- app_assoc. f_equal.
        rewrite (seqZ_cons round) by lia. cbn. do 3 f_equal. lia.
      * destruct Hend as [?|Hfull]; [auto | right; lia].
  - intros [= <-]. exists 0. rewrite app_nil_r. repeat split; lia.
Qed.

End Rounds.

Section Searched.
Context `{Platform}.
Variable st : stages.
Variable cfg : config.
Variable queries : list jsval.
Variable th : thresholds.

Lemma round_body_searched round s s' b :
  round_body st cfg queries th round s = Ok (s', b) ->
  searched st round (select_query queries round).
Proof.
  unfold round_body. intros Hb. bind_inv Hb.
  unfold round_evidence in E. bind_inv E. rename x0 into snippets.
  apply bind_Ok in E as (extracted & Hext & _).
  unfold extractFacts in Hext. apply bind_Ok in Hext as (reply & Hreply & _).
  exists snippets. split; [done|]. by exists reply.
Qed.

(** Every round of a completed loop searched for the query selected for
    it. *)
Lemma research_loop_searched fuel : forall round s s',
  research_loop st cfg queries th fuel round s = Returns s' ->
  exists k,
    0 <= k
    /\ searches (trace s')
       = searches (trace s) ++ map (fun r => (r, select_query queries r)) (seqZ round k)
    /\ forall r, round <= r < round + k -> searched st r (select_query queries r).
Proof.
  induction fuel as [|fuel IH]; intros round s s'; cbn [research_loop];
    destruct (Z.leb_spec round (maxSearchRounds cfg)) as [Hle|Hgt]; try done.
  - intros [= <-]. exists 0. rewrite app_nil_r. repeat split; [lia | intros r Hr; lia].
  - intros Hl. bind_inv Hl. destruct x as [s1 b]. cbn [fst snd] in Hl.
    destruct (round_body_trace _ _ _ _ _ _ _ _ E) as [Htr _].
    pose proof (round_body_searched _ _ _ _ E) as Hthis.
    destruct b.
    + injection Hl as <-. exists 1. rewrite Htr. split; [lia|]. split; [done|].
      intros r Hr. by replace r with round by lia.
    + destruct (IH _ _ _ Hl) as (k & Hk & Hs & Hall).
      exists (1 + k). split; [lia|]. split.
      * rewrite Hs, Htr, <- app_assoc. f_equal.
        rewrite (seqZ_cons round) by lia. cbn. do 3 f_equal. lia.
      * intros r Hr. destruct (decide (r = round)) as [->|]; [done|]. apply Hall. lia.
  - intros [= <-]. exists 0. rewrite app_nil_r. repeat split; [lia | intros r Hr; lia].
Qed.

End Searched.

(** C3.  The rounds of a request always end (the loop is given one unit of
    fuel per round and never runs out); a completed run made at most
    [maxSearchRounds] rounds, numbered from 1; in round [r] the search stage
    was asked for [plan.queries[(r-1) mod len(plan.queries)]], its text went
    to the extraction of that round, and the trace records this query; the
    run made all its rounds unless a stop condition ended it; and with one
    round and three queries the only search is round 1 with
    [plan.queries[0]]. *)
Theorem bounded_cyclic_rounds (P : Platform) :
  (forall st question cfg plan, run_rounds st question cfg plan <> OutOfFuel)
  /\ (forall st question options env_model cfg plan qs s,
        build_cfg options env_model = Ok cfg ->
        JS.get_opt plan "queries" = JArr qs ->
        run_rounds st question cfg plan = Returns s ->
        exists k,
          1 <= k <= maxSearchRounds cfg
          /\ searches (trace s) = map (fun r => (r, cyclic_query qs r)) (seqZ 1 k)
          /\ (forall r, 1 <= r <= k -> searched st r (cyclic_query qs r))
          /\ (stopped (trace s) \/ k = maxSearchRounds cfg))
  /\ (forall st question options env_model cfg plan q0 q1 q2 s,
        build_cfg options env_model = Ok cfg ->
        maxSearchRounds cfg = 1 ->
        JS.get_opt plan "queries" = JArr [q0; q1; q2] ->
        run_rounds st question cfg plan = Returns s ->
        searches (trace s) = [(1, q0)] /\ searched st 1 q0).
Proof.
  assert (forall st question options env_model cfg plan qs s,
            build_cfg options env_model = Ok cfg ->
            JS.get_opt plan "queries" = JArr qs ->
            run_rounds st question cfg plan = Returns s ->
            exists k,
              1 <= k <= maxSearchRounds cfg
              /\ searches (trace s) = map (fun r => (r, cyclic_query qs r)) (seqZ 1 k)
              /\ (forall r, 1 <= r <= k -> searched st r (cyclic_query qs r))
              /\ (stopped (trace s) \/ k = maxSearchRounds cfg)) as Hrounds.
  { intros st question options env_model cfg plan qs s Hcfg Hqs Hrun.
    destruct (build_cfg_fields _ _ _ Hcfg) as (Hmax & _).
    apply clampInt_range in Hmax; [|lia].
    unfold run_rounds in Hrun. bind_inv Hrun.
    pose proof (research_loop_searched _ _ _ _ _ _ _ _ Hrun)
      as (k' & _ & Hs' & Hsearched).
    apply research_loop_rounds in Hrun as (k & Hk & Hk1 & Hs & Hend).
    assert (k' = k) as ->.
    { rewrite Hs in Hs'. apply app_inv_head in Hs'.
      apply (f_equal length) in Hs'. rewrite !length_map, !length_seqZ in Hs'. lia. }
    unfold plan_queries in Hs, Hsearched. rewrite Hqs in Hs, Hsearched.
    cbn [initial_state trace] in Hs.
    exists k. split; [lia|]. split; [|split].
    - rewrite Hs. cbn [searches omap app]. apply map_ext_in.
      intros r Hr%list_elem_of_In%elem_of_seqZ. f_equal.
      apply select_query_cyclic. lia.
    - intros r Hr. rewrite <- select_query_cyclic by lia. apply Hsearched. lia.
    - destruct Hend as [?|Hfull]; [auto | right; lia]. }
  split; [|split].
  - intros st question cfg plan. unfold run_rounds.
    destruct (plan_thresholds plan); cbn [run_bind run_of]; [|done].
    apply research_loop_fuel. lia.
  - done.
  - intros st question options env_model cfg plan q0 q1 q2 s Hcfg Hone Hqs Hrun.
    destruct (Hrounds _ _ _ _ _ _ _ _ Hcfg Hqs Hrun) as (k & Hk & Hs & Hq & _).
    assert (k = 1) as -> by lia. split; [by rewrite Hs|].
    apply (Hq 1). lia.
Qed.

Lemma confidence_clamp_witness :
  (exists F,
     @normalize_fact ExamplePlatform.platform
       (jfact "Alpha" " https://example.medium.com/post " 5) = Ok F
     /\ url F = "https://example.medium.com/post"
     /\ source_quality F = 2 /\ confidence F = Fin 3
     /\ exists u c raw,
          JS.get (jfact "Alpha" " https://example.medium.com/post " 5) "url" = Ok u
          /\ normalizeUrl u = Ok (url F)
          /\ JS.get (jfact "Alpha" " https://example.medium.com/post " 5) "fact"
             = Ok (fact F)
          /\ source_quality F = domainQualityScore (url F)
          /\ JS.get (jfact "Alpha" " https://example.medium.com/post " 5) "confidence"
             = Ok c
          /\ @JS.ToNumber ExamplePlatform.platform (JS.or c (JNum (Fin 1))) = Ok raw
          /\ confidence F =
             if (source_quality F <=? 2) && Num.gt raw (Fin 3) then Fin 3 else raw)
  /\ exists r,
       @deepResearchAgent ExamplePlatform.platform Example.replies "question"
         (Example.cfg 6 1) = Returns (Researched r)
       /\ Forall capped (fact_table r)
       /\ (confidence <$> fact_table r) = [Fin 4; Fin 5; Fin 3; Fin 2].
Proof.
  split.
  - eexists. split; [vm_compute; reflexivity|].
    split; [reflexivity|]. split; [reflexivity|]. split; [reflexivity|].
    apply (proj1 (confidence_clamp ExamplePlatform.platform)).
    vm_compute. reflexivity.
  - eexists. split; [vm_compute; reflexivity|]. split; [|vm_compute; reflexivity].
    apply (proj2 (proj2 (proj2 (proj2 (confidence_clamp ExamplePlatform.platform))))
             Example.replies "question" (Example.cfg 6 1)).
    vm_compute. reflexivity.
Defined.

Lemma bounded_cyclic_rounds_witness :
  exists cfg s,
    @build_cfg ExamplePlatform.platform (JObj [("maxSearchRounds", jint 1)]) JUndef = Ok cfg
    /\ @run_rounds ExamplePlatform.platform echoing "question" cfg
         (JObj [("queries", jstrs ["q1"; "q2"; "q3"])]) = Returns s
    /\ (fact <$> allFacts (gathered s)) = [JStr "q1"]
    /\ searches (trace s) = [(1, JStr "q1")]
    /\ searched echoing 1 (JStr "q1").
Proof.
  eexists. eexists. split; [vm_compute; reflexivity|]. split; [vm_compute; reflexivity|].
  split; [vm_compute; reflexivity|].
  eapply (proj2 (proj2 (bounded_cyclic_rounds ExamplePlatform.platform))
           echoing "question" (JObj [("maxSearchRounds", jint 1)]) JUndef _
           (JObj [("queries", jstrs ["q1"; "q2"; "q3"])]) (JStr "q1") (JStr "q2") (JStr "q3")).
  - vm_compute. reflexivity.
  - reflexivity.
  - reflexivity.
  - vm_compute. reflexivity.
Defined.

(** ** Stagnation (C2) *)

Section StagnationSteps.
Context `{Platform}.
Variable st : stages.
Variable cfg : config.
Variable queries : list jsval.
Variable th : thresholds.

Lemma round_body_continue round s r :
  round_evidence st cfg queries round (gathered s) = Ok r ->
  stop_decision cfg th (count_stagnation cfg (noNewRounds s) (newFacts r)) (after r) = None ->
  round_body st cfg queries th round s
  = Ok ({| gathered := after r;
           noNewRounds := count_stagnation cfg (noNewRounds s) (newFacts r);
           trace := trace s ++ round_events round r |}, false).
Proof. intros Hr Hstop. unfold round_body. rewrite Hr. cbn [res_bind]. by rewrite Hstop. Qed.

Lemma round_body_break round s r reason :
  round_evidence st cfg queries round (gathered s) = Ok r ->
  stop_decision cfg th (count_stagnation cfg (noNewRounds s) (newFacts r)) (after r)
  = Some reason ->
  round_body st cfg queries th round s
  = Ok ({| gathered := after r;
           noNewRounds := count_stagnation cfg (noNewRounds s) (newFacts r);
           trace := (trace s ++ round_events round r) ++ [TrStop reason] |}, true).
Proof. intros Hr Hstop. unfold round_body. rewrite Hr. cbn [res_bind]. by rewrite Hstop. Qed.

Lemma research_loop_continue fuel round s s1 :
  round <= maxSearchRounds cfg ->
  round_body st cfg queries th round s = Ok (s1, false) ->
  research_loop st cfg queries th (S fuel) round s
  = research_loop st cfg queries th fuel (round + 1) s1.
Proof.
  intros Hle Hb. cbn [research_loop]. rewrite (proj2 (Z.leb_le _ _) Hle), Hb. done.
Qed.

Lemma research_loop_break fuel round s s1 :
  round <= maxSearchRounds cfg ->
  round_body st cfg queries th round s = Ok (s1, true) ->
  research_loop st cfg queries th (S fuel) round s = Returns s1.
Proof.
  intros Hle Hb. cbn [research_loop]. rewrite (proj2 (Z.leb_le _ _) Hle), Hb. done.
Qed.

(** The stop decision when budget and coverage are out of the way. *)
Lemma stop_decision_stagnation noNew e :
  budget_reached cfg e = false -> coverage th e = false ->
  stop_decision cfg th noNew e
  = if Num.ge (Num.of_Z noNew) (noNewRoundsLimit th) then Some stagnation else None.
Proof. intros Hb Hc. unfold stop_decision. by rewrite Hb, Hc. Qed.

End StagnationSteps.

(** C2.  Take a run whose rounds 1 to 5 add 1, 0, 3, 0 and 0 new facts, with
    [minNewFactsPerRound = 1], a limit of 2 rounds without new facts, and
    neither the fact budget nor coverage reached in these rounds.  The loop
    then makes exactly these five rounds and ends with the stop reason
    [stagnation]: its trace is the events of rounds 1 to 5 followed by that
    one stop event.  In every round, a count of new facts that meets the
    threshold resets the counter of rounds without new facts to 0, and any
    lower count adds 1 to it. *)
Theorem stagnation_stop (P : Platform) :
  (forall st cfg queries th s0 reports fuel,
     minNewFactsPerRound cfg = 1 ->
     noNewRoundsLimit th = Fin 2 ->
     5 <= maxSearchRounds cfg ->
     (5 <= fuel)%nat ->
     accumulate st cfg queries 5 1 (gathered s0) = Ok reports ->
     map newFacts reports = [1; 0; 3; 0; 0] ->
     Forall (fun r => budget_reached cfg (after r) = false
                      /\ coverage th (after r) = false) reports ->
     exists s',
       research_loop st cfg queries th fuel 1 s0 = Returns s'
       /\ trace s'
          = trace s0 ++ concat (zip_with round_events [1; 2; 3; 4; 5] reports)
            ++ [TrStop stagnation]
       /\ Some (gathered s') = after <$> last reports)
  /\ (forall st cfg queries th round s s' b r,
        round_evidence st cfg queries round (gathered s) = Ok r ->
        round_body st cfg queries th round s = Ok (s', b) ->
        (minNewFactsPerRound cfg <= newFacts r -> noNewRounds s' = 0)
        /\ (newFacts r < minNewFactsPerRound cfg -> noNewRounds s' = noNewRounds s + 1)).
Proof.
  split.
  - intros st cfg queries th s0 reports fuel Hmin Hlimit Hmax Hfuel Hacc Hnew Hquiet.
    cbn [accumulate] in Hacc.
    bind_inv Hacc. rename x into r1, E into E1.
    bind_inv Hacc. bind_inv E. rename x0 into r2, E0 into E2.
    bind_inv E. bind_inv E0. rename x1 into r3, E3 into E3'.
    bind_inv E0. bind_inv E3. rename x2 into r4, E4 into E4'.
    bind_inv E3. bind_inv E4. rename x3 into r5.
    injection E4 as <-. injection E3 as <-. injection E0 as <-. injection E as <-.
    injection Hacc as <-.
    change (1 + 1) with 2 in *. change (2 + 1) with 3 in *.
    change (3 + 1) with 4 in *. change (4 + 1) with 5 in *.
    injection Hnew as N1 N2 N3 N4 N5.
    apply Forall_cons in Hquiet as [[B1 C1] Hquiet].
    apply Forall_cons in Hquiet as [[B2 C2] Hquiet].
    apply Forall_cons in Hquiet as [[B3 C3] Hquiet].
    apply Forall_cons in Hquiet as [[B4 C4] Hquiet].
    apply Forall_cons in Hquiet as [[B5 C5] _].
    do 5 (destruct fuel as [|fuel]; [lia|]).
    assert (forall n, count_stagnation cfg n 1 = 0) as K1
      by (intros n; unfold count_stagnation; rewrite Hmin; reflexivity).
    assert (forall n, count_stagnation cfg n 3 = 0) as K3
      by (intros n; unfold count_stagnation; rewrite Hmin; reflexivity).
    assert (forall n, count_stagnation cfg n 0 = n + 1) as K0
      by (intros n; unfold count_stagnation; rewrite Hmin; reflexivity).
    set (s1 := {| gathered := after r1; noNewRounds := 0;
                  trace := trace s0 ++ round_events 1 r1 |}).
    set (s2 := {| gathered := after r2; noNewRounds := 1;
                  trace := trace s1 ++ round_events 2 r2 |}).
    set (s3 := {| gathered := after r3; noNewRounds := 0;
                  trace := trace s2 ++ round_events 3 r3 |}).
    set (s4 := {| gathered := after r4; noNewRounds := 1;
                  trace := trace s3 ++ round_events 4 r4 |}).
    set (s5 := {| gathered := after r5; noNewRounds := 2;
                  trace := (trace s4 ++ round_events 5 r5) ++ [TrStop stagnation] |}).
    assert (round_body st cfg queries th 1 s0 = Ok (s1, false)) as R1.
    { rewrite (round_body_continue _ _ _ _ 1 s0 r1 E1); rewrite N1, K1; [done|].
      rewrite stop_decision_stagnation, Hlimit by done. reflexivity. }
    assert (round_body st cfg queries th 2 s1 = Ok (s2, false)) as R2.
    { rewrite (round_body_continue _ _ _ _ 2 s1 r2 E2); cbn [s1 noNewRounds];
        rewrite N2, K0; [done|].
      rewrite stop_decision_stagnation, Hlimit by done. reflexivity. }
    assert (round_body st cfg queries th 3 s2 = Ok (s3, false)) as R3.
    { rewrite (round_body_continue _ _ _ _ 3 s2 r3 E3'); cbn [s2 noNewRounds];
        rewrite N3, K3; [done|].
      rewrite stop_decision_stagnation, Hlimit by done. reflexivity. }
    assert (round_body st cfg queries th 4 s3 = Ok (s4, false)) as R4.
    { rewrite (round_body_continue _ _ _ _ 4 s3 r4 E4'); cbn [s3 noNewRounds];
        rewrite N4, K0; [done|].
      rewrite stop_decision_stagnation, Hlimit by done. reflexivity. }
    assert (round_body st cfg queries th 5 s4 = Ok (s5, true)) as R5.
    { rewrite (round_body_break _ _ _ _ 5 s4 r5 stagnation E5); cbn [s4 noNewRounds];
        rewrite N5, K0; [done|].
      rewrite stop_decision_stagnation, Hlimit by done. reflexivity. }
    exists s5. split; [|split].
    + rewrite (research_loop_continue _ _ _ _ _ _ _ s1) by (done || lia).
      rewrite (research_loop_continue _ _ _ _ _ _ _ s2) by (done || lia).
      rewrite (research_loop_continue _ _ _ _ _ _ _ s3) by (done || lia).
      rewrite (research_loop_continue _ _ _ _ _ _ _ s4) by (done || lia).
      apply research_loop_break; [lia | done].
    + cbn [s5 s4 s3 s2 s1 trace zip_with concat]. rewrite app_nil_r, <- !app_assoc. done.
    + reflexivity.
  - intros st cfg queries th round s s' b r Hr Hb.
    unfold round_body in Hb. rewrite Hr in Hb. cbn [res_bind] in Hb.
    assert (noNewRounds s' = count_stagnation cfg (noNewRounds s) (newFacts r)) as ->
      by (destruct stop_decision; by injection Hb as <- <-).
    unfold count_stagnation.
    destruct (Z.ltb_spec (newFacts r) (minNewFactsPerRound cfg)); split; lia.
Qed.

Lemma stagnation_stop_witness :
  exists s',
    @research_loop ExamplePlatform.platform Example.replies (Example.cfg 6 1)
      (jstrs_list ["q1"; "q2"; "q3"]) Example.limits 6 1 (initial_state JNull) = Returns s'
    /\ last (trace s') = Some (TrStop stagnation)
    /\ map fst (searches (trace s')) = [1; 2; 3; 4; 5].
Proof.
  destruct (proj1 (stagnation_stop ExamplePlatform.platform) Example.replies
              (Example.cfg 6 1) (jstrs_list ["q1"; "q2"; "q3"]) Example.limits
              (initial_state JNull) rounds_1_to_5 6%nat)
    as (s' & Hrun & Htr & _).
  - reflexivity.
  - reflexivity.
  - vm_compute. discriminate.
  - lia.
  - vm_compute. reflexivity.
  - vm_compute. reflexivity.
  - vm_compute. repeat constructor.
  - exists s'. split; [exact Hrun|]. rewrite Htr. vm_compute. split; reflexivity.
Defined.

(** ** Retry policy (C8) *)

Section Retry.
Variable net : network.
Variable input : string.

Local Abbreviation attempt_outcome := (attempt_outcome net input).
Local Abbreviation retry_log := (retry_log input).
Local Abbreviation requested := (requested net input).

Lemma transient_not_ok r : transient (Response r) = true -> http_ok r = false.
Proof.
  unfold transient, http_ok. intros Ht.
  destruct (Z.leb_spec 200 (http_status r)), (Z.leb_spec (http_status r) 299); try done.
  destruct (Z.eqb_spec (http_status r) 429); [lia|].
  destruct (Z.leb_spec 500 (http_status r)); [lia | done].
Qed.

Lemma api_result_of_status r : api_status (api_result_of r) = http_status r.
Proof. unfold api_result_of. by destruct (negb (http_ok r)). Qed.

Lemma api_result_of_ok r : api_ok (api_result_of r) = http_ok r.
Proof. unfold api_result_of. by destruct (http_ok r). Qed.

Lemma shouldRetry_transient r :
  negb (api_ok (api_result_of r)) && defaultShouldRetry (OfResult (api_result_of r))
  = transient (Response r).
Proof.
  rewrite api_result_of_ok. cbn [defaultShouldRetry]. rewrite api_result_of_status.
  fold (transient (Response r)).
  destruct (transient (Response r)) eqn:Ht; [|apply andb_false_r].
  by rewrite (transient_not_ok _ Ht).
Qed.

Lemma responses_call_outcome w :
  responses_call net input w
  = (match attempt_outcome w 0 with
     | NetworkError message => Throw message
     | Response r => Ok (api_result_of r)
     end, requested w).
Proof.
  unfold responses_call, fetch, attempt_outcome, requested. rewrite Nat.add_0_r.
  by destruct (outcome _).
Qed.

Lemma retry_loop_attempts maxRetries baseDelayMs (k : nat) : forall fuel attempt lastError w,
  (k < fuel)%nat ->
  attempt + Z.of_nat k <= maxRetries ->
  (forall i, (i < k)%nat -> transient (attempt_outcome w i) = true) ->
  attempt + Z.of_nat k = maxRetries \/ transient (attempt_outcome w k) = false ->
  exists w',
    retry_loop fuel (responses_call net input) maxRetries baseDelayMs attempt lastError w
    = (surfaced (attempt_outcome w k), w')
    /\ io_log w' = io_log w ++ retry_log baseDelayMs attempt k
    /\ fetches w' = (fetches w + k + 1)%nat.
Proof.
  induction k as [|k IH]; intros fuel attempt lastError w Hfuel Hle Hbefore Hlast;
    (destruct fuel as [|fuel]; [lia|]); cbn [retry_loop];
    rewrite (proj2 (Z.leb_le attempt maxRetries)) by lia;
    rewrite responses_call_outcome.
  - exists (requested w).
    split; [|cbn [requested io_log fetches retry_log]; split; [done | lia]].
    destruct (attempt_outcome w 0) as [msg|r] eqn:Ho.
    + destruct Hlast as [Hmax|Hnt].
      * by rewrite (proj2 (Z.ltb_ge attempt maxRetries)) by lia.
      * cbn [defaultShouldRetry]. cbn [transient] in Hnt. by rewrite Hnt, andb_false_r.
    + rewrite shouldRetry_transient.
      destruct Hlast as [Hmax|Hnt].
      * rewrite (proj2 (Z.ltb_ge attempt maxRetries)) by lia.
        by destruct (transient (Response r)).
      * by rewrite Hnt.
  - pose proof (Hbefore 0%nat ltac:(lia)) as H0.
    assert (forall i, attempt_outcome
                        (sleep (Num.of_Z (backoff_delay baseDelayMs attempt)) (requested w)) i
                      = attempt_outcome w (S i)) as Hshift.
    { intros i. unfold attempt_outcome. cbn [sleep requested fetches].
      by replace (S (fetches w) + i)%nat with (fetches w + S i)%nat by lia. }
    assert (forall last,
      exists w',
        retry_loop fuel (responses_call net input) maxRetries baseDelayMs (attempt + 1) last
          (sleep (Num.of_Z (backoff_delay baseDelayMs attempt)) (requested w))
        = (surfaced (attempt_outcome w (S k)), w')
        /\ io_log w' = io_log w ++ retry_log baseDelayMs attempt (S k)
        /\ fetches w' = (fetches w + S k + 1)%nat) as Hrest.
    { intros last.
      destruct (IH fuel (attempt + 1) last
                  (sleep (Num.of_Z (backoff_delay baseDelayMs attempt)) (requested w)))
        as (w' & Hrun & Hlog & Hf).
      - lia.
      - lia.
      - intros i Hi. rewrite Hshift. apply Hbefore. lia.
      - rewrite Hshift. destruct Hlast; [left; lia | by right].
      - exists w'. split; [|split].
        + by rewrite Hrun, Hshift.
        + rewrite Hlog. cbn [sleep io_log requested retry_log]. unfold backoff_delay.
          by rewrite <- !app_assoc.
        + rewrite Hf. cbn [sleep fetches requested]. lia. }
    destruct (attempt_outcome w 0) as [msg|r] eqn:Ho.
    + cbn [defaultShouldRetry]. cbn [transient] in H0. rewrite H0.
      rewrite (proj2 (Z.ltb_lt attempt maxRetries)) by lia. cbn [andb].
      apply Hrest.
    + rewrite shouldRetry_transient, H0.
      rewrite (proj2 (Z.ltb_lt attempt maxRetries)) by lia.
      apply Hrest.
Qed.

End Retry.

(** C8 (as amended).  An attempt fails transiently when the
    response status is 429 or 5xx, or when [fetch] throws an error whose
    message contains [network], [timeout] or [econnreset] in any letter
    case; no other thrown error counts.  [openaiResponsesCreate] repeats
    the request while the attempts fail transiently: when the first [k]
    attempts ([k <= maxRetries]) are transient failures and the next one
    either is not or is attempt number [maxRetries], exactly [k + 1]
    requests are sent, attempt [i] is followed by a wait of [1000 * 2^i]
    ms, and the outcome of the last attempt is surfaced (a response as a
    result object, a transport error rethrown).  In particular a failure
    that is not transient is returned at once, with no wait; and an absent
    [maxRetries] is 3. *)
Theorem retry_policy :
  (forall net input maxRetries w (k : nat),
     Z.of_nat k <= maxRetries ->
     (forall i, (i < k)%nat -> transient (attempt_outcome net input w i) = true) ->
     Z.of_nat k = maxRetries \/ transient (attempt_outcome net input w k) = false ->
     exists w',
       openaiResponsesCreate net input (Some maxRetries) w
       = (surfaced (attempt_outcome net input w k), w')
       /\ io_log w' = io_log w ++ retry_log input 1000 0 k
       /\ fetches w' = (fetches w + k + 1)%nat)
  /\ (forall net input maxRetries w,
        0 <= maxRetries ->
        transient (attempt_outcome net input w 0) = false ->
        exists w',
          openaiResponsesCreate net input (Some maxRetries) w
          = (surfaced (attempt_outcome net input w 0), w')
          /\ io_log w' = io_log w ++ [IoFetch (POST_responses input)])
  /\ (forall net input,
        openaiResponsesCreate net input None = openaiResponsesCreate net input (Some 3))
  /\ (forall r,
        transient (Response r) = true
        <-> http_status r = 429 \/ 500 <= http_status r < 600)
  /\ (forall message,
        transient (NetworkError message) = true
        <-> exists word,
              word ∈ ["network"; "timeout"; "econnreset"]
              /\ Str.includes (Str.toLowerCase message) word = true).
Proof.
  assert (forall net input maxRetries w (k : nat),
     Z.of_nat k <= maxRetries ->
     (forall i, (i < k)%nat -> transient (attempt_outcome net input w i) = true) ->
     Z.of_nat k = maxRetries \/ transient (attempt_outcome net input w k) = false ->
     exists w',
       openaiResponsesCreate net input (Some maxRetries) w
       = (surfaced (attempt_outcome net input w k), w')
       /\ io_log w' = io_log w ++ retry_log input 1000 0 k
       /\ fetches w' = (fetches w + k + 1)%nat) as Hgen.
  { intros net input maxRetries w k Hk Hbefore Hlast.
    unfold openaiResponsesCreate, retryWithBackoff.
    change (default 3 (Some (default 3 (Some maxRetries)))) with maxRetries.
    change (default 1000 None) with 1000.
    apply retry_loop_attempts; [lia | lia | done | done]. }
  split; [done|]. split; [|split; [done|split]].
  - intros net input maxRetries w Hmax Hnt.
    destruct (Hgen net input maxRetries w 0%nat) as (w' & Hrun & Hlog & _);
      [lia | intros i Hi; lia | by right|].
    by exists w'.
  - intros r. cbn [transient].
    rewrite orb_true_iff, andb_true_iff, Z.eqb_eq, Z.leb_le, Z.ltb_lt. tauto.
  - intros message. cbn [transient]. rewrite !orb_true_iff. split.
    + intros [[Hw|Hw]|Hw]; eexists; (split; [|exact Hw]); set_solver.
    + intros (word & Hin & Hw).
      repeat (apply elem_of_cons in Hin as [->|Hin]); [tauto | tauto | tauto |].
      by apply elem_of_nil in Hin.
Qed.

(** C8, as the claim words it: a transport failure whose message names
    none of the three words is not retried.  With three retries allowed,
    the failed [fetch] is rethrown after one request and no wait. *)
Lemma fetch_failed_not_retried :
  transient (NetworkError "fetch failed") = false
  /\ openaiResponsesCreate unreachable "question" (Some 3) Jobs.start
     = (Throws "fetch failed",
        {| now := 0; fetches := 1; io_log := [IoFetch (POST_responses "question")] |}).
Proof. split; vm_compute; reflexivity. Qed.

(** ** Resuming a finished job (C6) *)

Section Resume.
Context `{Platform}.
Variable net : network.

Local Abbreviation status_fetched := (status_fetched net).

Lemma resume_completed_once id resp text body w :
  outcome (net (fetches w) (GET_response id)) = Response resp ->
  http_ok resp = true ->
  http_body_of resp = BodyJson text body ->
  JS.get body "status" = Ok (JStr "completed") ->
  handleResumeResponse net id w
  = (found_completed id body (now w) (now (status_fetched id w)), status_fetched id w).
Proof.
  intros Hnet Hok Hbody Hstatus.
  unfold handleResumeResponse, io_bind, io_eff, io_lift, Date_now, fetch. rewrite Hnet.
  cbn [run_of]. rewrite Hok. cbn [negb].
  unfold body_json. rewrite Hbody. cbn [run_of]. rewrite Hstatus. cbn [run_of].
  change (status_is (JStr "completed") "completed") with true. cbn iota.
  unfold found_completed, status_fetched.
  destruct (extractText body); reflexivity.
Qed.

End Resume.

(** C6.  When every status request for the job is answered with the same
    2xx response whose body has the status [completed], a call of
    [handleResumeResponse] sends exactly one request -- the status fetch --
    and waits for nothing, so it never enters the poll loop; it returns at
    once, with the text extracted from that body as the answer; and a second
    call right after it does the same and returns the same answer. *)
Theorem resume_completed (P : Platform) :
  forall net id resp text body w,
    (forall n, outcome (net n (GET_response id)) = Response resp) ->
    http_ok resp = true ->
    http_body_of resp = BodyJson text body ->
    JS.get body "status" = Ok (JStr "completed") ->
    let first := handleResumeResponse net id w in
    let second := handleResumeResponse net id (snd first) in
    fst first = found_completed id body (now w) (now (snd first))
    /\ fst second = found_completed id body (now (snd first)) (now (snd second))
    /\ answer_of (fst first) = run_of (let* answer := extractText body in Ok (Some answer))
    /\ answer_of (fst second) = answer_of (fst first)
    /\ io_log (snd first) = io_log w ++ [IoFetch (GET_response id)]
    /\ io_log (snd second) = io_log (snd first) ++ [IoFetch (GET_response id)].
Proof.
  intros net id resp text body w Hnet Hok Hbody Hstatus first second.
  subst first second.
  rewrite (resume_completed_once net id resp text body w) by done.
  cbn [fst snd].
  rewrite (resume_completed_once net id resp text body (status_fetched net id w)) by done.
  cbn [fst snd]. unfold found_completed, answer_of.
  repeat split; by destruct (extractText body).
Qed.

(** ** The jobs end (fuel) *)

Lemma timer_delay_nonneg ms : 0 <= timer_delay ms.
Proof. destruct ms; cbn; lia. Qed.

Lemma io_bind_fuel {A B} (m : io A) (k : A -> io B) w :
  fst (m w) <> OutOfFuel ->
  (forall a w', fst (k a w') <> OutOfFuel) ->
  fst (io_bind m k w) <> OutOfFuel.
Proof.
  unfold io_bind. intros Hm Hk. destruct (m w) as [[a|msg|] w']; cbn in *; auto.
Qed.

Lemma io_lift_fuel {A} (r : res A) w : fst (io_lift r w) <> OutOfFuel.
Proof. by destruct r. Qed.

Lemma io_eff_fuel {A} (e : eff A) w : fst (io_eff e w) <> OutOfFuel.
Proof. unfold io_eff. by destruct (e w) as [[a|msg] w']. Qed.

Lemma retry_loop_fuel fn maxRetries baseDelayMs fuel : forall attempt lastError w,
  (Z.to_nat (maxRetries - attempt + 1) <= fuel)%nat ->
  fst (retry_loop fuel fn maxRetries baseDelayMs attempt lastError w) <> OutOfFuel.
Proof.
  induction fuel as [|fuel IH]; intros attempt lastError w Hfuel; cbn [retry_loop];
    destruct (Z.leb_spec attempt maxRetries); try done.
  - lia.
  - destruct (fn w) as [[result|msg] w1].
    + destruct (_ && _); [|done].
      destruct (Z.ltb_spec attempt maxRetries); [|done]. apply IH. lia.
    + destruct (Z.ltb_spec attempt maxRetries); cbn [andb]; [|done].
      destruct (defaultShouldRetry _); [|done]. apply IH. lia.
Qed.

Section JobsEnd.
Context `{Platform}.
Variable net : network.

Lemma fetch_clock r w : now w <= now (snd (fetch net r w)).
Proof. unfold fetch. destruct (outcome _); cbn; lia. Qed.

Lemma sleep_clock ms w : now (sleep ms w) = now w + timer_delay ms.
Proof. reflexivity. Qed.

Lemma poll_response_clock s startPoll pollResp on_429 w :
  (forall w', now w' <= now (snd (on_429 w'))) ->
  now w <= now (snd (poll_response s startPoll pollResp on_429 w)).
Proof.
  intros Hon. unfold poll_response.
  destruct (negb (http_ok pollResp)).
  - destruct (http_status pollResp =? 429); [apply Hon | cbn; lia].
  - destruct (body_json pollResp) as [r|]; [|cbn; lia].
    destruct (JS.get r "status"); cbn; lia.
Qed.

Lemma resume_try_clock id s startPoll w :
  now w <= now (snd (resume_try net id s startPoll w)).
Proof.
  unfold resume_try. pose proof (fetch_clock (GET_response id) w) as Hf.
  destruct (fetch net (GET_response id) w) as [[pollResp|msg] w1]; cbn [snd] in *; [|done].
  etrans; [exact Hf|]. apply poll_response_clock. intros w'.
  destruct (_ >=? _).
  - destruct (JS.get _ _); cbn; lia.
  - cbn [snd]. rewrite sleep_clock. pose proof (timer_delay_nonneg
      (times_1000 (parse_retry_after pollResp "10"))). lia.
Qed.

Lemma submit_try_clock s startPoll w :
  now w <= now (snd (submit_try net s startPoll w)).
Proof.
  unfold submit_try. destruct (res_bind _ _) as [id|]; [|done].
  pose proof (fetch_clock (GET_response id) w) as Hf.
  destruct (fetch net (GET_response id) w) as [[pollResp|msg] w1]; cbn [snd] in *; [|done].
  etrans; [exact Hf|]. apply poll_response_clock. intros w'.
  destruct (_ >=? _); [cbn; lia|].
  cbn [snd]. rewrite sleep_clock. pose proof (timer_delay_nonneg
    (times_1000 (parse_retry_after pollResp "5"))). lia.
Qed.

(** A poll loop needs one unit of fuel per poll interval left in the wait
    window. *)
Lemma resume_poll_loop_fuel id startPoll fuel : forall s w,
  maxWait - (now w - startPoll) <= pollInterval * Z.of_nat fuel ->
  fst (resume_poll_loop net fuel id startPoll s w) <> OutOfFuel.
Proof.
  induction fuel as [|fuel IH]; intros s w Hfuel; cbn [resume_poll_loop];
    (destruct (non_terminal (result s)) as [nt|]; [|done]);
    (destruct nt; cbn [andb]; [|done]);
    (destruct (Z.ltb_spec (now w - startPoll) maxWait); [|done]).
  - unfold pollInterval in Hfuel. lia.
  - pose proof (resume_try_clock id s startPoll (sleep (Num.of_Z pollInterval) w)) as Hc.
    rewrite sleep_clock in Hc. change (timer_delay (Num.of_Z pollInterval)) with 5000 in Hc.
    unfold pollInterval in Hfuel.
    destruct (resume_try net id s startPoll (sleep (Num.of_Z pollInterval) w))
      as [[s'|s'|msg s'|r] w2]; cbn [snd] in Hc; try done.
    + apply IH. unfold pollInterval. lia.
    + apply IH. unfold pollInterval. lia.
    + destruct (_ >=? _).
      * by destruct (JS.get _ _).
      * apply IH. unfold pollInterval. lia.
Qed.

Lemma submit_poll_loop_fuel startPoll fuel : forall s w,
  maxWait - (now w - startPoll) <= pollInterval * Z.of_nat fuel ->
  fst (submit_poll_loop net fuel startPoll s w) <> OutOfFuel.
Proof.
  induction fuel as [|fuel IH]; intros s w Hfuel; cbn [submit_poll_loop];
    (destruct (non_terminal (result s)) as [nt|]; [|done]);
    (destruct nt; cbn [andb]; [|done]);
    (destruct (Z.ltb_spec (now w - startPoll) maxWait); [|done]).
  - unfold pollInterval in Hfuel. lia.
  - pose proof (submit_try_clock s startPoll (sleep (Num.of_Z pollInterval) w)) as Hc.
    rewrite sleep_clock in Hc. change (timer_delay (Num.of_Z pollInterval)) with 5000 in Hc.
    unfold pollInterval in Hfuel.
    destruct (submit_try net s startPoll (sleep (Num.of_Z pollInterval) w))
      as [[s'|s'|msg s'|r] w2]; cbn [snd] in Hc; try done.
    + apply IH. unfold pollInterval. lia.
    + apply IH. unfold pollInterval. lia.
    + destruct (Str.includes msg "Rate limit"); [done|].
      destruct (_ >=? _); [done|]. apply IH. unfold pollInterval. lia.
Qed.

End JobsEnd.

Ltac no_fuel :=
  repeat first
    [ apply io_lift_fuel
    | apply io_eff_fuel
    | done
    | apply io_bind_fuel; [|intros ? ?]
    | match goal with
      | |- fst ((if ?b then _ else _) _) <> _ => destruct b
      | |- fst (match ?x with _ => _ end _) <> _ => destruct x
      end ].

Section JobsTerminate.
Context `{Platform}.
Variable net : network.

Lemma resume_finish_fuel t id r tr w : fst (resume_finish t id r tr w) <> OutOfFuel.
Proof. unfold resume_finish. no_fuel. Qed.

Lemma submit_finish_fuel t data tr w : fst (submit_finish t data tr w) <> OutOfFuel.
Proof. unfold submit_finish. no_fuel. Qed.

Lemma poll_window_fuel w :
  maxWait - (now w - now w) <= pollInterval * Z.of_nat poll_fuel.
Proof. rewrite Z.sub_diag. vm_compute. discriminate. Qed.

(** [handleResumeResponse] returns or throws: its poll loop is never cut
    short. *)
Lemma handleResumeResponse_ends id w :
  fst (handleResumeResponse net id w) <> OutOfFuel.
Proof.
  unfold handleResumeResponse.
  apply io_bind_fuel; [done|]. intros startedAt w0.
  apply io_bind_fuel; [apply io_eff_fuel|]. intros initialResp w1.
  destruct (negb (http_ok initialResp)); [no_fuel|].
  apply io_bind_fuel; [apply io_lift_fuel|]. intros initial w2.
  apply io_bind_fuel; [apply io_lift_fuel|]. intros st w3.
  destruct (status_is st "completed"); [no_fuel|].
  destruct (status_is st "failed"); [no_fuel|].
  destruct (status_is st "cancelled"); [no_fuel|].
  destruct (_ || _); [|apply resume_finish_fuel].
  unfold io_bind at 1. cbn [Date_now].
  apply io_bind_fuel.
  - apply resume_poll_loop_fuel, poll_window_fuel.
  - intros e w4. destruct e as [s|r]; [|done].
    apply io_bind_fuel; [apply io_lift_fuel|]. intros nt w5.
    destruct nt; [no_fuel | apply resume_finish_fuel].
Qed.

(** So does [runDeepResearchModel]. *)
Lemma runDeepResearchModel_ends question cfg w :
  fst (runDeepResearchModel net question cfg w) <> OutOfFuel.
Proof.
  unfold runDeepResearchModel.
  apply io_bind_fuel; [done|]. intros startedAt w0.
  apply io_bind_fuel.
  { unfold openaiResponsesCreate, retryWithBackoff. apply retry_loop_fuel. cbn. lia. }
  intros resp w1.
  apply io_bind_fuel; [destruct resp as [|[]|]; done|]. intros data w2.
  apply io_bind_fuel; [apply io_lift_fuel|]. intros st0 w3.
  apply io_bind_fuel; [apply io_lift_fuel|]. intros id0 w4.
  destruct (_ && _); [|apply submit_finish_fuel].
  unfold io_bind at 1. cbn [Date_now].
  apply io_bind_fuel.
  - apply submit_poll_loop_fuel, poll_window_fuel.
  - intros e w5. destruct e as [s|r]; [|done].
    apply io_bind_fuel; [apply io_lift_fuel|]. intros nt w6.
    destruct nt; [done | apply submit_finish_fuel].
Qed.

(** Whatever [handleResumeResponse] returns carries the job id. *)
Lemma resume_poll_loop_id id startPoll fuel : forall s w r w',
  resume_poll_loop net fuel id startPoll s w = (Returns (Returned r), w') ->
  response_id r = JStr id.
Proof.
  induction fuel as [|fuel IH]; intros s w r w'; cbn [resume_poll_loop];
    (destruct (non_terminal (result s)) as [nt|]; [|done]);
    (destruct (nt && _); [|done]); [done|].
  destruct (resume_try net id s startPoll (sleep (Num.of_Z pollInterval) w))
    as [[s'|s'|msg s'|r'] w2] eqn:Htry.
  - apply IH.
  - apply IH.
  - destruct (_ >=? _); [|apply IH].
    destruct (JS.get _ _); [|done]. by intros [= <- _].
  - intros [= <- _]. unfold resume_try in Htry.
    destruct (fetch net _ _) as [[pollResp|msg] w1]; [|done].
    unfold poll_response in Htry.
    destruct (negb (http_ok pollResp)).
    + destruct (http_status pollResp =? 429); [|done].
      destruct (_ >=? _); [|done].
      destruct (JS.get _ _); [|done]. by injection Htry as <- _.
    + destruct (body_json pollResp) as [b|]; [|done].
      by destruct (JS.get b "status").
Qed.

End JobsTerminate.

Lemma io_bind_Returns {A B} (m : io A) (k : A -> io B) w b w' :
  io_bind m k w = (Returns b, w') ->
  exists a w1, m w = (Returns a, w1) /\ k a w1 = (Returns b, w').
Proof.
  unfold io_bind. destruct (m w) as [[a|msg|] w1]; [eauto | done | done].
Qed.

Lemma io_lift_Returns {A} (r : res A) w a w' :
  io_lift r w = (Returns a, w') -> r = Ok a /\ w' = w.
Proof. unfold io_lift. destruct r; cbn; by intros [= <- <-]. Qed.

Lemma failed_result_id r id t0 t1 tr x :
  failed_result r id t0 t1 tr = Ok x -> response_id x = id.
Proof. unfold failed_result. intros Hf. bind_inv Hf. by injection Hf as <-. Qed.

(** Splits a hypothesis [(let! x := m in k) w = (Returns b, w')]. *)
Ltac io_inv H :=
  let a := fresh "a" in
  let w := fresh "w" in
  let E := fresh "E" in
  apply io_bind_Returns in H as (a & w & E & H);
  try (apply io_lift_Returns in E as [E ->]).

Section ResumeId.
Context `{Platform}.
Variable net : network.

Lemma resume_finish_id t id r tr w x w' :
  resume_finish t id r tr w = (Returns x, w') -> response_id x = JStr id.
Proof.
  unfold resume_finish. intros Hf. io_inv Hf.
  destruct (status_is a "completed").
  { do 2 io_inv Hf. by injection Hf as <- _. }
  destruct (status_is a "failed").
  { do 2 io_inv Hf. apply io_lift_Returns in Hf as [Hf _]. by apply failed_result_id in Hf. }
  io_inv Hf. by injection Hf as <- _.
Qed.

(** Every object [handleResumeResponse] returns -- on time-out, on a rate
    limit, on failure or on completion -- has the job id as its
    [response_id]. *)
Lemma handleResumeResponse_id id w x w' :
  handleResumeResponse net id w = (Returns x, w') -> response_id x = JStr id.
Proof.
  unfold handleResumeResponse. intros Hr. io_inv Hr. clear E. io_inv Hr.
  destruct (negb (http_ok a0)).
  { io_inv Hr. by injection Hr as <- _. }
  io_inv Hr. io_inv Hr. rename a2 into st.
  destruct (status_is st "completed").
  { do 2 io_inv Hr. by injection Hr as <- _. }
  destruct (status_is st "failed").
  { io_inv Hr. apply io_lift_Returns in Hr as [Hr _]. by apply failed_result_id in Hr. }
  destruct (status_is st "cancelled").
  { io_inv Hr. by injection Hr as <- _. }
  destruct (_ || _); [|by eapply resume_finish_id].
  io_inv Hr. io_inv Hr. rename a3 into e. destruct e as [s|r].
  - io_inv Hr. rename a3 into nt. destruct nt.
    + io_inv Hr. by injection Hr as <- _.
    + by eapply resume_finish_id.
  - injection Hr as <- _. by eapply resume_poll_loop_id.
Qed.

End ResumeId.

(** ** Time-out of a background job (C7) *)

(** C7, on a job that stays [in_progress] for the whole wait window.  Both
    paths poll for exactly 30 minutes.  The resume path then returns a
    failure object with the time-out message, the last status and the job
    id; the submit path throws an error whose only content is the message
    [Deep research timed out after 30 minutes], which does not name the
    job. *)
Theorem submit_timeout_loses_job_id (P : Platform) :
  (let out := runDeepResearchModel Jobs.stuck "question" Jobs.background_cfg Jobs.start in
   fst out = Throws timeout_message
   /\ Str.includes timeout_message "resp_1" = false
   /\ now (snd out) = maxWait
   /\ fetches (snd out) = 361%nat)
  /\ (let out := handleResumeResponse Jobs.stuck "resp_1" Jobs.start in
      exists r,
        fst out = Returns r
        /\ ok r = false
        /\ job_error r = Some (JStr (polling_timeout_message "resp_1"))
        /\ job_status r = Some (JStr "in_progress")
        /\ response_id r = JStr "resp_1"
        /\ now (snd out) = maxWait).
Proof.
  split.
  - vm_compute. repeat split.
  - eexists. vm_compute. repeat split.
Qed.

Lemma resume_completed_witness :
  let first := @handleResumeResponse ExamplePlatform.platform Jobs.finished "resp_1" Jobs.start in
  let second := @handleResumeResponse ExamplePlatform.platform Jobs.finished "resp_1" (snd first) in
  answer_of (fst first) = Returns (Some "Done.")
  /\ answer_of (fst second) = answer_of (fst first)
  /\ io_log (snd second) = [IoFetch (GET_response "resp_1"); IoFetch (GET_response "resp_1")].
Proof.
  destruct (resume_completed ExamplePlatform.platform Jobs.finished "resp_1"
              (Jobs.json_response 200 (Jobs.job "resp_1" "completed")) ""
              (Jobs.job "resp_1" "completed") Jobs.start)
    as (_ & _ & Ha & Hsame & Hlog1 & Hlog2).
  - reflexivity.
  - reflexivity.
  - reflexivity.
  - reflexivity.
  - split; [exact Ha|]. split; [exact Hsame|].
    cbv zeta in Hlog1, Hlog2. rewrite Hlog2, Hlog1. reflexivity.
Defined.

Lemma retry_policy_witness :
  exists w',
    openaiResponsesCreate Jobs.flaky "question" (Some 3) Jobs.start
    = (Returns (RResult (ApiOk 200 (Jobs.job "resp_1" "completed"))), w')
    /\ io_log w' = [IoFetch (POST_responses "question"); IoSleep (Fin 1000);
                    IoFetch (POST_responses "question"); IoSleep (Fin 2000);
                    IoFetch (POST_responses "question")].
Proof.
  destruct (proj1 retry_policy Jobs.flaky "question" 3 Jobs.start 2%nat)
    as (w' & Hrun & Hlog & _).
  - lia.
  - intros i Hi. destruct i as [|[|i]]; [reflexivity | reflexivity | lia].
  - right. reflexivity.
  - exists w'. split; [exact Hrun | exact Hlog].
Defined.

(** ** Cutting the JSON block out of a model reply *)

Lemma text_drop_app a b : Text.drop (String.length a) (a +:+ b) = b.
Proof. induction a as [|c a IH]; [by destruct b | exact IH]. Qed.

Lemma text_take_app a b : Text.take (String.length a) (a +:+ b) = a.
Proof.
  induction a as [|c a IH]; [by destruct b|].
  change (String c (Text.take (String.length a) (a +:+ b)) = String c a).
  by f_equal.
Qed.

Lemma text_length_app a b :
  String.length (a +:+ b) = (String.length a + String.length b)%nat.
Proof.
  induction a as [|c a IH]; [done|].
  change (S (String.length (a +:+ b)) = S (String.length a + String.length b)).
  by f_equal.
Qed.

Lemma append_nil (s : string) : "" +:+ s = s.
Proof. reflexivity. Qed.

Lemma append_cons a (s t : string) : String a s +:+ t = String a (s +:+ t).
Proof. reflexivity. Qed.

Lemma indexOf_first pre c r :
  Text.indexOf pre c = None ->
  Text.indexOf (pre +:+ String c r) c = Some (String.length pre).
Proof.
  induction pre as [|a pre IH]; rewrite ?append_nil, ?append_cons;
    cbn [Text.indexOf String.length].
  - by rewrite Ascii.eqb_refl.
  - destruct (Ascii.eqb a c); [done|].
    destruct (Text.indexOf pre c); [done|]. intros _. by rewrite IH.
Qed.

Lemma lastIndexOf_last s c post :
  Text.lastIndexOf post c = None ->
  Text.lastIndexOf (s +:+ String c post) c = Some (String.length s).
Proof.
  intros Hp. induction s as [|a s IH]; rewrite ?append_nil, ?append_cons;
    cbn [Text.lastIndexOf String.length].
  - by rewrite Hp, Ascii.eqb_refl.
  - by rewrite IH.
Qed.

Lemma indexOf_split s c i :
  Text.indexOf s c = Some i ->
  exists pre r, s = pre +:+ String c r /\ String.length pre = i
                /\ Text.indexOf pre c = None.
Proof.
  revert i. induction s as [|a s IH]; intros i; cbn [Text.indexOf]; [done|].
  destruct (Ascii.eqb_spec a c) as [->|Hne].
  - intros [= <-]. by exists "", s.
  - destruct (Text.indexOf s c) as [k|]; [|done]. intros [= <-].
    destruct (IH k eq_refl) as (pre & r & -> & <- & Hpre).
    exists (String a pre), r. cbn [Text.indexOf String.length]. rewrite Hpre.
    by rewrite (proj2 (Ascii.eqb_neq a c)).
Qed.

Lemma lastIndexOf_split s c j :
  Text.lastIndexOf s c = Some j ->
  exists s' post, s = s' +:+ String c post /\ String.length s' = j
                  /\ Text.lastIndexOf post c = None.
Proof.
  revert j. induction s as [|a s IH]; intros j; cbn [Text.lastIndexOf]; [done|].
  destruct (Text.lastIndexOf s c) as [k|] eqn:Hk.
  - intros [= <-]. destruct (IH k eq_refl) as (s' & post & -> & <- & Hpost).
    by exists (String a s'), post.
  - destruct (Ascii.eqb_spec a c) as [->|Hne]; [|done].
    intros [= <-]. by exists "", s.
Qed.

Lemma append_assoc (a b c : string) : (a +:+ b) +:+ c = a +:+ (b +:+ c).
Proof. induction a as [|x a IH]; [done | by rewrite !append_cons, IH]. Qed.

Lemma append_split a b a' b' :
  a +:+ b = a' +:+ b' -> (String.length a <= String.length a')%nat ->
  exists m, a' = a +:+ m /\ b = m +:+ b'.
Proof.
  revert a'. induction a as [|x a IH]; intros a' Heq Hlen.
  - by exists a'.
  - destruct a' as [|x' a']; [cbn in Hlen; lia|].
    rewrite !append_cons in Heq. injection Heq as -> Heq. cbn in Hlen.
    destruct (IH a' Heq ltac:(lia)) as (m & -> & ->). by exists m.
Qed.

Lemma block_assoc pre mid post :
  pre +:+ "{" +:+ mid +:+ "}" +:+ post = pre +:+ ("{" +:+ mid +:+ "}") +:+ post.
Proof. by rewrite !append_assoc. Qed.

Lemma slice_middle a b c :
  Text.slice (a +:+ b +:+ c) (String.length a) (String.length a + String.length b) = b.
Proof.
  unfold Text.slice. rewrite text_drop_app.
  replace (String.length a + String.length b - String.length a)%nat
    with (String.length b) by lia.
  apply text_take_app.
Qed.

Lemma sliceJsonBlock_cases text :
  sliceJsonBlock text = text
  \/ exists pre mid post,
       text = pre +:+ "{" +:+ mid +:+ "}" +:+ post
       /\ Text.indexOf pre "{" = None /\ Text.lastIndexOf post "}" = None
       /\ sliceJsonBlock text = "{" +:+ mid +:+ "}".
Proof.
  unfold sliceJsonBlock.
  destruct (Text.indexOf text "{") as [i|] eqn:Hi; [|by left].
  destruct (Text.lastIndexOf text "}") as [j|] eqn:Hj; [|by left].
  destruct (Nat.ltb_spec i j) as [Hij|]; [|by left]. right.
  destruct (indexOf_split _ _ _ Hi) as (pre & r & Ht & Hlp & Hpre).
  destruct (lastIndexOf_split _ _ _ Hj) as (s' & post & Ht' & Hls & Hpost).
  rewrite Ht in Ht'.
  change (pre +:+ String "{" r) with (pre +:+ ("{" +:+ r)) in Ht'.
  rewrite <- append_assoc in Ht'.
  apply append_split in Ht' as (m & -> & ->);
    [|rewrite text_length_app; cbn; lia].
  exists pre, m, post. repeat split; try done.
  rewrite Ht, <- Hlp, <- Hls.
  replace (S (String.length ((pre +:+ "{") +:+ m)))
    with (String.length pre + String.length ("{" +:+ m +:+ "}"))%nat
    by (rewrite !text_length_app; cbn; lia).
  change (pre +:+ String "{" (m +:+ String "}" post))
    with (pre +:+ "{" +:+ m +:+ "}" +:+ post).
  rewrite block_assoc. apply slice_middle.
Qed.

Lemma append_nil_r (s : string) : s +:+ "" = s.
Proof. induction s as [|c s IH]; [done | by rewrite append_cons, IH]. Qed.

(** A text that opens with a brace and closes with one is its own block. *)
Lemma sliceJsonBlock_braced mid :
  sliceJsonBlock ("{" +:+ mid +:+ "}") = "{" +:+ mid +:+ "}".
Proof.
  unfold sliceJsonBlock.
  change ("{" +:+ mid +:+ "}") with (String "{" (mid +:+ String "}" "")).
  cbn [Text.indexOf]. rewrite Ascii.eqb_refl.
  change (String "{" (mid +:+ String "}" "")) with (String "{" mid +:+ String "}" "").
  rewrite (lastIndexOf_last (String "{" mid) "}" "" eq_refl).
  cbn [String.length Nat.ltb Nat.leb].
  unfold Text.slice. cbn [Text.drop]. rewrite Nat.sub_0_r.
  replace (S (S (String.length mid)))
    with (String.length (String "{" mid +:+ String "}" ""))
    by (rewrite text_length_app; cbn; lia).
  rewrite <- (append_nil_r (String "{" mid +:+ String "}" "")) at 2.
  apply text_take_app.
Qed.

(** X1.  When the reply is some text without an opening brace, then a block
    from an opening to a closing brace, then some text without a closing
    brace, [sliceJsonBlock] returns exactly the block, braces included. *)
Theorem sliceJsonBlock_block pre mid post :
  Text.indexOf pre "{" = None ->
  Text.lastIndexOf post "}" = None ->
  sliceJsonBlock (pre +:+ "{" +:+ mid +:+ "}" +:+ post) = "{" +:+ mid +:+ "}".
Proof.
  intros Hpre Hpost. unfold sliceJsonBlock.
  change (pre +:+ "{" +:+ mid +:+ "}" +:+ post)
    with (pre +:+ String "{" (mid +:+ String "}" post)).
  rewrite (indexOf_first _ _ _ Hpre).
  replace (pre +:+ String "{" (mid +:+ String "}" post))
    with ((pre +:+ String "{" mid) +:+ String "}" post)
    by (by rewrite append_assoc).
  rewrite (lastIndexOf_last _ _ _ Hpost).
  rewrite text_length_app. cbn [String.length].
  rewrite (proj2 (Nat.ltb_lt _ _)) by lia.
  replace (S (String.length pre + S (String.length mid)))
    with (String.length pre + String.length ("{" +:+ mid +:+ "}"))%nat
    by (rewrite !text_length_app; cbn; lia).
  rewrite append_assoc.
  change (pre +:+ String "{" mid +:+ String "}" post)
    with (pre +:+ "{" +:+ mid +:+ "}" +:+ post).
  rewrite block_assoc. apply slice_middle.
Qed.

Lemma sliceJsonBlock_block_witness :
  sliceJsonBlock ("Here is the plan: " +:+ "{" +:+ "'a': {'b': 1}" +:+ "}" +:+ " Done.")
  = "{" +:+ "'a': {'b': 1}" +:+ "}".
Proof. by apply sliceJsonBlock_block. Defined.

(** X2.  [sliceJsonBlock] is idempotent: what it returns is left unchanged
    by a second pass.  A text it changes has an opening brace before a
    closing one, and the result runs from the first opening brace to the
    last closing brace. *)
Theorem sliceJsonBlock_idempotent text :
  sliceJsonBlock (sliceJsonBlock text) = sliceJsonBlock text
  /\ (sliceJsonBlock text <> text ->
      exists pre mid post,
        text = pre +:+ "{" +:+ mid +:+ "}" +:+ post
        /\ Text.indexOf pre "{" = None /\ Text.lastIndexOf post "}" = None
        /\ sliceJsonBlock text = "{" +:+ mid +:+ "}").
Proof.
  split.
  - destruct (sliceJsonBlock_cases text) as [Hu|(pre & mid & post & _ & _ & _ & Hb)];
      [by rewrite !Hu|].
    rewrite Hb. apply sliceJsonBlock_braced.
  - intros Hne. by destruct (sliceJsonBlock_cases text).
Qed.

(** ** Deduplication *)

Lemma fact_keys_cons f out :
  fact_keys (f :: out) =
  (let* k := fact_key f in let* ks := fact_keys out in Ok (k :: ks)).
Proof. reflexivity. Qed.

Lemma dedupe_from_step seen f r :
  dedupe_from seen (f :: r) =
  (let* key := fact_key f in
   if Str.is_empty key then dedupe_from seen r
   else if decide (key ∈ seen) then dedupe_from seen r
   else let* out := dedupe_from ({[key]} ∪ seen) r in Ok (f :: out)).
Proof.
  cbn [dedupe_from]. unfold fact_key.
  by destruct (JS.trim (JS.or (fact f) (JStr ""))).
Qed.

Lemma dedupe_from_keys facts : forall seen out,
  dedupe_from seen facts = Ok out ->
  exists keys,
    fact_keys out = Ok keys /\ NoDup keys
    /\ Forall (fun k => (k ∉ seen) /\ Str.is_empty k = false) keys
    /\ sublist out facts.
Proof.
  induction facts as [|f r IH]; intros seen out.
  - intros [= <-]. exists []. repeat split; constructor.
  - rewrite dedupe_from_step. intros Hd. bind_inv Hd. rename x into key.
    destruct (Str.is_empty key) eqn:Hk.
    { destruct (IH _ _ Hd) as (keys & ? & ? & ? & ?).
      exists keys. repeat split; try done. by apply sublist_cons. }
    destruct (decide (key ∈ seen)) as [|Hnew].
    { destruct (IH _ _ Hd) as (keys & ? & ? & ? & ?).
      exists keys. repeat split; try done. by apply sublist_cons. }
    bind_inv Hd. injection Hd as <-.
    destruct (IH _ _ E0) as (keys & Hks & Hnd & Hall & Hsub).
    exists (key :: keys). rewrite fact_keys_cons, E, Hks. cbn [res_bind].
    repeat split.
    + constructor; [|done]. intros Hin.
      destruct (proj1 (Forall_forall _ _) Hall _ Hin) as [Hout _].
      apply Hout. set_solver.
    + constructor; [done|].
      eapply Forall_impl; [exact Hall|]. intros k [Hout ?]. split; [set_solver|done].
    + by apply sublist_skip.
Qed.

Lemma dedupe_from_covers facts : forall seen out f k,
  dedupe_from seen facts = Ok out ->
  f ∈ facts -> fact_key f = Ok k -> Str.is_empty k = false ->
  k ∈ seen \/ exists g, g ∈ out /\ fact_key g = Ok k.
Proof.
  induction facts as [|f0 r IH]; intros seen out f k Hd Hin Hk Hne.
  - by apply elem_of_nil in Hin.
  - rewrite dedupe_from_step in Hd. bind_inv Hd. rename x into key.
    apply elem_of_cons in Hin as [->|Hin].
    + rewrite Hk in E. injection E as <-. rewrite Hne in Hd.
      destruct (decide (k ∈ seen)); [by left|]. right.
      bind_inv Hd. injection Hd as <-. exists f0. split; [left | done].
    + destruct (Str.is_empty key); [by eapply IH|].
      destruct (decide (key ∈ seen)); [by eapply IH|].
      bind_inv Hd. injection Hd as <-.
      destruct (IH _ _ _ _ E0 Hin Hk Hne) as [Hs|(g & Hg & Hgk)].
      * apply elem_of_union in Hs as [->%elem_of_singleton|Hs]; [|by left].
        right. exists f0. split; [left | done].
      * right. exists g. split; [by right | done].
Qed.

Lemma dedupe_from_fixed facts : forall seen out,
  dedupe_from seen facts = Ok out -> dedupe_from seen out = Ok out.
Proof.
  induction facts as [|f r IH]; intros seen out.
  - by intros [= <-].
  - rewrite dedupe_from_step. intros Hd. bind_inv Hd. rename x into key.
    destruct (Str.is_empty key) eqn:Hk; [by eapply IH|].
    destruct (decide (key ∈ seen)) as [|Hnew]; [by eapply IH|].
    bind_inv Hd. injection Hd as <-.
    rewrite dedupe_from_step, E. cbn [res_bind]. rewrite Hk.
    destruct (decide (key ∈ seen)); [done|].
    by rewrite (IH _ _ E0).
Qed.

(** X3.  The facts [dedupeFacts] returns are facts of its input in their
    order, their keys (text, trimmed and lower-cased) are non-empty and
    pairwise different, and a second pass changes nothing. *)
Theorem dedupeFacts_distinct facts out :
  dedupeFacts facts = Ok out ->
  sublist out facts
  /\ (exists keys,
        fact_keys out = Ok keys /\ NoDup keys
        /\ Forall (fun k => Str.is_empty k = false) keys)
  /\ dedupeFacts out = Ok out.
Proof.
  unfold dedupeFacts. intros Hd.
  destruct (dedupe_from_keys _ _ _ Hd) as (keys & Hks & Hnd & Hall & Hsub).
  split; [done|]. split; [|by eapply dedupe_from_fixed].
  exists keys. repeat split; try done.
  eapply Forall_impl; [exact Hall|]. by intros k [_ ?].
Qed.

(** X4.  [dedupeFacts] loses no text: for every input fact with a non-empty
    key, the result holds a fact with the same key. *)
Theorem dedupeFacts_complete facts out f k :
  dedupeFacts facts = Ok out ->
  f ∈ facts -> fact_key f = Ok k -> Str.is_empty k = false ->
  exists g, g ∈ out /\ fact_key g = Ok k.
Proof.
  unfold dedupeFacts. intros Hd Hin Hk Hne.
  destruct (dedupe_from_covers _ _ _ _ _ Hd Hin Hk Hne) as [Hs|]; [|done].
  by apply elem_of_empty in Hs.
Qed.

Lemma dedupeFacts_distinct_witness :
  sublist [boiling; melting] [boiling; boiling_again; melting]
  /\ (exists keys,
        fact_keys [boiling; melting] = Ok keys /\ NoDup keys
        /\ Forall (fun k => Str.is_empty k = false) keys)
  /\ dedupeFacts [boiling; melting] = Ok [boiling; melting].
Proof.
  apply (dedupeFacts_distinct [boiling; boiling_again; melting]).
  vm_compute. reflexivity.
Defined.

Lemma dedupeFacts_complete_witness :
  exists g, g ∈ [boiling; melting] /\ fact_key g = Ok "water boils at 100 c".
Proof.
  apply (dedupeFacts_complete [boiling; boiling_again; melting] _ boiling_again).
  - vm_compute. reflexivity.
  - right. left.
  - reflexivity.
  - reflexivity.
Defined.

(** ** The order of the fact table *)

Lemma Num_lt_Fin p q : Num.lt (Fin p) (Fin q) = true <-> (p < q)%Q.
Proof.
  cbn [Num.lt]. rewrite Qlt_alt. destruct (p ?= q)%Q; split; congruence.
Qed.

Lemma Num_lt_asym x y : Num.lt x y = true -> Num.lt y x = false.
Proof.
  destruct x as [| | |p], y as [| | |q]; try done.
  intros Hlt%Num_lt_Fin. apply not_true_is_false. rewrite Num_lt_Fin.
  intros Hgt. exact (Qlt_irrefl _ (Qlt_trans _ _ _ Hlt Hgt)).
Qed.

Lemma Num_not_lt_trans x y z :
  is_number x -> is_number y -> is_number z ->
  Num.lt x y = false -> Num.lt y z = false -> Num.lt x z = false.
Proof.
  unfold is_number.
  destruct x as [| | |p], y as [| | |q], z as [| | |r]; try done.
  intros _ _ _ Hxy%not_true_iff_false Hyz%not_true_iff_false.
  apply not_true_is_false. rewrite Num_lt_Fin in *.
  apply Qle_not_lt. apply Qnot_lt_le in Hxy, Hyz. by eapply Qle_trans.
Qed.

Lemma Num_not_lt_le x y :
  is_number x -> is_number y -> Num.lt x y = false -> Num.le y x = true.
Proof.
  unfold is_number, Num.le.
  destruct x as [| | |p], y as [| | |q]; cbn [Num.lt Num.eq orb]; try done.
  intros _ _. rewrite orb_true_iff, Qeq_bool_iff.
  destruct (Qcompare_spec q p) as [Heq|Hlt|Hgt]; intros Hn.
  - by right.
  - by left.
  - assert ((p ?= q)%Q = Lt) as Hc by (by apply Qlt_alt).
    by rewrite Hc in Hn.
Qed.

Lemma ranks_before_order a b :
  is_number (confidence a) -> is_number (confidence b) ->
  ranks_before b a = false -> in_rank_order a b.
Proof.
  unfold ranks_before, in_rank_order. intros Ha Hb.
  rewrite orb_false_iff, andb_false_iff. intros [Hq Hc].
  apply Z.ltb_ge in Hq.
  destruct (Z.eqb_spec (source_quality a) (source_quality b)) as [Heq|Hne]; [|lia].
  right. split; [done|]. destruct Hc as [?|Hc]; [done|].
  by apply Num_not_lt_le.
Qed.

Lemma ranks_before_asym a b : ranks_before a b = true -> ranks_before b a = false.
Proof.
  unfold ranks_before. rewrite orb_true_iff, andb_true_iff, orb_false_iff, andb_false_iff.
  intros [Hlt%Z.ltb_lt|[Heq%Z.eqb_eq Hc]].
  - split; [by apply Z.ltb_ge; lia|]. left. apply Z.eqb_neq. lia.
  - split; [apply Z.ltb_ge; lia|]. right. by apply Num_lt_asym.
Qed.

Lemma ranks_before_not_trans a b c :
  is_number (confidence a) -> is_number (confidence b) -> is_number (confidence c) ->
  ranks_before b a = false -> ranks_before c b = false -> ranks_before c a = false.
Proof.
  unfold ranks_before. intros Ha Hb Hc.
  rewrite !orb_false_iff, !andb_false_iff.
  intros [Hq1%Z.ltb_ge Hc1] [Hq2%Z.ltb_ge Hc2].
  split; [apply Z.ltb_ge; lia|].
  destruct (Z.eqb_spec (source_quality a) (source_quality c)) as [Heq|]; [|by left].
  right.
  destruct Hc1 as [Hne%Z.eqb_neq|Hc1]; [lia|].
  destruct Hc2 as [Hne%Z.eqb_neq|Hc2]; [lia|].
  by apply (Num_not_lt_trans _ (confidence b)).
Qed.

Lemma rank_insert_perm f sorted : rank_insert f sorted ≡ₚ f :: sorted.
Proof.
  induction sorted as [|g r IH]; cbn [rank_insert]; [done|].
  destruct (ranks_before g f); [|done].
  rewrite IH. apply Permutation_swap.
Qed.

Lemma rank_perm facts : rank facts ≡ₚ facts.
Proof.
  unfold rank. induction facts as [|f r IH]; cbn [fold_right]; [done|].
  by rewrite rank_insert_perm, IH.
Qed.

Lemma rank_insert_sorted f sorted :
  is_number (confidence f) ->
  Forall (fun g => is_number (confidence g)) sorted ->
  StronglySorted (fun a b => ranks_before b a = false) sorted ->
  StronglySorted (fun a b => ranks_before b a = false) (rank_insert f sorted).
Proof.
  intros Hf. induction sorted as [|g r IH]; intros Hn Hs; cbn [rank_insert].
  - repeat constructor.
  - apply Forall_cons in Hn as [Hg Hn].
    apply StronglySorted_inv in Hs as [Hs Hgr].
    destruct (ranks_before g f) eqn:Hgf.
    + constructor; [by apply IH|].
      apply rank_insert_Forall; [by apply ranks_before_asym | done].
    + constructor; [by constructor|]. constructor; [done|].
      rewrite Forall_forall in Hgr, Hn. apply Forall_forall. intros x Hx.
      apply (ranks_before_not_trans f g x); auto.
Qed.

Lemma sorted_weaken {A} (P : A -> Prop) (R R' : A -> A -> Prop) l :
  (forall a b, P a -> P b -> R a b -> R' a b) ->
  Forall P l -> StronglySorted R l -> StronglySorted R' l.
Proof.
  intros Hw Hp Hs. induction Hs as [|a l Hs IH Ha]; [constructor|].
  apply Forall_cons in Hp as [Hpa Hp].
  constructor; [by apply IH|].
  rewrite Forall_forall in Ha, Hp. apply Forall_forall. intros b Hb. auto.
Qed.

Lemma rank_sorted facts :
  Forall (fun f => is_number (confidence f)) facts ->
  StronglySorted in_rank_order (rank facts).
Proof.
  intros Hn.
  apply (sorted_weaken (fun f => is_number (confidence f))
           (fun a b => ranks_before b a = false)).
  - intros a b. apply ranks_before_order.
  - by apply rank_Forall.
  - unfold rank. induction Hn as [|f r Hf Hr IH]; cbn [fold_right]; [constructor|].
    apply rank_insert_sorted; [done | by apply rank_Forall | done].
Qed.

Lemma Num_eq_eq_not_lt k x y :
  Num.eq k x = true -> Num.eq k y = true -> Num.lt x y = false.
Proof.
  destruct k as [| | |r], x as [| | |p], y as [| | |q]; try done.
  cbn [Num.eq Num.lt]. intros Hp%Qeq_bool_iff Hq%Qeq_bool_iff.
  assert ((p ?= q)%Q = Eq) as Hc by (apply Qeq_alt; by rewrite <- Hp, <- Hq).
  by rewrite Hc.
Qed.

Lemma same_rank_not_before k f g :
  same_rank k f = true -> same_rank k g = true -> ranks_before g f = false.
Proof.
  unfold same_rank, ranks_before. rewrite !andb_true_iff.
  intros [Hf%Z.eqb_eq Hcf] [Hg%Z.eqb_eq Hcg].
  rewrite (Num_eq_eq_not_lt _ _ _ Hcf Hcg), andb_false_r, orb_false_r.
  apply Z.ltb_ge. lia.
Qed.

Lemma rank_insert_filter k f sorted :
  List.filter (same_rank k) (rank_insert f sorted)
  = List.filter (same_rank k) (f :: sorted).
Proof.
  induction sorted as [|g r IH]; cbn [rank_insert]; [done|].
  destruct (ranks_before g f) eqn:Hgf; [|done].
  cbn [List.filter] in *. rewrite IH.
  destruct (same_rank k g) eqn:Hg, (same_rank k f) eqn:Hf; try done.
  by rewrite (same_rank_not_before _ _ _ Hf Hg) in Hgf.
Qed.

Lemma rank_filter k facts :
  List.filter (same_rank k) (rank facts) = List.filter (same_rank k) facts.
Proof.
  unfold rank. induction facts as [|f r IH]; cbn [fold_right]; [done|].
  rewrite rank_insert_filter. cbn [List.filter]. by rewrite IH.
Qed.

(** X5.  The final [sort] is a stable sort by descending source quality,
    then descending confidence: on facts whose confidence is a number, the
    result is a rearrangement of the input, each fact may stand before all
    that follow it, and facts the comparator does not tell apart keep their
    input order. *)
Theorem rank_stable_sort facts :
  Forall (fun f => is_number (confidence f)) facts ->
  rank facts ≡ₚ facts
  /\ StronglySorted in_rank_order (rank facts)
  /\ (forall k, List.filter (same_rank k) (rank facts) = List.filter (same_rank k) facts).
Proof.
  intros Hn. split; [apply rank_perm|]. split; [by apply rank_sorted|].
  intros k. apply rank_filter.
Qed.

Lemma rank_stable_sort_witness :
  rank [melting; boiling_again; boiling] ≡ₚ [melting; boiling_again; boiling]
  /\ StronglySorted in_rank_order (rank [melting; boiling_again; boiling])
  /\ (forall k, List.filter (same_rank k) (rank [melting; boiling_again; boiling])
                = List.filter (same_rank k) [melting; boiling_again; boiling]).
Proof.
  apply (rank_stable_sort [melting; boiling_again; boiling]).
  repeat constructor; discriminate.
Defined.

(** ** What the loop keeps true of the evidence *)

Lemma filter_length {A} (keep : A -> bool) l : (length (List.filter keep l) <= length l)%nat.
Proof. induction l as [|a l IH]; cbn; [done|]. destruct (keep a); cbn; lia. Qed.

Lemma res_map_length {A B} (f : A -> res B) l out :
  res_map f l = Ok out -> length out = length l.
Proof.
  revert out. induction l as [|a l IH]; intros out; cbn [res_map].
  - by intros [= <-].
  - destruct (f a); [|done]. destruct (res_map f l); [|done].
    intros [= <-]. cbn. by rewrite (IH _ eq_refl).
Qed.

Lemma dedupe_from_extend a : forall seen b out,
  dedupe_from seen (a ++ b) = Ok out ->
  exists a' b', dedupe_from seen a = Ok a' /\ out = a' ++ b' /\ sublist b' b.
Proof.
  induction a as [|f r IH]; intros seen b out.
  - intros Hd. exists [], out. repeat split.
    by destruct (dedupe_from_keys _ _ _ Hd) as (_ & _ & _ & _ & ?).
  - rewrite <- app_comm_cons, !dedupe_from_step. intros Hd. bind_inv Hd.
    rewrite E. cbn [res_bind].
    destruct (Str.is_empty x); [by eapply IH|].
    destruct (decide (x ∈ seen)); [by eapply IH|].
    bind_inv Hd. injection Hd as <-.
    destruct (IH _ _ _ E0) as (a' & b' & -> & -> & ?).
    by exists (f :: a'), b'.
Qed.

Lemma add_urls_elem x facts : forall seen,
  x ∈ add_urls seen facts
  <-> x ∈ seen \/ exists f, f ∈ facts /\ url f = x /\ Str.is_empty x = false.
Proof.
  unfold add_urls. induction facts as [|f r IH]; intros seen; cbn [fold_left].
  - split; [by left|]. intros [?|(f & Hf%elem_of_nil & _)]; done.
  - rewrite IH. destruct (Str.is_empty (url f)) eqn:Hu.
    + split.
      * intros [?|(g & ? & ? & ?)]; [by left|]. right. exists g. by split; [right|].
      * intros [?|(g & [->|?]%elem_of_cons & Hg & Hne)]; [by left | congruence |].
        right. by exists g.
    + rewrite elem_of_union, elem_of_singleton. split.
      * intros [[->|?]|(g & ? & ? & ?)]; [|by left|].
        -- right. exists f. by split; [left|].
        -- right. exists g. by split; [right|].
      * intros [?|(g & [->|?]%elem_of_cons & Hg & Hne)]; [by left; right | by left; left |].
        right. by exists g.
Qed.

Lemma add_urls_size facts : forall seen,
  (size (add_urls seen facts) <= size seen + length facts)%nat.
Proof.
  unfold add_urls. induction facts as [|f r IH]; intros seen; cbn [fold_left length]; [lia|].
  etrans; [apply IH|]. destruct (Str.is_empty (url f)); [lia|].
  rewrite size_union_alt, size_singleton.
  assert (size (seen ∖ {[url f]}) <= size seen)%nat
    by (by apply subseteq_size, subseteq_difference_l).
  lia.
Qed.

Section Settled.
Context `{Platform}.
Variable st : stages.
Variable cfg : config.

Lemma round_facts_retained fs out :
  round_facts cfg fs = Ok out ->
  Forall (retained cfg) out
  /\ len out <= match JS.or fs (JArr []) with JArr l => len l | _ => 0 end.
Proof.
  unfold round_facts. intros Hr. do 2 bind_inv Hr. injection Hr as <-. split.
  - apply Forall_forall. intros f Hf%list_elem_of_In.
    apply filter_In in Hf as [Hf Hfd]. apply filter_In in Hf as [_ Hacc]. by split.
  - destruct (JS.or fs (JArr [])); try done. injection E as ->.
    apply res_map_length in E0. unfold len. rewrite <- E0.
    pose proof (filter_length acceptable x0).
    pose proof (filter_length
      (fun f => urlAllowedByForceDomains (url f) (forceDomains cfg))
      (List.filter acceptable x0)). lia.
Qed.

(** One round on settled evidence: the earlier facts stay in front, what is
    added comes from the facts of the round, and the evidence stays
    settled. *)
Lemma round_evidence_settled queries round e r :
  settled cfg e ->
  round_evidence st cfg queries round e = Ok r ->
  settled cfg (after r)
  /\ (exists added, allFacts (after r) = allFacts e ++ added
                    /\ newFacts r = len added
                    /\ len added <= filteredFactCount r)
  /\ filteredFactCount r <= rawFactCount r
  /\ allConflicts e `prefix_of` allConflicts (after r)
  /\ seenUrls e ⊆ seenUrls (after r).
Proof.
  intros (Hret & Hfix & Hurls). unfold round_evidence. intros Hr.
  repeat bind_inv Hr. injection Hr as <-.
  cbn [after allFacts allConflicts seenUrls newFacts filteredFactCount rawFactCount].
  rename x3 into roundFacts, x4 into all.
  destruct (round_facts_retained _ _ E3) as [Hround Hraw].
  pose proof E4 as Hall. unfold dedupeFacts in Hall, Hfix.
  apply dedupe_from_extend in Hall as (a' & added & Ha' & -> & Hsub).
  rewrite Hfix in Ha'. injection Ha' as <-.
  assert (len added <= len roundFacts) as Hlen.
  { unfold len. apply sublist_length in Hsub. lia. }
  unfold settled. cbn [allFacts seenUrls]. repeat split.
  - eapply dedupe_from_Forall; [done|]. by apply Forall_app.
  - by eapply dedupe_from_fixed.
  - apply set_eq. intros u. rewrite !add_urls_elem, Hurls, add_urls_elem.
    split; [|intros [?|?]; [by left; left | by right]].
    intros [[?|(f & Hf & ? & ?)]|?]; [by left| |by right].
    right. exists f. split; [|done]. apply elem_of_app. by left.
  - exists added. repeat split; [|done].
    unfold len. rewrite length_app. lia.
  - done.
  - unfold concat_conflicts. destruct (JS.or x2 (JArr [])); try done;
      try (by apply prefix_app_r).
    destruct (JS.truthy _); [by apply prefix_app_r | done].
  - intros u Hu. apply add_urls_elem. by left.
Qed.

End Settled.

Section SettledLoop.
Context `{Platform}.
Variable st : stages.
Variable cfg : config.

(** The loop keeps what every iteration keeps, and relates its first and
    last state by what relates the states of one iteration. *)
Lemma research_loop_induct queries th
    (I : loop_state -> Prop) (G : loop_state -> loop_state -> Prop) :
  (forall s, G s s) ->
  (forall a b c, G a b -> G b c -> G a c) ->
  (forall round s s' b,
     I s -> round_body st cfg queries th round s = Ok (s', b) -> I s' /\ G s s') ->
  forall fuel round s s',
    I s -> research_loop st cfg queries th fuel round s = Returns s' -> I s' /\ G s s'.
Proof.
  intros Hrefl Htrans Hstep.
  induction fuel as [|fuel IH]; intros round s s' Hs; cbn [research_loop];
    destruct (round <=? maxSearchRounds cfg); try done.
  - by intros [= <-].
  - intros Hl. bind_inv Hl. destruct x as [s1 b]. cbn [fst snd] in Hl.
    destruct (Hstep _ _ _ _ Hs E) as [Hs1 Hg].
    destruct b; [by injection Hl as <-|].
    destruct (IH _ _ _ Hs1 Hl). eauto.
  - by intros [= <-].
Qed.

Lemma round_body_settled queries th round s s' b :
  settled cfg (gathered s) /\ Forall counts_fit (trace s) ->
  round_body st cfg queries th round s = Ok (s', b) ->
  (settled cfg (gathered s') /\ Forall counts_fit (trace s')) /\ grows s s'.
Proof.
  intros [Hs Hc]. unfold round_body. intros Hb. bind_inv Hb. rename x into r.
  destruct (round_evidence_settled st cfg _ _ _ _ Hs E)
    as (Hs' & (added & Hall & Hnew & Hfilt) & Hraw & Hconf & Hseen).
  assert (size (seenUrls (after r)) <= length (allFacts (after r)))%nat as Hsz.
  { destruct Hs' as (_ & _ & ->).
    pose proof (add_urls_size (allFacts (after r)) ∅) as Hsz.
    by rewrite size_empty in Hsz. }
  assert (length (allFacts (after r))
          = (length (allFacts (gathered s)) + length added)%nat) as Hlen
    by (by rewrite Hall, length_app).
  assert (Forall counts_fit (round_events round r)) as Hev.
  { unfold round_events, distinctSources, len in *. repeat constructor; lia. }
  assert (allFacts (gathered s) `prefix_of` allFacts (after r)) as Hpre
    by (rewrite Hall; apply prefix_app_r; done).
  destruct stop_decision; injection Hb as <- <-; cbn [gathered trace].
  - split; [split; [done|] | split; [done|split; [done|split; [done|]]]].
    + rewrite !Forall_app. by repeat split; [| |repeat constructor].
    + rewrite <- app_assoc. by apply prefix_app_r.
  - split; [split; [done|] | split; [done|split; [done|split; [done|]]]].
    + rewrite Forall_app. by split.
    + by apply prefix_app_r.
Qed.

Lemma research_loop_settled queries th fuel round s s' :
  settled cfg (gathered s) /\ Forall counts_fit (trace s) ->
  research_loop st cfg queries th fuel round s = Returns s' ->
  (settled cfg (gathered s') /\ Forall counts_fit (trace s')) /\ grows s s'.
Proof.
  apply (research_loop_induct queries th
           (fun s => settled cfg (gathered s) /\ Forall counts_fit (trace s)) grows).
  - intros a. by repeat split.
  - intros a b c (? & ? & ? & ?) (? & ? & ? & ?).
    repeat split; by etrans.
  - intros ? ? ? ?. apply round_body_settled.
Qed.

Lemma run_rounds_settled question plan s :
  run_rounds st question cfg plan = Returns s ->
  settled cfg (gathered s) /\ Forall counts_fit (trace s).
Proof.
  unfold run_rounds. intros Hr. bind_inv Hr.
  eapply research_loop_settled; [|done].
  cbn. repeat split; try done; repeat constructor.
Qed.

Lemma agent_rounds question r :
  deepResearchAgent st question cfg = Returns (Researched r) ->
  exists s,
    run_rounds st question cfg (r_plan r) = Returns s
    /\ planner st question = Ok (r_plan r)
    /\ fact_table r = rank (allFacts (gathered s))
    /\ conflicts r = allConflicts (gathered s)
    /\ exists draftLen, r_trace r = trace s ++ [TrDraft draftLen; TrValidate (validation r)].
Proof.
  unfold deepResearchAgent. intros Ha.
  bind_inv Ha. destruct x; [discriminate|].
  do 4 bind_inv Ha. injection Ha as <-. cbn. exists x0.
  repeat split; try done. eexists. by rewrite <- app_assoc.
Qed.

End SettledLoop.

Lemma retained_number `{Platform} cfg f : retained cfg f -> is_number (confidence f).
Proof.
  intros [Hacc _]. unfold acceptable in Hacc.
  apply andb_true_iff in Hacc as [_ Hc]. intros Hnan. by rewrite Hnan in Hc.
Qed.

Lemma fact_keys_perm l l' ks :
  l ≡ₚ l' -> fact_keys l = Ok ks -> exists ks', fact_keys l' = Ok ks' /\ ks ≡ₚ ks'.
Proof.
  intros Hp. revert ks. induction Hp as [|f l l' Hp IH|f g l|l l' l'' _ IH1 _ IH2]; intros ks.
  - intros [= <-]. by exists [].
  - rewrite !fact_keys_cons. intros Hk. do 2 bind_inv Hk. injection Hk as <-.
    destruct (IH _ E0) as (ks' & -> & Hks). rewrite E. cbn [res_bind].
    exists (x :: ks'). split; [done|]. by constructor.
  - rewrite !fact_keys_cons. intros Hk. do 2 bind_inv Hk.
    do 2 bind_inv E0. injection E0 as <-. injection Hk as <-.
    rewrite E, E1, E2. cbn [res_bind]. eexists. split; [done|]. apply Permutation_swap.
  - intros Hk. destruct (IH1 _ Hk) as (ks1 & Hk1 & Hp1).
    destruct (IH2 _ Hk1) as (ks2 & Hk2 & Hp2). exists ks2. split; [done | by etrans].
Qed.

(** X6.  Every fact in the fact table of a result passed the filters: its
    text is truthy, its URL is non-empty, its confidence is at least 2 and
    its URL is admitted by [forceDomains]. *)
Theorem fact_table_retained (P : Platform) st question cfg r :
  deepResearchAgent st question cfg = Returns (Researched r) ->
  Forall (retained cfg) (fact_table r).
Proof.
  intros (s & Hrun & _ & -> & _)%agent_rounds.
  apply rank_Forall. by apply run_rounds_settled in Hrun as [(? & _) _].
Qed.

Lemma fact_table_retained_witness :
  exists r,
    @deepResearchAgent ExamplePlatform.platform Example.replies "question" (Example.cfg 6 1)
    = Returns (Researched r)
    /\ Forall (@retained ExamplePlatform.platform (Example.cfg 6 1)) (fact_table r).
Proof.
  eexists. split; [vm_compute; reflexivity|].
  apply (fact_table_retained ExamplePlatform.platform Example.replies "question").
  vm_compute. reflexivity.
Defined.

(** X7.  The fact table of a result is in ranking order: every fact has a
    source quality at least that of each fact after it and, where the two
    are equal, a confidence that is not lower. *)
Theorem fact_table_ranked (P : Platform) st question cfg r :
  deepResearchAgent st question cfg = Returns (Researched r) ->
  StronglySorted in_rank_order (fact_table r).
Proof.
  intros (s & Hrun & _ & -> & _)%agent_rounds.
  apply rank_sorted. apply run_rounds_settled in Hrun as [(Hret & _) _].
  eapply Forall_impl; [exact Hret|]. intros f. apply retained_number.
Qed.

Lemma fact_table_ranked_witness :
  exists r,
    @deepResearchAgent ExamplePlatform.platform Example.replies "question" (Example.cfg 6 1)
    = Returns (Researched r)
    /\ StronglySorted in_rank_order (fact_table r).
Proof.
  eexists. split; [vm_compute; reflexivity|].
  apply (fact_table_ranked ExamplePlatform.platform Example.replies "question"
           (Example.cfg 6 1)).
  vm_compute. reflexivity.
Defined.

(** X8.  No two facts of the fact table have the same text up to case and
    surrounding white space, and none has an empty text. *)
Theorem fact_table_distinct (P : Platform) st question cfg r :
  deepResearchAgent st question cfg = Returns (Researched r) ->
  exists keys,
    fact_keys (fact_table r) = Ok keys /\ NoDup keys
    /\ Forall (fun k => Str.is_empty k = false) keys.
Proof.
  intros (s & Hrun & _ & -> & _)%agent_rounds.
  apply run_rounds_settled in Hrun as [(_ & Hfix & _) _].
  destruct (dedupe_from_keys _ _ _ Hfix) as (ks & Hks & Hnd & Hne & _).
  destruct (fact_keys_perm _ (rank (allFacts (gathered s))) _
              (symmetry (rank_perm _)) Hks) as (ks' & Hks' & Hp).
  exists ks'. split; [done|]. split; [by rewrite <- Hp|].
  rewrite <- Hp. eapply Forall_impl; [exact Hne|]. by intros k [_ ?].
Qed.

Lemma fact_table_distinct_witness :
  exists r,
    @deepResearchAgent ExamplePlatform.platform Example.replies "question" (Example.cfg 6 1)
    = Returns (Researched r)
    /\ exists keys,
         fact_keys (fact_table r) = Ok keys /\ NoDup keys
         /\ Forall (fun k => Str.is_empty k = false) keys.
Proof.
  eexists. split; [vm_compute; reflexivity|].
  apply (fact_table_distinct ExamplePlatform.platform Example.replies "question"
           (Example.cfg 6 1)).
  vm_compute. reflexivity.
Defined.

(** X9.  The loop only adds to the evidence: from a state whose evidence is
    settled, the facts and conflicts gathered before stay where they are at
    the front, no URL is forgotten, the trace is extended, and the evidence
    is settled again. *)
Theorem evidence_grows (P : Platform) st cfg queries th fuel round s s' :
  settled cfg (gathered s) ->
  research_loop st cfg queries th fuel round s = Returns s' ->
  settled cfg (gathered s') /\ grows s s'.
Proof.
  intros Hs.
  pose (I := fun s : loop_state => settled cfg (gathered s)).
  apply (research_loop_induct st cfg queries th I grows); try done.
  - intros a b c (? & ? & ? & ?) (? & ? & ? & ?). repeat split; by etrans.
  - clear. intros round s s' b Hs. unfold I in *. unfold round_body. intros Hb.
    bind_inv Hb. rename x into r.
    destruct (round_evidence_settled st cfg _ _ _ _ Hs E)
      as (Hs' & (added & Hall & _) & _ & Hconf & Hseen).
    assert (allFacts (gathered s) `prefix_of` allFacts (after r)) as Hpre
      by (rewrite Hall; apply prefix_app_r; done).
    destruct stop_decision; injection Hb as <- <-; cbn [gathered trace];
      (split; [done|]); repeat split; try done.
    + rewrite <- app_assoc. by apply prefix_app_r.
    + by apply prefix_app_r.
Qed.

(** X10.  The counts of every [extract] event in the trace of a result fit
    together: the new facts are at most the filtered ones, those at most
    the raw ones, and the distinct sources at most the total facts; none is
    negative. *)
Theorem extract_counts (P : Platform) st question cfg r :
  deepResearchAgent st question cfg = Returns (Researched r) ->
  Forall counts_fit (r_trace r).
Proof.
  intros (s & Hrun & _ & _ & _ & len & ->)%agent_rounds.
  apply run_rounds_settled in Hrun as [_ Hc].
  apply Forall_app. split; [done|]. by repeat constructor.
Qed.

Lemma extract_counts_witness :
  exists r,
    @deepResearchAgent ExamplePlatform.platform Example.replies "question" (Example.cfg 6 1)
    = Returns (Researched r)
    /\ Forall counts_fit (r_trace r).
Proof.
  eexists. split; [vm_compute; reflexivity|].
  apply (extract_counts ExamplePlatform.platform Example.replies "question"
           (Example.cfg 6 1)).
  vm_compute. reflexivity.
Defined.

Lemma evidence_grows_witness :
  exists s',
    @research_loop ExamplePlatform.platform Example.replies (Example.cfg 6 1)
      (jstrs_list ["q1"; "q2"; "q3"]) Example.limits 6 1 (initial_state JNull)
    = Returns s'
    /\ @settled ExamplePlatform.platform (Example.cfg 6 1) (gathered s')
    /\ grows (initial_state JNull) s'.
Proof.
  eexists. split; [vm_compute; reflexivity|].
  apply (evidence_grows ExamplePlatform.platform Example.replies (Example.cfg 6 1)
           (jstrs_list ["q1"; "q2"; "q3"]) Example.limits 6 1 (initial_state JNull)).
  - repeat split. constructor.
  - vm_compute. reflexivity.
Defined.

(** ** The configuration of a request *)

Lemma or_truthy a b : JS.truthy b = true -> JS.truthy (JS.or a b) = true.
Proof. intros Hb. unfold JS.or. by destruct (JS.truthy a) eqn:Ha. Qed.

Section Ranges.
Context `{Platform}.

Lemma clampFloat_range v min max q :
  (min <= max)%Q -> clampFloat v min max = Ok (Some q) -> (min <= q <= max)%Q.
Proof.
  intros Hmm. unfold clampFloat. intros Hc.
  assert (exists x, q = Qmax min (Qmin max x)) as (x & ->).
  { destruct v; try done; bind_inv Hc;
      match goal with n : jsnum |- _ => destruct n end; simplify_eq; eauto. }
  split.
  - apply Q.le_max_l.
  - apply Q.max_lub; [done | apply Q.le_min_l].
Qed.

Lemma normalize_choice choices v s :
  (if negb (JS.truthy v) then Ok None else
   let* t := JS.ToString v in
   let s := Str.toLowerCase t in
   if one_of choices s then Ok (Some s) else Ok None) = Ok (Some s) ->
  one_of choices s = true.
Proof.
  destruct (negb (JS.truthy v)); [done|]. intros Hn. bind_inv Hn. cbv zeta in Hn.
  destruct (one_of choices (Str.toLowerCase x)) eqn:Hc; [|done].
  by injection Hn as <-.
Qed.

End Ranges.

(** X11.  Whatever the options of the request are, a configuration that is
    built has every numeric setting inside its documented range, a web
    context size and reasoning settings from their enumerations, and a
    truthy model. *)
Theorem build_cfg_ranges (P : Platform) options env_model cfg :
  build_cfg options env_model = Ok cfg ->
  (1 <= maxSearchRounds cfg <= 10 /\ 5 <= maxFacts cfg <= 50
   /\ 0 <= minNewFactsPerRound cfg <= 10 /\ 0 <= maxRetries cfg <= 5)
  /\ (forall n, max_output_tokens cfg = Some n -> 1 <= n <= 128000)
  /\ (forall n, maxToolCalls cfg = Some n -> 1 <= n <= 1000)
  /\ (forall t, temperature cfg = Some t -> (0 <= t <= 2)%Q)
  /\ (forall t, top_p cfg = Some t -> (0 <= t <= 1)%Q)
  /\ one_of ["low"; "medium"; "high"] (webContextSize cfg) = true
  /\ (forall e, reasoning_effort cfg = Some e -> one_of ["low"; "medium"; "high"] e = true)
  /\ (forall e, reasoningSummary cfg = Some e ->
        one_of ["auto"; "concise"; "detailed"] e = true)
  /\ JS.truthy (model cfg) = true.
Proof.
  unfold build_cfg. intros Hb. repeat bind_inv Hb. injection Hb as <-.
  cbn [maxSearchRounds maxFacts minNewFactsPerRound maxRetries max_output_tokens
       maxToolCalls temperature top_p webContextSize reasoning_effort
       reasoningSummary model].
  split; [|split; [|split; [|split; [|split; [|split; [|split; [|split]]]]]]].
  - split; [|split; [|split]]; (eapply clampInt_range; [|eassumption]; lia).
  - intros n ->. destruct (JS.truthy (opt options "max_output_tokens")); [|done].
    bind_inv E1. injection E1 as <-. eapply clampInt_range; [|done]. lia.
  - intros n ->. destruct (JS.truthy (opt options "maxToolCalls")); [|done].
    bind_inv E7. injection E7 as <-. eapply clampInt_range; [|done]. lia.
  - intros t ->. eapply clampFloat_range; [|done]. done.
  - intros t ->. eapply clampFloat_range; [|done]. done.
  - unfold normalizeWebContextSize in E6. bind_inv E6.
    destruct (one_of _ (Str.toLowerCase x10)) eqn:Hc; by injection E6 as <-.
  - intros e ->. by eapply normalize_choice.
  - intros e ->. by eapply normalize_choice.
  - by apply or_truthy.
Qed.

Lemma build_cfg_ranges_witness :
  exists cfg,
    @build_cfg ExamplePlatform.platform wild_options JUndef = Ok cfg
    /\ (1 <= maxSearchRounds cfg <= 10 /\ 5 <= maxFacts cfg <= 50
        /\ 0 <= minNewFactsPerRound cfg <= 10 /\ 0 <= maxRetries cfg <= 5)
    /\ (forall n, max_output_tokens cfg = Some n -> 1 <= n <= 128000)
    /\ (forall n, maxToolCalls cfg = Some n -> 1 <= n <= 1000)
    /\ (forall t, temperature cfg = Some t -> (0 <= t <= 2)%Q)
    /\ (forall t, top_p cfg = Some t -> (0 <= t <= 1)%Q)
    /\ one_of ["low"; "medium"; "high"] (webContextSize cfg) = true
    /\ (forall e, reasoning_effort cfg = Some e ->
          one_of ["low"; "medium"; "high"] e = true)
    /\ (forall e, reasoningSummary cfg = Some e ->
          one_of ["auto"; "concise"; "detailed"] e = true)
    /\ JS.truthy (model cfg) = true.
Proof.
  eexists. split; [vm_compute; reflexivity|].
  apply (build_cfg_ranges ExamplePlatform.platform wild_options JUndef).
  vm_compute. reflexivity.
Defined.

(** ** What the job functions return *)

Lemma failed_result_shape r id t0 t1 tr x :
  failed_result r id t0 t1 tr = Ok x -> response_id x = id /\ well_formed x.
Proof.
  unfold failed_result. intros Hf. bind_inv Hf. injection Hf as <-.
  unfold well_formed. cbn. eauto.
Qed.

Lemma gave_up_shape msg id st tr :
  response_id (gave_up msg id st tr) = JStr id /\ well_formed (gave_up msg id st tr).
Proof. unfold well_formed. cbn. eauto. Qed.

Section ResumeShape.
Context `{Platform}.
Variable net : network.

Lemma resume_poll_loop_gave_up id startPoll fuel : forall s w r w',
  resume_poll_loop net fuel id startPoll s w = (Returns (Returned r), w') ->
  exists msg st tr, r = gave_up msg id st tr.
Proof.
  induction fuel as [|fuel IH]; intros s w r w'; cbn [resume_poll_loop];
    (destruct (non_terminal (result s)) as [nt|]; [|done]);
    (destruct (nt && _); [|done]); [done|].
  destruct (resume_try net id s startPoll (sleep (Num.of_Z pollInterval) w))
    as [[s'|s'|msg s'|r'] w2] eqn:Htry.
  - apply IH.
  - apply IH.
  - destruct (_ >=? _); [|apply IH].
    destruct (JS.get _ _); [|done]. intros [= <- _]. eauto.
  - intros [= <- _]. unfold resume_try in Htry.
    destruct (fetch net _ _) as [[pollResp|msg] w1]; [|done].
    unfold poll_response in Htry.
    destruct (negb (http_ok pollResp)).
    + destruct (http_status pollResp =? 429); [|done].
      destruct (_ >=? _); [|done].
      destruct (JS.get _ _); [|done]. injection Htry as <- _. eauto.
    + destruct (body_json pollResp) as [b|]; [|done].
      by destruct (JS.get b "status").
Qed.

Lemma resume_finish_shape t id r tr w x w' :
  resume_finish t id r tr w = (Returns x, w') ->
  response_id x = JStr id /\ well_formed x.
Proof.
  unfold resume_finish. intros Hf. io_inv Hf.
  destruct (status_is a "completed").
  { do 2 io_inv Hf. injection Hf as <- _. unfold well_formed. cbn. eauto. }
  destruct (status_is a "failed").
  { do 2 io_inv Hf. apply io_lift_Returns in Hf as [Hf _].
    by apply failed_result_shape in Hf. }
  io_inv Hf. injection Hf as <- _. unfold well_formed. cbn. eauto.
Qed.

End ResumeShape.

(** X12.  [handleResumeResponse] always ends -- its polling is never cut
    short -- and every object it returns carries the job id and is well
    formed: a success has an answer and no error, a failure an error and no
    answer. *)
Theorem resume_result (P : Platform) net id w :
  fst (handleResumeResponse net id w) <> OutOfFuel
  /\ forall x w',
       handleResumeResponse net id w = (Returns x, w') ->
       response_id x = JStr id /\ well_formed x.
Proof.
  split; [apply handleResumeResponse_ends|].
  intros x w'. unfold handleResumeResponse. intros Hr. io_inv Hr. clear E. io_inv Hr.
  destruct (negb (http_ok a0)).
  { io_inv Hr. injection Hr as <- _. unfold well_formed. cbn. eauto. }
  io_inv Hr. io_inv Hr. rename a2 into st.
  destruct (status_is st "completed").
  { do 2 io_inv Hr. injection Hr as <- _. unfold well_formed. cbn. eauto. }
  destruct (status_is st "failed").
  { io_inv Hr. apply io_lift_Returns in Hr as [Hr _]. by apply failed_result_shape in Hr. }
  destruct (status_is st "cancelled").
  { io_inv Hr. injection Hr as <- _. unfold well_formed. cbn. eauto. }
  destruct (_ || _); [|by eapply resume_finish_shape].
  io_inv Hr. io_inv Hr. rename a3 into e. destruct e as [s|r].
  - io_inv Hr. rename a3 into nt. destruct nt.
    + io_inv Hr. injection Hr as <- _. apply gave_up_shape.
    + by eapply resume_finish_shape.
  - injection Hr as <- _.
    match goal with
    | Hl : resume_poll_loop _ _ _ _ _ _ = _ |- _ =>
        apply resume_poll_loop_gave_up in Hl as (msg & st' & tr & ->)
    end.
    apply gave_up_shape.
Qed.

Lemma resume_result_witness :
  exists x w',
    @handleResumeResponse ExamplePlatform.platform Jobs.finished "resp_1" Jobs.start
    = (Returns x, w')
    /\ response_id x = JStr "resp_1" /\ well_formed x.
Proof.
  do 2 eexists. split; [vm_compute; reflexivity|].
  apply (proj2 (resume_result ExamplePlatform.platform Jobs.finished "resp_1" Jobs.start)
           _ (snd (@handleResumeResponse ExamplePlatform.platform Jobs.finished "resp_1"
                     Jobs.start))).
  vm_compute. reflexivity.
Defined.

(** ** How many requests a job function sends *)

Lemma io_bind_fetches {A B} (m : io A) (k : A -> io B) (a b : nat) w :
  (fetches (snd (m w)) <= fetches w + a)%nat ->
  (forall x w', fetches (snd (k x w')) <= fetches w' + b)%nat ->
  (fetches (snd (io_bind m k w)) <= fetches w + (a + b))%nat.
Proof.
  unfold io_bind. intros Hm Hk.
  destruct (m w) as [[x|msg|] w1]; cbn [snd] in *; [|lia|lia].
  specialize (Hk x w1). lia.
Qed.

Lemma io_bind_still {A B} (m : io A) (k : A -> io B) w :
  (fetches (snd (m w)) <= fetches w)%nat ->
  (forall x w', fetches (snd (k x w')) <= fetches w')%nat ->
  (fetches (snd (io_bind m k w)) <= fetches w)%nat.
Proof.
  intros Hm Hk. pose proof (io_bind_fetches m k 0 0 w) as Hb.
  rewrite !Nat.add_0_r in Hb. apply Hb; [done|]. intros x w'. rewrite Nat.add_0_r. apply Hk.
Qed.

Lemma io_lift_still {A} (r : res A) w : (fetches (snd (io_lift r w)) <= fetches w)%nat.
Proof. done. Qed.

(** Solves [fetches (snd (m w)) <= fetches w] for code that sends nothing. *)
Ltac sends_nothing :=
  repeat first
    [ apply io_lift_still
    | done
    | apply io_bind_still; [|intros ? ?]
    | match goal with
      | |- (fetches (snd ((if ?b then _ else _) _)) <= _)%nat => destruct b
      | |- (fetches (snd (match ?x with _ => _ end _)) <= _)%nat => destruct x
      end ].

Lemma retry_loop_fetches fn maxRetries baseDelayMs fuel :
  (forall w, fetches (snd (fn w)) <= S (fetches w))%nat ->
  forall attempt lastError w,
    (fetches (snd (retry_loop fuel fn maxRetries baseDelayMs attempt lastError w))
     <= fetches w + fuel)%nat.
Proof.
  intros Hfn. induction fuel as [|fuel IH]; intros attempt lastError w; cbn [retry_loop];
    destruct (attempt <=? maxRetries); cbn [snd]; try lia.
  specialize (Hfn w). destruct (fn w) as [[result|msg] w1]; cbn [snd] in Hfn.
  - destruct (_ && _); [|cbn; lia].
    destruct (attempt <? maxRetries); [|cbn; lia].
    etrans; [apply IH|]. cbn. lia.
  - destruct (_ && _); [|cbn; lia].
    etrans; [apply IH|]. cbn. lia.
Qed.

Section Requests.
Context `{Platform}.
Variable net : network.

Lemma fetch_fetches r w : fetches (snd (fetch net r w)) = S (fetches w).
Proof. unfold fetch. by destruct (outcome _). Qed.

Lemma poll_response_fetches s startPoll pollResp on_429 w :
  (forall w', fetches (snd (on_429 w')) <= fetches w')%nat ->
  (fetches (snd (poll_response s startPoll pollResp on_429 w)) <= fetches w)%nat.
Proof.
  intros Hon. unfold poll_response.
  destruct (negb (http_ok pollResp)).
  - destruct (http_status pollResp =? 429); [apply Hon | done].
  - destruct (body_json pollResp) as [r|]; [|done].
    by destruct (JS.get r "status").
Qed.

Lemma resume_try_fetches id s startPoll w :
  (fetches (snd (resume_try net id s startPoll w)) <= S (fetches w))%nat.
Proof.
  unfold resume_try. pose proof (fetch_fetches (GET_response id) w) as Hf.
  destruct (fetch net (GET_response id) w) as [[pollResp|msg] w1]; cbn [snd] in *; [|lia].
  rewrite <- Hf. apply poll_response_fetches. intros w'.
  destruct (_ >=? _); [|done]. by destruct (JS.get _ _).
Qed.

Lemma submit_try_fetches s startPoll w :
  (fetches (snd (submit_try net s startPoll w)) <= S (fetches w))%nat.
Proof.
  unfold submit_try. destruct (res_bind _ _) as [id|]; [|cbn; lia].
  pose proof (fetch_fetches (GET_response id) w) as Hf.
  destruct (fetch net (GET_response id) w) as [[pollResp|msg] w1]; cbn [snd] in *; [|lia].
  rewrite <- Hf. apply poll_response_fetches. intros w'.
  by destruct (_ >=? _).
Qed.

Lemma resume_poll_loop_fetches id startPoll fuel : forall s w,
  (fetches (snd (resume_poll_loop net fuel id startPoll s w)) <= fetches w + fuel)%nat.
Proof.
  induction fuel as [|fuel IH]; intros s w; cbn [resume_poll_loop];
    (destruct (non_terminal (result s)) as [nt|]; [|cbn; lia]);
    (destruct (nt && _); [|cbn; lia]); [cbn; lia|].
  pose proof (resume_try_fetches id s startPoll (sleep (Num.of_Z pollInterval) w)) as Ht.
  destruct (resume_try net id s startPoll (sleep (Num.of_Z pollInterval) w))
    as [[s'|s'|msg s'|r] w2]; cbn [snd sleep fetches] in Ht.
  - etrans; [apply IH|]. lia.
  - etrans; [apply IH|]. lia.
  - destruct (_ >=? _).
    + destruct (JS.get _ _); cbn; lia.
    + etrans; [apply IH|]. lia.
  - cbn. lia.
Qed.

Lemma submit_poll_loop_fetches startPoll fuel : forall s w,
  (fetches (snd (submit_poll_loop net fuel startPoll s w)) <= fetches w + fuel)%nat.
Proof.
  induction fuel as [|fuel IH]; intros s w; cbn [submit_poll_loop];
    (destruct (non_terminal (result s)) as [nt|]; [|cbn; lia]);
    (destruct (nt && _); [|cbn; lia]); [cbn; lia|].
  pose proof (submit_try_fetches s startPoll (sleep (Num.of_Z pollInterval) w)) as Ht.
  destruct (submit_try net s startPoll (sleep (Num.of_Z pollInterval) w))
    as [[s'|s'|msg s'|r] w2]; cbn [snd sleep fetches] in Ht.
  - etrans; [apply IH|]. lia.
  - etrans; [apply IH|]. lia.
  - destruct (Str.includes msg "Rate limit"); [cbn; lia|].
    destruct (_ >=? _); [cbn; lia|]. etrans; [apply IH|]. lia.
  - cbn. lia.
Qed.

Lemma resume_finish_still t id r tr w :
  (fetches (snd (resume_finish t id r tr w)) <= fetches w)%nat.
Proof. unfold resume_finish. sends_nothing. Qed.

Lemma submit_finish_still t data tr w :
  (fetches (snd (submit_finish t data tr w)) <= fetches w)%nat.
Proof. unfold submit_finish. sends_nothing. Qed.

End Requests.

Section RequestBudget.
Context `{Platform}.
Variable net : network.

Lemma responses_call_fetches input w :
  (fetches (snd (responses_call net input w)) <= S (fetches w))%nat.
Proof.
  unfold responses_call. pose proof (fetch_fetches net (POST_responses input) w) as Hf.
  destruct (fetch net (POST_responses input) w) as [[r|msg] w1]; cbn [snd] in *; lia.
Qed.

Lemma handleResumeResponse_fetches id w :
  (fetches (snd (handleResumeResponse net id w)) <= fetches w + 361)%nat.
Proof.
  unfold handleResumeResponse.
  apply (io_bind_fetches _ _ 0 361); [cbn; lia|]. intros startedAt w0.
  apply (io_bind_fetches _ _ 1 360).
  { unfold io_eff. pose proof (fetch_fetches net (GET_response id) w0) as Hf.
    destruct (fetch net (GET_response id) w0) as [r w1]. cbn [snd] in *. lia. }
  intros initialResp w1.
  destruct (negb (http_ok initialResp)).
  { etrans; [|apply Nat.le_add_r]. sends_nothing. }
  apply (io_bind_fetches _ _ 0 360); [cbn; lia|]. intros initial w2.
  apply (io_bind_fetches _ _ 0 360); [cbn; lia|]. intros st w3.
  destruct (status_is st "completed"); [etrans; [|apply Nat.le_add_r]; sends_nothing|].
  destruct (status_is st "failed"); [etrans; [|apply Nat.le_add_r]; sends_nothing|].
  destruct (status_is st "cancelled"); [etrans; [|apply Nat.le_add_r]; sends_nothing|].
  destruct (_ || _);
    [|etrans; [|apply Nat.le_add_r]; apply resume_finish_still].
  apply (io_bind_fetches _ _ 0 360); [cbn; lia|]. intros startPoll w4.
  apply (io_bind_fetches _ _ 360 0); [apply resume_poll_loop_fetches|].
  intros e w5. rewrite Nat.add_0_r. destruct e as [s|r]; [|done].
  apply io_bind_still; [done|]. intros nt w6.
  destruct nt; [sends_nothing | apply resume_finish_still].
Qed.

Lemma runDeepResearchModel_fetches question cfg w :
  (fetches (snd (runDeepResearchModel net question cfg w)) <= fetches w + 364)%nat.
Proof.
  unfold runDeepResearchModel.
  apply (io_bind_fetches _ _ 0 364); [cbn; lia|]. intros startedAt w0.
  apply (io_bind_fetches _ _ 4 360).
  { unfold openaiResponsesCreate, retryWithBackoff.
    apply retry_loop_fetches. apply responses_call_fetches. }
  intros resp w1.
  apply (io_bind_fetches _ _ 0 360); [destruct resp as [|[]|]; cbn; lia|]. intros data w2.
  apply (io_bind_fetches _ _ 0 360); [cbn; lia|]. intros st0 w3.
  apply (io_bind_fetches _ _ 0 360); [cbn; lia|]. intros id0 w4.
  destruct (_ && _);
    [|etrans; [|apply Nat.le_add_r]; apply submit_finish_still].
  apply (io_bind_fetches _ _ 0 360); [cbn; lia|]. intros startPoll w5.
  apply (io_bind_fetches _ _ 360 0); [apply submit_poll_loop_fetches|].
  intros e w6. rewrite Nat.add_0_r. destruct e as [s|r]; [|done].
  apply io_bind_still; [done|]. intros nt w7.
  destruct nt; [done | apply submit_finish_still].
Qed.

End RequestBudget.

(** X13.  The request budget of the two job functions.  Either runs to its
    end (the 30-minute window closes the poll loop, which waits 5 seconds
    before each poll), and by then resuming a job has sent its first status
    request and at most 360 polls, submitting one at most 4 creation
    requests and at most 360 polls. *)
Theorem job_request_budget (P : Platform) net :
  (forall id w,
     fst (handleResumeResponse net id w) <> OutOfFuel
     /\ (fetches (snd (handleResumeResponse net id w)) <= fetches w + 361)%nat)
  /\ (forall question cfg w,
        fst (runDeepResearchModel net question cfg w) <> OutOfFuel
        /\ (fetches (snd (runDeepResearchModel net question cfg w))
            <= fetches w + 364)%nat).
Proof.
  split.
  - intros id w. split;
      [apply handleResumeResponse_ends | apply handleResumeResponse_fetches].
  - intros question cfg w. split;
      [apply runDeepResearchModel_ends | apply runDeepResearchModel_fetches].
Qed.

(** ** The schedule of retries *)

Lemma first_final (p : nat -> bool) (m : nat) :
  exists k, (k <= m)%nat /\ (forall i, (i < k)%nat -> p i = true) /\ (k = m \/ p k = false).
Proof.
  induction m as [|m (k & Hk & Hbefore & Hlast)].
  - exists O. split; [lia|]. split; [intros i Hi; lia | by left].
  - destruct Hlast as [->|Hlast].
    + destruct (p m) eqn:Hm.
      * exists (S m). split; [lia|]. split; [|by left].
        intros i Hi. destruct (decide (i = m)) as [->|]; [done|]. apply Hbefore. lia.
      * exists m. split; [lia|]. split; [done | by right].
    + exists k. split; [lia|]. split; [done | by right].
Qed.

Lemma waited_app a b : waited (a ++ b) = waited a + waited b.
Proof.
  induction a as [|[r|ms] a IH]; cbn [waited app]; lia.
Qed.

Lemma timer_delay_of_Z z :
  0 <= z <= 3153600000000 -> timer_delay (Num.of_Z z) = z.
Proof.
  intros Hz. unfold timer_delay, Num.of_Z, Num.trunc, inject_Z.
  cbn [Qnum Qden]. rewrite Z.quot_1_r. lia.
Qed.

Lemma waited_retry_log input (k : nat) : forall attempt,
  0 <= attempt -> attempt + Z.of_nat k <= 31 ->
  waited (retry_log input 1000 attempt k) = 1000 * 2 ^ attempt * (2 ^ Z.of_nat k - 1).
Proof.
  induction k as [|k IH]; intros attempt H0 H31; cbn [retry_log waited].
  - change (2 ^ Z.of_nat 0) with 1. lia.
  - rewrite IH by lia.
    assert (2 ^ attempt <= 2 ^ 31) by (apply Z.pow_le_mono_r; lia).
    assert (0 < 2 ^ attempt) by (apply Z.pow_pos_nonneg; lia).
    rewrite timer_delay_of_Z by lia.
    rewrite Nat2Z.inj_succ, Z.pow_succ_r, Z.pow_add_r by lia.
    change (2 ^ 1) with 2. clear.
    generalize (2 ^ attempt) (2 ^ Z.of_nat k). intros a b. ring.
Qed.

(** X14.  Whatever the network does, a call with [maxRetries] retries (a
    value in the range 0..5 of the configuration) sends [k + 1] requests
    for some [k] up to [maxRetries], all but the last with a transient
    outcome; it hands on the outcome of the last one, and it has waited
    1000 * (2^k - 1) milliseconds between them. *)
Theorem retry_schedule net input maxRetries w :
  0 <= maxRetries <= 5 ->
  exists (k : nat) w',
    Z.of_nat k <= maxRetries
    /\ openaiResponsesCreate net input (Some maxRetries) w
       = (surfaced (attempt_outcome net input w k), w')
    /\ (forall i, (i < k)%nat -> transient (attempt_outcome net input w i) = true)
    /\ (Z.of_nat k = maxRetries \/ transient (attempt_outcome net input w k) = false)
    /\ fetches w' = (fetches w + k + 1)%nat
    /\ waited (io_log w') = waited (io_log w) + 1000 * (2 ^ Z.of_nat k - 1).
Proof.
  intros Hm.
  destruct (first_final (fun i => transient (attempt_outcome net input w i))
              (Z.to_nat maxRetries)) as (k & Hk & Hbefore & Hlast).
  assert (Z.of_nat k = maxRetries \/ transient (attempt_outcome net input w k) = false)
    as Hlast' by (destruct Hlast; [left; lia | by right]).
  destruct (retry_loop_attempts net input maxRetries 1000 k
              (S (Z.to_nat maxRetries)) 0 RUndefined w) as (w' & Hrun & Hlog & Hf);
    [lia | lia | done | by rewrite Z.add_0_l |].
  exists k, w'. repeat split; try done; try lia.
  rewrite Hlog, waited_app, waited_retry_log by lia.
  change (2 ^ 0) with 1. lia.
Qed.

Lemma retry_schedule_witness :
  exists (k : nat) w',
    Z.of_nat k <= 3
    /\ openaiResponsesCreate Jobs.flaky "q" (Some 3) Jobs.start
       = (surfaced (attempt_outcome Jobs.flaky "q" Jobs.start k), w')
    /\ (forall i, (i < k)%nat ->
          transient (attempt_outcome Jobs.flaky "q" Jobs.start i) = true)
    /\ (Z.of_nat k = 3 \/ transient (attempt_outcome Jobs.flaky "q" Jobs.start k) = false)
    /\ fetches w' = (fetches Jobs.start + k + 1)%nat
    /\ waited (io_log w') = waited (io_log Jobs.start) + 1000 * (2 ^ Z.of_nat k - 1).
Proof.
  apply (retry_schedule Jobs.flaky "q" 3 Jobs.start). lia.
Defined.

(** ** The routes of the [fetch] handler *)

Lemma validateApiKey_rejects req env :
  filled (RECRUITER_API_KEY env) = true ->
  x_api_key req <> RECRUITER_API_KEY env ->
  validateApiKey req env = false.
Proof.
  unfold validateApiKey. intros Hk Hne. rewrite Hk. cbn [negb].
  destruct (x_api_key req) as [a|], (RECRUITER_API_KEY env) as [k|]; try done.
  apply String.eqb_neq. congruence.
Qed.

Lemma startsWith_drop s p :
  Str.startsWith s p = true -> s = p +:+ Text.drop (String.length p) s.
Proof.
  intros (r & ->)%startsWith_prefix. by rewrite text_drop_app.
Qed.

(** X15.  When an API key is configured and the request does not carry it,
    the handler answers at once -- preflight, health, documentation, 401 or
    404 -- and never goes on to the provider. *)
Theorem route_requires_key (P : Platform) req env :
  filled (RECRUITER_API_KEY env) = true ->
  x_api_key req <> RECRUITER_API_KEY env ->
  reaches_provider (route req env) = false
  /\ (String.eqb (method req) "OPTIONS" = false ->
      pathname req <> "/health" -> pathname req <> "/docs" -> pathname req <> "/" ->
      route req env = unauthorized \/ route req env = Reply 404 (ErrorBody "Not found")).
Proof.
  intros Hk Hne. pose proof (validateApiKey_rejects req env Hk Hne) as Hv.
  unfold route. rewrite Hv. split.
  - destruct (String.eqb (method req) "OPTIONS"); [done|].
    destruct (String.eqb (pathname req) "/health"); [done|].
    destruct (_ || _); [done|].
    destruct (rest_after "/cancel/" (pathname req)), (String.eqb (method req) "POST");
      destruct (rest_after "/status/" (pathname req)), (String.eqb (method req) "GET");
      destruct (resume_id (pathname req)); try done;
      by destruct (String.eqb (pathname req) "/research").
  - intros -> Hh Hd Hr.
    apply String.eqb_neq in Hh, Hd, Hr. rewrite Hh, Hd, Hr. cbn [orb].
    destruct (rest_after "/cancel/" (pathname req)), (String.eqb (method req) "POST");
      destruct (rest_after "/status/" (pathname req)), (String.eqb (method req) "GET");
      destruct (resume_id (pathname req)); auto;
      destruct (String.eqb (pathname req) "/research"); auto.
Qed.

Lemma route_requires_key_witness :
  reaches_provider (@route ExamplePlatform.platform (research_request (Some "guess")) keyed_env)
  = false
  /\ @route ExamplePlatform.platform (resume_request None) keyed_env = unauthorized.
Proof.
  split.
  - apply (route_requires_key ExamplePlatform.platform (research_request (Some "guess"))
             keyed_env); [reflexivity | discriminate].
  - destruct (proj2 (route_requires_key ExamplePlatform.platform (resume_request None)
                       keyed_env eq_refl ltac:(discriminate)))
      as [Hu|Hn]; try done.
Defined.

(** Splits a hypothesis about the result of a chain of tests, dropping the
    branches that contradict it. *)
Ltac route_cases H :=
  repeat match type of H with
         | context [if ?b then _ else _] => destruct b eqn:?; try discriminate H
         | context [match ?x with _ => _ end] => destruct x eqn:?; try discriminate H
         end.

Lemma rest_after_Some p path rest :
  rest_after p path = Some rest ->
  path = p +:+ rest /\ Str.is_empty rest = false
  /\ Text.all_chars not_line_end rest = true.
Proof.
  unfold rest_after. intros Hr.
  destruct (Str.startsWith path p) eqn:Hp; [|done].
  apply startsWith_drop in Hp.
  destruct (Text.drop (String.length p) path) as [|c r]; [done|].
  destruct (Text.all_chars not_line_end (String c r)) eqn:Hall; [|done].
  injection Hr as <-. done.
Qed.

Lemma resume_id_Some path id :
  resume_id path = Some id ->
  path = "/research/" +:+ id
  /\ exists rest, id = "resp_" +:+ rest /\ Str.is_empty rest = false
                  /\ Text.all_chars word_char rest = true.
Proof.
  unfold resume_id. intros Hr.
  destruct (Str.startsWith path "/research/resp_") eqn:Hp; [|done].
  apply startsWith_drop in Hp. change (String.length "/research/resp_") with 15%nat in Hp.
  destruct (Text.drop 15 path) as [|c r] eqn:Hd; [done|].
  destruct (Text.all_chars word_char (String c r)) eqn:Hall; [|done].
  injection Hr as <-. rewrite Hp. split; [reflexivity|].
  exists (String c r). by repeat split.
Qed.

(** X16.  The handler starts a research run only for a POST to [/research]
    that passed the key check, with [OPENAI_API_KEY] set, whose body was
    sent as JSON and holds a string [question] that is not blank; the run
    gets the trimmed question and the configuration built from the body's
    [options]. *)
Theorem route_research (P : Platform) req env question cfg :
  route req env = Research question cfg ->
  method req = "POST" /\ pathname req = "/research"
  /\ validateApiKey req env = true
  /\ filled (OPENAI_API_KEY env) = true
  /\ Str.includes (Str.toLowerCase (default "" (content_type req))) "application/json" = true
  /\ exists body raw,
       json_body req = Some body
       /\ JS.get_opt body "question" = JStr raw
       /\ question = Str.trim raw /\ Str.is_empty question = false
       /\ build_cfg (JS.or (JS.get_opt body "options") (JObj []))
            (env_value (OPENAI_MODEL env)) = Ok cfg.
Proof.
  unfold route. intros Hr.
  assert ((if String.eqb (pathname req) "/research" && String.eqb (method req) "POST"
           then if validateApiKey req env then research_route req env else unauthorized
           else Reply 404 (ErrorBody "Not found")) = Research question cfg) as Hlast
    by (route_cases Hr; done).
  clear Hr.
  destruct (String.eqb (pathname req) "/research" && String.eqb (method req) "POST")
    eqn:Hpm; [|done].
  apply andb_true_iff in Hpm as [Hp%String.eqb_eq Hm%String.eqb_eq].
  destruct (validateApiKey req env); [|done].
  unfold research_route, safeJson in Hlast.
  destruct (Str.includes _ "application/json"); [|done].
  destruct (json_body req) as [body|]; [|done].
  destruct (negb (JS.truthy body)); [done|].
  destruct (JS.get_opt body "question") as [| | | |raw| |] eqn:Hq; try done.
  destruct (Str.is_empty (Str.trim raw)) eqn:Hne; [done|].
  destruct (build_cfg _ _) as [c|] eqn:Hc; [|done].
  destruct (negb (filled (OPENAI_API_KEY env))) eqn:Hkey; [done|].
  injection Hlast as <- <-. apply negb_false_iff in Hkey.
  repeat split; try done. by exists body, raw.
Qed.

Lemma route_research_witness :
  exists cfg,
    @route ExamplePlatform.platform (research_request (Some "secret")) keyed_env
    = Research "What is Rocq?" cfg
    /\ filled (OPENAI_API_KEY keyed_env) = true.
Proof.
  eexists. split; [vm_compute; reflexivity|].
  eapply (route_research ExamplePlatform.platform (research_request (Some "secret"))
            keyed_env).
  vm_compute. reflexivity.
Defined.

(** X17.  The job routes pass on exactly what follows their prefix.  A job
    is resumed only by a GET to [/research/<id>] with an id made of [resp_]
    and one or more letters, digits or underscores; a job is cancelled only
    by a POST to [/cancel/<id>] and its status read only by a GET to
    [/status/<id>], with a non-empty id. *)
Theorem route_job_id (P : Platform) req env id :
  (route req env = ResumeJob id ->
   method req = "GET" /\ pathname req = "/research/" +:+ id
   /\ exists rest, id = "resp_" +:+ rest /\ Str.is_empty rest = false
                   /\ Text.all_chars word_char rest = true)
  /\ (route req env = CancelJob id ->
      method req = "POST" /\ pathname req = "/cancel/" +:+ id /\ Str.is_empty id = false)
  /\ (route req env = JobStatus id ->
      method req = "GET" /\ pathname req = "/status/" +:+ id /\ Str.is_empty id = false).
Proof.
  unfold route. split; [|split]; intros Hr.
  - route_cases Hr;
      try (unfold research_route in Hr; route_cases Hr; fail);
      injection Hr as <-;
      match goal with
      | Hid : resume_id _ = Some _, Hm : String.eqb (method req) "GET" = true |- _ =>
          apply resume_id_Some in Hid as [? ?]; apply String.eqb_eq in Hm; done
      end.
  - route_cases Hr;
      try (unfold research_route in Hr; route_cases Hr; fail);
      injection Hr as <-;
      match goal with
      | Hid : rest_after "/cancel/" _ = Some _,
        Hm : String.eqb (method req) "POST" = true |- _ =>
          apply rest_after_Some in Hid as (? & ? & ?); apply String.eqb_eq in Hm; done
      end.
  - route_cases Hr;
      try (unfold research_route in Hr; route_cases Hr; fail);
      injection Hr as <-;
      match goal with
      | Hid : rest_after "/status/" _ = Some _,
        Hm : String.eqb (method req) "GET" = true |- _ =>
          apply rest_after_Some in Hid as (? & ? & ?); apply String.eqb_eq in Hm; done
      end.
Qed.

Lemma route_job_id_witness :
  method (resume_request (Some "secret")) = "GET"
  /\ pathname (resume_request (Some "secret")) = "/research/" +:+ "resp_abc_123"
  /\ exists rest, "resp_abc_123" = "resp_" +:+ rest /\ Str.is_empty rest = false
                  /\ Text.all_chars word_char rest = true.
Proof.
  apply (proj1 (route_job_id ExamplePlatform.platform (resume_request (Some "secret"))
                  keyed_env "resp_abc_123")).
  vm_compute. reflexivity.
Defined.

(** ** Search results read from a response *)

Lemma or_null v : truthy_or_null (JS.or v JNull).
Proof. unfold truthy_or_null, JS.or. destruct (JS.truthy v) eqn:Hv; auto. Qed.

Lemma res_map_concat_Forall {A B} (f : A -> res (list B)) (Q : B -> Prop) l out :
  (forall a bs, f a = Ok bs -> Forall Q bs) ->
  res_map f l = Ok out -> Forall Q (concat out).
Proof.
  intros Hf Hm. apply Forall_concat. by eapply res_map_Forall.
Qed.

Lemma results_of_listed results out :
  results_of results = Ok out -> Forall listed out.
Proof.
  unfold results_of. intros Hr. bind_inv Hr. injection Hr as <-.
  eapply res_map_concat_Forall; [|done]. clear. intros r bs Hr. cbv beta in Hr.
  bind_inv Hr. destruct (JS.truthy x) eqn:Hu; [|injection Hr as <-; constructor].
  do 3 bind_inv Hr. injection Hr as <-. constructor; [|constructor].
  split; [done|]. split; apply or_null.
Qed.

Lemma search_call_results_listed x out :
  search_call_results x = Ok out -> Forall listed out.
Proof.
  unfold search_call_results. intros Hs. bind_inv Hs.
  destruct (status_is _ _); [|injection Hs as <-; constructor].
  destruct (JS.get_opt x "results"); try (injection Hs as <-; constructor).
  by eapply results_of_listed.
Qed.

(** X18.  Every search result [extractWebSearchResults] lists has a truthy
    URL, and its title and snippet are truthy or [null]; a response that is
    falsy or whose [output] is not an array gives the empty list. *)
Theorem extractWebSearchResults_listed respData :
  (forall out, extractWebSearchResults respData = Ok out -> Forall listed out)
  /\ ((JS.truthy respData = false
       \/ forall l, JS.get_opt respData "output" <> JArr l) ->
      extractWebSearchResults respData = Ok []).
Proof.
  unfold extractWebSearchResults. split.
  - intros out He. destruct (negb (JS.truthy respData)); [injection He as <-; constructor|].
    destruct (JS.get_opt respData "output"); try (injection He as <-; constructor).
    bind_inv He. injection He as <-.
    eapply res_map_concat_Forall; [|done]. clear. intros item bs Hi. cbv beta in Hi.
    do 2 bind_inv Hi. injection Hi as <-. apply Forall_app. split.
    + by eapply search_call_results_listed.
    + destruct (JS.get_opt item "content"); try (injection E0 as <-; constructor).
      bind_inv E0. injection E0 as <-.
      eapply res_map_concat_Forall; [|done]. apply search_call_results_listed.
  - intros [->|Hout]; [done|].
    destruct (negb (JS.truthy respData)); [done|].
    destruct (JS.get_opt respData "output"); try done. by destruct (Hout l).
Qed.

Lemma extractWebSearchResults_listed_witness :
  exists out,
    extractWebSearchResults search_response = Ok out
    /\ length out = 2%nat /\ Forall listed out.
Proof.
  eexists. split; [vm_compute; reflexivity|]. split; [reflexivity|].
  apply (proj1 (extractWebSearchResults_listed search_response)).
  vm_compute. reflexivity.
Defined.

(** ** Facts without a confidence, and blank domain entries *)

Lemma res_map_Forall_from {A B} (f : A -> res B) (Q : A -> Prop) (R : B -> Prop) l out :
  (forall a b, Q a -> f a = Ok b -> R b) ->
  Forall Q l -> res_map f l = Ok out -> Forall R out.
Proof.
  intros Hf Hl. revert out. induction Hl as [|a l Ha Hl IH]; intros out; cbn [res_map].
  - intros [= <-]. constructor.
  - destruct (f a) as [b|] eqn:Hb; [|done].
    destruct (res_map f l) as [bs|]; [|done].
    intros [= <-]. constructor; eauto.
Qed.

Lemma filter_none {A} (keep : A -> bool) l :
  Forall (fun x => keep x = false) l -> List.filter keep l = [].
Proof.
  induction 1 as [|a l Ha _ IH]; cbn [List.filter]; [done|]. by rewrite Ha.
Qed.

Section Unrated.
Context `{Platform}.

Lemma normalize_unrated f F :
  unrated f -> normalize_fact f = Ok F -> confidence F = Fin 1 /\ acceptable F = false.
Proof.
  intros (c & Hc & Hfalsy) (raw & Hraw & _ & Hconf)%normalize_fact_confidence.
  rewrite Hc in Hraw. cbn [res_bind] in Hraw.
  unfold JS.or in Hraw. rewrite Hfalsy in Hraw. injection Hraw as <-.
  assert (confidence F = Fin 1) as HF
    by (rewrite Hconf; by destruct (source_quality F <=? 2)).
  split; [done|]. unfold acceptable. rewrite HF. apply andb_false_r.
Qed.

End Unrated.

(** X19.  A fact listed without a usable confidence (absent, [null], 0,
    NaN, [false] or the empty string) is given confidence 1 and is
    therefore never retained: a round whose facts are all of this kind
    contributes nothing. *)
Theorem unrated_facts_dropped (P : Platform) cfg fs :
  Forall unrated fs ->
  (forall f F, f ∈ fs -> normalize_fact f = Ok F ->
               confidence F = Fin 1 /\ acceptable F = false)
  /\ (forall out, round_facts cfg (JArr fs) = Ok out -> out = []).
Proof.
  intros Hfs. split.
  - intros f F Hin. apply normalize_unrated.
    by apply (proj1 (Forall_forall _ _) Hfs).
  - intros out. unfold round_facts. cbn [JS.or JS.truthy res_bind]. intros Hr.
    bind_inv Hr. injection Hr as <-.
    rewrite (filter_none acceptable x); [done|].
    eapply res_map_Forall_from; [|exact Hfs|exact E].
    intros a b Ha Hb. by apply (normalize_unrated a b).
Qed.

Lemma unrated_facts_dropped_witness :
  @round_facts ExamplePlatform.platform (Example.cfg 6 1)
    (JArr [JObj [("fact", JStr "Alpha"); ("url", JStr "https://nist.gov/x")];
           JObj [("fact", JStr "Beta"); ("url", JStr "https://nist.gov/y");
                 ("confidence", jint 0)]])
  = Ok [].
Proof.
  pose proof (proj2 (unrated_facts_dropped ExamplePlatform.platform (Example.cfg 6 1)
     [JObj [("fact", JStr "Alpha"); ("url", JStr "https://nist.gov/x")];
      JObj [("fact", JStr "Beta"); ("url", JStr "https://nist.gov/y");
            ("confidence", jint 0)]]
     ltac:(repeat constructor; eexists; split; reflexivity))) as Hd.
  destruct (@round_facts ExamplePlatform.platform (Example.cfg 6 1) _) as [out|msg] eqn:Hr.
  - by rewrite (Hd out eq_refl).
  - vm_compute in Hr. discriminate Hr.
Defined.

Section Blank.
Context `{Platform}.

Lemma domains_some_blank host ds :
  Forall blank_entry ds -> domains_some host ds = Ok false.
Proof.
  induction 1 as [|d ds (s & -> & Hs) _ IH]; cbn [domains_some]; [done|].
  unfold domain_matches. cbn [JS.ToString res_bind]. rewrite Hs. cbn [res_bind]. exact IH.
Qed.

End Blank.

(** X20.  A non-empty [forceDomains] list whose entries are all blank
    strings admits no URL at all. *)
Theorem blank_domains_reject (P : Platform) url ds :
  ds <> [] -> Forall blank_entry ds ->
  urlAllowedByForceDomains url (Some ds) = false.
Proof.
  intros Hne Hds. unfold urlAllowedByForceDomains.
  destruct ds as [|d ds]; [done|].
  destruct (URL_hostname url) as [h|]; [|done].
  by rewrite domains_some_blank.
Qed.

Lemma blank_domains_reject_witness :
  @urlAllowedByForceDomains ExamplePlatform.platform "https://nist.gov/x"
    (Some [JStr ""; JStr "  "]) = false.
Proof.
  apply (blank_domains_reject ExamplePlatform.platform); [done|].
  repeat constructor; eexists; split; reflexivity.
Defined.

(** ** Scores and letter case *)

Lemma lower_char_idem c : Str.lower_char (Str.lower_char c) = Str.lower_char c.
Proof. by destruct c as [[] [] [] [] [] [] [] []]. Qed.

Lemma toLowerCase_idem s : Str.toLowerCase (Str.toLowerCase s) = Str.toLowerCase s.
Proof.
  induction s as [|c s IH]; cbn [Str.toLowerCase]; [done|].
  by rewrite lower_char_idem, IH.
Qed.

(** X21.  The score of a URL does not depend on the case of its letters,
    and it is always between 1 and 5. *)
Theorem domainQualityScore_case url :
  domainQualityScore (Str.toLowerCase url) = domainQualityScore url
  /\ 1 <= domainQualityScore url <= 5.
Proof.
  split.
  - unfold domainQualityScore. by rewrite toLowerCase_idem.
  - unfold domainQualityScore.
    repeat match goal with |- context [if ?b then _ else _] => destruct b end; lia.
Qed.

(** ** Stop thresholds of a plan *)

(** X22.  A stop threshold that the plan leaves out, or gives as 0 or
    another falsy value, is replaced by its default; a plan without
    [stop_when] gets the thresholds 3, 8 and 2. *)
Theorem threshold_fallback (P : Platform) plan :
  (forall k d,
     JS.truthy (JS.get_opt (JS.or (JS.get_opt plan "stop_when") (JObj [])) k) = false ->
     stop_number plan k d = Ok (Num.of_Z d))
  /\ (JS.truthy (JS.get_opt plan "stop_when") = false ->
      plan_thresholds plan
      = Ok {| minSources := Fin 3; minFacts := Fin 8; noNewRoundsLimit := Fin 2 |}).
Proof.
  assert (forall k d,
    JS.truthy (JS.get_opt (JS.or (JS.get_opt plan "stop_when") (JObj [])) k) = false ->
    stop_number plan k d = Ok (Num.of_Z d)) as Hone.
  { intros k d Hk. unfold stop_number, JS.or at 1. by rewrite Hk. }
  split; [done|]. intros Hs. unfold plan_thresholds.
  assert (forall k, JS.truthy
            (JS.get_opt (JS.or (JS.get_opt plan "stop_when") (JObj [])) k) = false) as Hk.
  { intros k. unfold JS.or. by rewrite Hs. }
  by rewrite !Hone.
Qed.

Lemma threshold_fallback_witness :
  @stop_number ExamplePlatform.platform
    (JObj [("stop_when", JObj [("min_facts", jint 0)])]) "min_facts" 8
  = Ok (Num.of_Z 8).
Proof.
  apply (proj1 (threshold_fallback ExamplePlatform.platform
                  (JObj [("stop_when", JObj [("min_facts", jint 0)])]))).
  reflexivity.
Defined.

(** ** The options sent with a model request *)

(** X23.  [buildPayloadOptions] never sends [store: true], an empty
    [instructions] string or an empty [reasoning] object; it sends
    [background] and [max_tool_calls] only for a deep-research model, and
    then a [max_tool_calls] that is not 0. *)
Theorem payload_options_sound cfg o :
  buildPayloadOptions cfg = Ok o ->
  po_store o <> Some true
  /\ po_instructions o <> Some ""
  /\ po_reasoning o <> Some (None, None)
  /\ (isDeepResearchModel (model cfg) = Ok false ->
      po_background o = None /\ po_max_tool_calls o = None)
  /\ (isDeepResearchModel (model cfg) = Ok true ->
      po_background o = (if background cfg then Some true else None)
      /\ exists n, po_max_tool_calls o = Some n /\ n <> 0).
Proof.
  unfold buildPayloadOptions. intros Hb. bind_inv Hb. rename x into deep.
  injection Hb as <-. cbn [po_store po_instructions po_reasoning po_background
                           po_max_tool_calls].
  split; [by destruct (store cfg)|].
  split; [by destruct (instructions cfg) as [[|]|]|].
  split.
  { destruct (reasoning_effort cfg) as [[|]|], (reasoningSummary cfg) as [[|]|]; done. }
  split.
  - intros Hd. rewrite E in Hd. by injection Hd as ->.
  - intros Hd. rewrite E in Hd. injection Hd as ->. split; [done|].
    destruct (maxToolCalls cfg) as [n|]; [|by exists 50].
    destruct (Z.eqb_spec n 0); [by exists 50 | by exists n].
Qed.

Lemma payload_options_sound_witness :
  exists o,
    buildPayloadOptions Jobs.background_cfg = Ok o
    /\ po_background o = Some true /\ po_max_tool_calls o = Some 50.
Proof.
  eexists. split; [vm_compute; reflexivity|].
  destruct (payload_options_sound Jobs.background_cfg _ eq_refl)
    as (_ & _ & _ & _ & Hdeep).
  destruct (Hdeep eq_refl) as (Hb & n & Hn & _). split; [exact Hb|]. reflexivity.
Defined.

(** ** Why the loop ended *)

Section StopReason.
Context `{Platform}.
Variable st : stages.
Variable cfg : config.
Variable queries : list jsval.
Variable th : thresholds.

Lemma round_body_stop round s s' b :
  round_body st cfg queries th round s = Ok (s', b) ->
  forall reason,
    last (trace s') = Some (TrStop reason)
    <-> stop_decision cfg th (noNewRounds s') (gathered s') = Some reason.
Proof.
  unfold round_body. intros Hb. bind_inv Hb. rename x into r.
  destruct (stop_decision cfg th _ (after r)) as [reason0|] eqn:Hstop;
    injection Hb as <- <-; cbn [trace noNewRounds gathered]; intros reason; rewrite Hstop.
  - rewrite last_snoc. split; congruence.
  - unfold round_events. erewrite last_app by reflexivity. split; discriminate.
Qed.

Lemma research_loop_stop fuel : forall round s s',
  round <= maxSearchRounds cfg ->
  research_loop st cfg queries th fuel round s = Returns s' ->
  forall reason,
    last (trace s') = Some (TrStop reason)
    <-> stop_decision cfg th (noNewRounds s') (gathered s') = Some reason.
Proof.
  induction fuel as [|fuel IH]; intros round s s' Hle; cbn [research_loop];
    rewrite (proj2 (Z.leb_le _ _) Hle); [done|].
  intros Hl. bind_inv Hl. destruct x as [s1 b]. cbn [fst snd] in Hl.
  pose proof (round_body_stop _ _ _ _ E) as Hs1.
  destruct b; [by injection Hl as <-|].
  destruct (Z.leb_spec (round + 1) (maxSearchRounds cfg)) as [Hnext|Hlast].
  - by eapply IH.
  - assert (research_loop st cfg queries th fuel (round + 1) s1 = Returns s1) as Hend.
    { destruct fuel; cbn [research_loop]; by rewrite (proj2 (Z.leb_gt _ _) Hlast). }
    rewrite Hend in Hl. by injection Hl as <-.
Qed.

End StopReason.

(** X24.  The trace tells why the loop ended.  For a configuration with at
    least one round, the trace of the rounds ends with a [stop] event
    exactly when a stop condition holds of the final evidence, and the
    event names the first condition that holds: the fact budget, then
    coverage, then stagnation. *)
Theorem stop_reason_true (P : Platform) st question cfg plan s :
  1 <= maxSearchRounds cfg ->
  run_rounds st question cfg plan = Returns s ->
  exists th,
    plan_thresholds plan = Ok th
    /\ forall reason,
         last (trace s) = Some (TrStop reason)
         <-> stop_decision cfg th (noNewRounds s) (gathered s) = Some reason.
Proof.
  intros Hmax. unfold run_rounds. intros Hr. bind_inv Hr. rename x into th.
  exists th. split; [done|]. by eapply research_loop_stop.
Qed.

Lemma stop_reason_true_witness :
  exists s th,
    @run_rounds ExamplePlatform.platform Example.replies "question" (Example.cfg 6 1) JNull
    = Returns s
    /\ @plan_thresholds ExamplePlatform.platform JNull = Ok th
    /\ forall reason,
         last (trace s) = Some (TrStop reason)
         <-> stop_decision (Example.cfg 6 1) th (noNewRounds s) (gathered s) = Some reason.
Proof.
  destruct (stop_reason_true ExamplePlatform.platform Example.replies "question"
              (Example.cfg 6 1) JNull
              match @run_rounds ExamplePlatform.platform Example.replies "question"
                      (Example.cfg 6 1) JNull with
              | Returns s => s
              | _ => initial_state JNull
              end) as (th & Hth & Hstop).
  - done.
  - vm_compute. reflexivity.
  - eexists _, th. split; [vm_compute; reflexivity|]. split; [exact Hth|]. exact Hstop.
Defined.

(** ** What the submit path returns *)

Section SubmitShape.
Context `{Platform}.
Variable net : network.

Lemma submit_try_no_return s startPoll w r w' :
  submit_try net s startPoll w <> (TryReturn r, w').
Proof.
  unfold submit_try. destruct (res_bind _ _) as [id|]; [|done].
  destruct (fetch net (GET_response id) w) as [[pollResp|msg] w1]; [|done].
  unfold poll_response. destruct (negb (http_ok pollResp)).
  - destruct (http_status pollResp =? 429); [|done]. by destruct (_ >=? _).
  - destruct (body_json pollResp) as [b|]; [|done]. by destruct (JS.get b "status").
Qed.

Lemma submit_poll_loop_no_return startPoll fuel : forall s w r w',
  submit_poll_loop net fuel startPoll s w <> (Returns (Returned r), w').
Proof.
  induction fuel as [|fuel IH]; intros s w r w'; cbn [submit_poll_loop];
    (destruct (non_terminal (result s)) as [nt|]; [|done]);
    (destruct (nt && _); [|done]); [done|].
  pose proof (submit_try_no_return s startPoll (sleep (Num.of_Z pollInterval) w)) as Hno.
  destruct (submit_try net s startPoll (sleep (Num.of_Z pollInterval) w))
    as [[s'|s'|msg s'|r'] w2].
  - apply IH.
  - apply IH.
  - destruct (Str.includes msg "Rate limit"); [done|].
    destruct (_ >=? _); [done | apply IH].
  - by destruct (Hno r' w2).
Qed.

Lemma submit_try_outcome s startPoll w o w' :
  submit_try net s startPoll w = (o, w') ->
  match o with
  | TryDone s' => last_response net w' (result s')
  | TryContinue s' => result s' = result s
  | TryThrow _ s' =>
      result s' = result s \/ exists m, JS.get (result s') "status" = Throw m
  | TryReturn _ => False
  end.
Proof.
  unfold submit_try. destruct (res_bind _ _) as [id|]; [|by intros [= <- _]; left].
  unfold fetch. destruct (outcome (net (fetches w) (GET_response id)))
    as [message|pollResp] eqn:Hout; [by intros [= <- _]; left|].
  unfold poll_response. destruct (negb (http_ok pollResp)) eqn:Hok.
  - destruct (http_status pollResp =? 429); [|by intros [= <- _]; left].
    destruct (_ >=? _); intros [= <- _]; [by left | done].
  - apply negb_false_iff in Hok. unfold body_json.
    destruct (http_body_of pollResp) as [text body|text e] eqn:Hbody;
      [|by intros [= <- _]; left].
    destruct (JS.get body "status") as [st|m] eqn:Hst; intros [= <- <-].
    + exists (GET_response id), pollResp, text. cbn [io_log fetches result].
      rewrite last_snoc. replace (S (fetches w) - 1)%nat with (fetches w) by lia.
      repeat split; [lia | done..].
    + right. by exists m.
Qed.

Lemma non_terminal_status v m : JS.get v "status" = Throw m -> non_terminal v <> Ok false.
Proof. unfold non_terminal. by intros ->. Qed.

(** When the poll loop ends by itself on a finished job, the job's data
    is the body of the last response received. *)
Lemma submit_poll_loop_last startPoll fuel : forall s w s' w',
  submit_poll_loop net fuel startPoll s w = (Returns (LoopDone s'), w') ->
  (non_terminal (result s) = Ok false -> last_response net w (result s)) ->
  non_terminal (result s') = Ok false ->
  last_response net w' (result s').
Proof.
  induction fuel as [|fuel IH]; intros s w s' w'; cbn [submit_poll_loop];
    (destruct (non_terminal (result s)) as [nt|] eqn:Hnt; [|done]);
    (destruct (nt && _) eqn:Hcond;
       [|intros [= <- <-] Hs Hf; apply Hs; by rewrite <- Hnt]); [done|].
  apply andb_true_iff in Hcond as [-> _].
  pose proof (submit_try_outcome s startPoll (sleep (Num.of_Z pollInterval) w)) as Htry.
  destruct (submit_try net s startPoll (sleep (Num.of_Z pollInterval) w))
    as [[s1|s1|msg s1|r1] w2]; specialize (Htry _ _ eq_refl); cbn beta iota in Htry.
  - intros Hl _. eapply IH; [exact Hl|]. by intros _.
  - intros Hl _. eapply IH; [exact Hl|]. rewrite Htry, Hnt. discriminate.
  - destruct (Str.includes msg "Rate limit"); [done|].
    destruct (_ >=? _); [done|].
    intros Hl _. eapply IH; [exact Hl|]. cbn [result].
    destruct Htry as [->|(m & Hm)]; [rewrite Hnt; discriminate|].
    intros Hf. by destruct (non_terminal_status _ _ Hm).
  - done.
Qed.

Lemma last_retry_log input baseDelayMs (k : nat) : forall attempt,
  last (retry_log input baseDelayMs attempt k) = Some (IoFetch (POST_responses input)).
Proof.
  induction k as [|k IH]; intros attempt; cbn [retry_log]; [done|].
  specialize (IH (attempt + 1)).
  destruct (retry_log input baseDelayMs (attempt + 1) k); [done | exact IH].
Qed.

(** A creation request that succeeds hands on the body of the last
    response received. *)
Lemma openaiResponsesCreate_last input w st data w' :
  openaiResponsesCreate net input None w = (Returns (RResult (ApiOk st data)), w') ->
  data <> JNull ->
  last_response net w' data.
Proof.
  intros Hc Hdata.
  destruct (first_final (fun i => transient (attempt_outcome net input w i)) 3)
    as (k & Hk & Hbefore & Hlast).
  destruct (retry_loop_attempts net input 3 1000 k 4 0 RUndefined w)
    as (w1 & Hrun & Hlog & Hf); [lia | lia | done | |].
  { destruct Hlast as [->|?]; [by left | by right]. }
  unfold openaiResponsesCreate, retryWithBackoff in Hc.
  change (default 3 (Some (default 3 None))) with 3 in Hc.
  change (default 1000 None) with 1000 in Hc.
  change (S (Z.to_nat 3)) with 4%nat in Hc.
  rewrite Hrun in Hc. unfold attempt_outcome in Hc.
  destruct (outcome (net (fetches w + k)%nat (POST_responses input)))
    as [message|r] eqn:Hout; [done|].
  injection Hc as Hres <-. unfold api_result_of in Hres.
  destruct (negb (http_ok r)) eqn:Hok; [done|]. injection Hres as _ Hbody.
  apply negb_false_iff in Hok.
  destruct (http_body_of r) as [text body|text e] eqn:Hb; [|by subst data].
  subst body. exists (POST_responses input), r, text.
  rewrite Hlog, Hf. split; [by rewrite last_app, last_retry_log|].
  split; [lia|]. replace (fetches w + k + 1 - 1)%nat with (fetches w + k)%nat by lia.
  done.
Qed.

(** The end of the submit path changes nothing in the world and reports
    the data it is given. *)
Lemma submit_finish_result t data tr w x w' :
  submit_finish t data tr w = (Returns x, w') ->
  w' = w /\ well_formed x /\ is_Some (stamps x)
  /\ raw_response x = Some data /\ JS.get data "id" = Ok (response_id x)
  /\ exists st,
       JS.get data "status" = Ok st /\ ok x = negb (status_is st "failed")
       /\ forall a, job_answer x = Some a -> extractText data = Ok a.
Proof.
  unfold submit_finish. intros Hf. do 2 io_inv Hf. rename a into st.
  destruct (status_is st "failed") eqn:Hfailed.
  - io_inv Hf. io_inv Hf.
    match goal with Hd : Date_now _ = _ |- _ => injection Hd as <- <- end.
    apply io_lift_Returns in Hf as [Hf ->].
    unfold failed_result in Hf. bind_inv Hf. injection Hf as <-.
    unfold well_formed. cbn. repeat split; eauto.
    exists st. rewrite Hfailed. by repeat split.
  - io_inv Hf. io_inv Hf.
    match goal with Hd : Date_now _ = _ |- _ => injection Hd as <- <- end.
    injection Hf as <- <-.
    unfold well_formed. cbn. repeat split; eauto.
    exists st. rewrite Hfailed. repeat split; [done|]. by intros ? [= <-].
Qed.

End SubmitShape.

(** X25.  Every object [runDeepResearchModel] returns is well formed and
    carries its time stamps and, as its raw response, the body of the last
    response received; the id it reports is read from that body, it is a
    success unless the status of that body is [failed], and its answer is
    the text extracted from that body.  With background polling on, that
    body is no longer in progress or queued. *)
Theorem submit_result (P : Platform) net question cfg w x w' :
  runDeepResearchModel net question cfg w = (Returns x, w') ->
  well_formed x /\ is_Some (stamps x)
  /\ exists data st,
       raw_response x = Some data
       /\ last_response net w' data
       /\ JS.get data "id" = Ok (response_id x)
       /\ JS.get data "status" = Ok st
       /\ ok x = negb (status_is st "failed")
       /\ (forall a, job_answer x = Some a -> extractText data = Ok a)
       /\ (background cfg = true -> non_terminal data = Ok false).
Proof.
  unfold runDeepResearchModel. intros Hr. io_inv Hr. injection E as <- <-.
  io_inv Hr. rename a into resp, E into Hcreate.
  io_inv Hr. rename a into data, E into Hdata.
  io_inv Hr. rename a into st0, E into Hst0.
  io_inv Hr. rename a into id0.
  assert (exists status, resp = RResult (ApiOk status data) /\ w1 = w0)
    as (status & -> & ->).
  { destruct resp as [|[status d|status e]|message]; try done.
    injection Hdata as <- <-. by exists status. }
  assert (data <> JNull) as Hnull by (intros ->; done).
  pose proof (openaiResponsesCreate_last _ _ _ _ _ _ Hcreate Hnull) as Hlast0.
  destruct (background cfg && _) eqn:Hbg.
  - io_inv Hr. injection E0 as <- <-. io_inv Hr. rename a into e, E0 into Hloop.
    destruct e as [s|r]; [|by apply submit_poll_loop_no_return in Hloop].
    io_inv Hr. rename a into nt, E0 into Hnt. destruct nt; [done|].
    apply submit_finish_result in Hr
      as (-> & Hwf & Hstamps & Hraw & Hid & st & Hst & Hok & Hanswer).
    split; [done|]. split; [done|]. exists (result s), st.
    repeat split; try done.
    eapply submit_poll_loop_last; [exact Hloop | | done].
    cbn [result]. unfold non_terminal. rewrite Hst0. cbn [res_bind].
    apply andb_true_iff in Hbg as [_ ->]. discriminate.
  - apply submit_finish_result in Hr
      as (-> & Hwf & Hstamps & Hraw & Hid & st & Hst & Hok & Hanswer).
    split; [done|]. split; [done|]. exists data, st.
    repeat split; try done.
    intros Hb. rewrite Hb in Hbg. cbn [andb] in Hbg.
    unfold non_terminal. rewrite Hst0. cbn [res_bind]. by rewrite Hbg.
Qed.

Lemma submit_result_witness :
  exists x w',
    @runDeepResearchModel ExamplePlatform.platform queued_then_done "q"
      Jobs.background_cfg Jobs.start = (Returns x, w')
    /\ fetches w' = 3%nat
    /\ raw_response x = Some (Jobs.job "resp_1" "completed")
    /\ well_formed x /\ is_Some (stamps x)
    /\ exists data st,
         raw_response x = Some data
         /\ last_response queued_then_done w' data
         /\ JS.get data "id" = Ok (response_id x)
         /\ JS.get data "status" = Ok st
         /\ ok x = negb (status_is st "failed")
         /\ (forall a, job_answer x = Some a ->
               @extractText ExamplePlatform.platform data = Ok a)
         /\ (background Jobs.background_cfg = true -> non_terminal data = Ok false).
Proof.
  do 2 eexists. split; [vm_compute; reflexivity|].
  split; [reflexivity|]. split; [reflexivity|].
  apply (submit_result ExamplePlatform.platform queued_then_done "q"
           Jobs.background_cfg Jobs.start).
  vm_compute. reflexivity.
Defined.

(** ** Replies that cannot be used *)

Lemma parsed_or_unusable p dflt : unusable p -> parsed_or p dflt = dflt.
Proof.
  destruct p as [v|]; cbn [unusable parsed_or]; [|done].
  intros Hv. unfold JS.or. by rewrite Hv.
Qed.

Lemma add_urls_again facts : add_urls (add_urls ∅ facts) facts = add_urls ∅ facts.
Proof.
  apply set_eq. intros u. rewrite !add_urls_elem. split; [|by left].
  intros [[?|?]|?]; auto.
Qed.

(** X26.  A round whose extraction reply cannot be used -- it is not JSON,
    or it is JSON for a falsy value -- finds nothing: all its counts are 0
    and settled evidence is left exactly as it was. *)
Theorem unusable_extraction (P : Platform) st cfg queries round e r :
  (forall snippets p, extractFacts_reply st round snippets = Ok p -> unusable p) ->
  settled cfg e ->
  round_evidence st cfg queries round e = Ok r ->
  rawFactCount r = 0 /\ filteredFactCount r = 0 /\ newFacts r = 0 /\ after r = e.
Proof.
  intros Hreply (_ & Hfix & Hurls). unfold round_evidence. intros Hr.
  bind_inv Hr. rename x into snippets.
  apply bind_Ok in Hr as (extracted & Hext & Hr).
  unfold extractFacts in Hext. apply bind_Ok in Hext as (p & Hp & Hext).
  rewrite (parsed_or_unusable _ _ (Hreply _ _ Hp)) in Hext. injection Hext as <-.
  change (JS.get (JObj [("facts", JArr []); ("conflicts", JArr [])]) "facts")
    with (Ok (JArr [])) in Hr.
  change (JS.get (JObj [("facts", JArr []); ("conflicts", JArr [])]) "conflicts")
    with (Ok (JArr [])) in Hr.
  cbn [res_bind] in Hr.
  unfold round_facts in Hr.
  cbn [JS.or JS.truthy res_bind res_map List.filter] in Hr.
  rewrite app_nil_r, Hfix in Hr. cbn [res_bind] in Hr.
  injection Hr as <-.
  cbn [rawFactCount filteredFactCount newFacts after]. unfold len. cbn [length].
  repeat split; try lia.
  destruct e as [facts confl seen]. cbn [allFacts allConflicts seenUrls] in *.
  unfold concat_conflicts. rewrite app_nil_r. f_equal.
  rewrite Hurls. apply add_urls_again.
Qed.

Lemma unusable_extraction_witness :
  exists r,
    @round_evidence ExamplePlatform.platform garbled (Example.cfg 6 1)
      (jstrs_list ["q1"]) 1 (gathered (initial_state JNull)) = Ok r
    /\ rawFactCount r = 0 /\ filteredFactCount r = 0 /\ newFacts r = 0
    /\ after r = gathered (initial_state JNull).
Proof.
  eexists. split; [vm_compute; reflexivity|].
  apply (unusable_extraction ExamplePlatform.platform garbled (Example.cfg 6 1)
           (jstrs_list ["q1"]) 1 (gathered (initial_state JNull))).
  - intros snippets p [= <-]. exact I.
  - repeat split. constructor.
  - vm_compute. reflexivity.
Defined.

(** ** A status request that fails *)

(** X27.  When the first status request of a resume is answered with a
    status outside 2xx, [handleResumeResponse] sends nothing else.  Unless
    the body is the JSON value [null], it returns a failure that carries
    the job id, the HTTP status and, as its error, the truthy
    [error.message] of the body or else a message naming the status; it
    has no answer, no time stamps and an empty trace.  On a [null] body
    reading the error throws. *)
Theorem resume_failed_fetch (P : Platform) net id w r :
  outcome (net (fetches w) (GET_response id)) = Response r ->
  http_ok r = false ->
  (body_json_or_empty r <> JNull -> body_json_or_empty r <> JUndef ->
   handleResumeResponse net id w
   = (Returns
        {| ok := false; stamps := None; job_answer := None;
           job_error :=
             Some (JS.or
                     (JS.get_opt (JS.get_opt (body_json_or_empty r) "error") "message")
                     (JStr ("Failed to fetch response: " +:+ pretty (http_status r))));
           job_error_code := None; response_id := JStr id; job_status := None;
           status_code := Some (http_status r); raw_response := None;
           job_trace := [] |},
      status_fetched net id w))
  /\ (body_json_or_empty r = JNull ->
      handleResumeResponse net id w
      = (Throws (JS.read_error JNull "error"), status_fetched net id w)).
Proof.
  intros Hout Hok.
  assert (io_eff (fetch net (GET_response id)) w
          = (Returns r, status_fetched net id w)) as Hfetch.
  { unfold io_eff, fetch. by rewrite Hout. }
  assert (forall e, match e with
                    | JUndef | JNull => JUndef
                    | _ => JS.get_opt e "message"
                    end = JS.get_opt e "message") as Hmsg by (by intros []).
  split;
    (unfold handleResumeResponse; unfold io_bind at 1; unfold Date_now;
     unfold io_bind at 1; rewrite Hfetch, Hok; cbn [negb]).
  - intros Hbody Hdef. unfold io_bind, io_lift.
    destruct (body_json_or_empty r) as [| | | | | |fs] eqn:Herr; try done;
      cbn [JS.get run_of JS.get_opt]; unfold io_ret; by rewrite Hmsg.
  - intros Hnull. rewrite Hnull. reflexivity.
Qed.

Lemma resume_failed_fetch_witness :
  @handleResumeResponse ExamplePlatform.platform missing_job "resp_9" Jobs.start
  = (Returns
       {| ok := false; stamps := None; job_answer := None;
          job_error := Some (JStr "No such response");
          job_error_code := None; response_id := JStr "resp_9"; job_status := None;
          status_code := Some 404; raw_response := None; job_trace := [] |},
     status_fetched missing_job "resp_9" Jobs.start).
Proof.
  apply (proj1 (resume_failed_fetch ExamplePlatform.platform missing_job "resp_9"
                  Jobs.start not_found eq_refl eq_refl)); discriminate.
Defined.

(** ** The shape of the trace *)

Section TraceShape.
Context `{Platform}.
Variable st : stages.
Variable cfg : config.
Variable queries : list jsval.
Variable th : thresholds.

Lemma round_body_events round s s' b :
  round_body st cfg queries th round s = Ok (s', b) ->
  exists evs,
    Forall round_event evs
    /\ if b then exists reason, trace s' = trace s ++ evs ++ [TrStop reason]
       else trace s' = trace s ++ evs.
Proof.
  unfold round_body. intros Hb. bind_inv Hb. rename x into r.
  exists (round_events round r). split; [by repeat constructor|].
  destruct stop_decision as [reason|]; injection Hb as <- <-; cbn [trace]; [|done].
  exists reason. by rewrite <- app_assoc.
Qed.

Lemma research_loop_events fuel : forall round s s',
  research_loop st cfg queries th fuel round s = Returns s' ->
  exists events, trace s' = trace s ++ events /\ rounds_trace events.
Proof.
  induction fuel as [|fuel IH]; intros round s s'; cbn [research_loop];
    destruct (round <=? maxSearchRounds cfg); try done.
  - intros [= <-]. exists []. rewrite app_nil_r. split; [done|]. left. constructor.
  - intros Hl. bind_inv Hl. destruct x as [s1 b]. cbn [fst snd] in Hl.
    destruct (round_body_events _ _ _ _ E) as (evs & Hevs & Htr).
    destruct b.
    + injection Hl as <-. destruct Htr as (reason & Htr).
      exists (evs ++ [TrStop reason]). split; [done|]. right. by exists evs, reason.
    + destruct (IH _ _ _ Hl) as (events & Hs' & Hshape).
      exists (evs ++ events). rewrite Hs', Htr, <- app_assoc. split; [done|].
      destruct Hshape as [Hall|(body & reason & -> & Hbody)].
      * left. by apply Forall_app.
      * right. exists (evs ++ body), reason. rewrite <- app_assoc.
        split; [done | by apply Forall_app].
  - intros [= <-]. exists []. rewrite app_nil_r. split; [done|]. left. constructor.
Qed.

End TraceShape.

(** X28.  The trace of a result has a fixed shape: the plan event, then the
    search and extract events of the rounds, closed by at most one stop
    event, then the draft event and the validation event. *)
Theorem trace_shape (P : Platform) st question cfg r :
  deepResearchAgent st question cfg = Returns (Researched r) ->
  exists events draftLen,
    r_trace r
    = TrPlan (r_plan r) :: events ++ [TrDraft draftLen; TrValidate (validation r)]
    /\ rounds_trace events.
Proof.
  intros (s & Hrun & _ & _ & _ & draftLen & ->)%agent_rounds.
  unfold run_rounds in Hrun. bind_inv Hrun.
  apply research_loop_events in Hrun as (events & -> & Hshape).
  by exists events, draftLen.
Qed.

Lemma trace_shape_witness :
  exists r,
    @deepResearchAgent ExamplePlatform.platform Example.replies "question" (Example.cfg 6 1)
    = Returns (Researched r)
    /\ exists events draftLen,
         r_trace r
         = TrPlan (r_plan r) :: events ++ [TrDraft draftLen; TrValidate (validation r)]
         /\ rounds_trace events.
Proof.
  eexists. split; [vm_compute; reflexivity|].
  apply (trace_shape ExamplePlatform.platform Example.replies "question" (Example.cfg 6 1)).
  vm_compute. reflexivity.
Defined.

Lemma sliceJsonBlock_idempotent_witness :
  exists pre mid post,
    "ok: {'a': 1} end" = pre +:+ "{" +:+ mid +:+ "}" +:+ post
    /\ Text.indexOf pre "{" = None /\ Text.lastIndexOf post "}" = None
    /\ sliceJsonBlock "ok: {'a': 1} end" = "{" +:+ mid +:+ "}".
Proof.
  apply (proj2 (sliceJsonBlock_idempotent "ok: {'a': 1} end")).
  vm_compute. discriminate.
Defined.
